(** * Optics: from a marker trajectory in a video to ray-optics scenes

    A shallow embedding of the video pipeline of the repository
    ([process_video_to_scenes.py], [detect_green_dot.py] and
    [batch_generate_json.py]):

    - Python numbers are [Z] and IEEE-754 binary64 values ([spec_float],
      the reference implementation of the Standard Library);
    - exceptions are values of [pyexn], carried by the [result] monad;
    - dicts and lists live in a heap ([gmap loc pyobj]) so that aliasing
      between the template and the generated scenes can be stated;
    - OpenCV is an interface ([OpenCV]), the repository only calls it.

    Definitions come first, the properties follow. *)

From stdpp Require Import base option list gmap strings pretty sorting.
From Stdlib Require Import ZArith Lia SpecFloat.

Set Warnings "-register-all".
Local Open Scope Z_scope.

(** ** Binary64 arithmetic as Python performs it *)

Module Binary64.

(** [float(z)]: the correctly rounded conversion of an integer. *)
Definition of_int (z : Z) : spec_float := binary_normalize 53 1024 z 0 false.

(** An integer as the pair (mantissa, exponent 0), without rounding. *)
Definition exact (z : Z) : spec_float :=
  match z with
  | Z0 => S754_zero false
  | Zpos p => S754_finite false p 0
  | Zneg p => S754_finite true p 0
  end.

Definition fadd : spec_float -> spec_float -> spec_float := SFadd 53 1024.
Definition fsub : spec_float -> spec_float -> spec_float := SFsub 53 1024.
Definition fmul : spec_float -> spec_float -> spec_float := SFmul 53 1024.
Definition fdiv : spec_float -> spec_float -> spec_float := SFdiv 53 1024.

Definition is_zero (x : spec_float) : bool :=
  match x with S754_zero _ => true | _ => false end.

(** [x != 0] on a float: true on NaN, false on both zeros. *)
Definition ne_zero (x : spec_float) : bool := negb (SFeqb x (S754_zero false)).

(** Truncation toward zero of a finite value; [None] on infinities and NaN. *)
Definition trunc (x : spec_float) : option Z :=
  match x with
  | S754_zero _ => Some 0
  | S754_finite s m e =>
      Some (cond_Zopp s (if e <? 0 then Z.pos m / 2 ^ (- e) else Z.pos m * 2 ^ e))
  | S754_infinity _ | S754_nan => None
  end.

End Binary64.

Import Binary64.

(** ** Python exceptions and the error monad *)

(** The [ValueError]s of the pipeline, by the place that raises them, and
    those of the runtime. The design document names the first three
    [SourceUnavailable], [NoDetections] and [NoReferenceFound]. *)
Inductive value_error :=
  | CannotOpenVideo
  | NoGreenDot
  | NoPointSource
  | NanToInt
  | CircularReference.

Inductive pyexn :=
  | ValueError (why : value_error)
  | FileNotFoundError
  | KeyError (key : string)
  | IndexError
  | TypeError
  | AttributeError
  | ZeroDivisionError
  | OverflowError
  | JSONDecodeError
  | CalledProcessError.

Inductive result (A : Type) : Type :=
  | Ok (a : A)
  | Err (e : pyexn).
Arguments Ok {A} a.
Arguments Err {A} e.

Global Instance result_ret : MRet result := fun A a => Ok a.
Global Instance result_bind : MBind result := fun A B f m =>
  match m with Ok a => f a | Err e => Err e end.
Global Instance result_fmap : FMap result := fun A B f m =>
  match m with Ok a => Ok (f a) | Err e => Err e end.

Definition is_Ok {A} (r : result A) : Prop := exists a, r = Ok a.
Definition is_Err {A} (r : result A) : Prop := exists e, r = Err e.

(** ** Python numbers *)

Inductive pynum :=
  | PInt (z : Z)
  | PFloat (x : spec_float).

(** [float(z)] raises OverflowError when [z] is too large for a double. *)
Definition py_float (z : Z) : result spec_float :=
  match of_int z with
  | S754_infinity _ => Err OverflowError
  | x => Ok x
  end.

Definition as_float (n : pynum) : result spec_float :=
  match n with
  | PInt z => py_float z
  | PFloat x => Ok x
  end.

(** [a + b] and [a - b]: exact on two ints, binary64 otherwise. *)
Definition py_add (a b : pynum) : result pynum :=
  match a, b with
  | PInt x, PInt y => Ok (PInt (x + y))
  | _, _ => x ← as_float a; y ← as_float b; Ok (PFloat (fadd x y))
  end.

Definition py_sub (a b : pynum) : result pynum :=
  match a, b with
  | PInt x, PInt y => Ok (PInt (x - y))
  | _, _ => x ← as_float a; y ← as_float b; Ok (PFloat (fsub x y))
  end.

(** [a == b] on numbers; an int operand of a mixed comparison is taken
    through [float], which is exact below 2^53. *)
Definition py_num_eqb (a b : pynum) : bool :=
  match a, b with
  | PInt x, PInt y => x =? y
  | PInt x, PFloat y => SFeqb (of_int x) y
  | PFloat x, PInt y => SFeqb x (of_int y)
  | PFloat x, PFloat y => SFeqb x y
  end.

(** [a / b] on two ints: the correctly rounded quotient of the exact
    operands, whatever their size. *)
Definition py_truediv_int (a b : Z) : result spec_float :=
  if b =? 0 then Err ZeroDivisionError
  else match fdiv (exact a) (exact b) with
       | S754_infinity _ => Err OverflowError
       | q => Ok q
       end.

(** [x / y] on two floats. *)
Definition py_truediv_float (x y : spec_float) : result spec_float :=
  if is_zero y then Err ZeroDivisionError else Ok (fdiv x y).

(** [i * x] with an int on the left: [i] is converted first. *)
Definition py_mul_int_float (i : Z) (x : spec_float) : result spec_float :=
  fi ← py_float i; Ok (fmul fi x).

(** [int(x)] *)
Definition py_int (x : spec_float) : result Z :=
  match x with
  | S754_nan => Err (ValueError NanToInt)
  | S754_infinity _ => Err OverflowError
  | _ => match trunc x with Some z => Ok z | None => Err OverflowError end
  end.

(** [range(n)] *)
Definition py_range (n : Z) : list Z := Z.of_nat <$> seq 0 (Z.to_nat n).

(** [l[idx]] on a list: negative indices count from the end. *)
Definition py_getitem {A} (l : list A) (idx : Z) : result A :=
  let i := if idx <? 0 then idx + Z.of_nat (length l) else idx in
  if i <? 0 then Err IndexError
  else match l !! Z.to_nat i with
       | Some a => Ok a
       | None => Err IndexError
       end.

(** ** MarkerLocator: [detect_green_in_frame] *)

Record Moments := { m00 : spec_float; m10 : spec_float; m01 : spec_float }.

Inductive morph_op := MORPH_OPEN | MORPH_CLOSE.

(** The OpenCV calls of the repository. [findContours] stands for the
    call with [RETR_EXTERNAL] and [CHAIN_APPROX_SIMPLE]; the kernel of
    [morphologyEx] is the k by k matrix of ones. *)
Class OpenCV := {
  frame : Type;
  hsv_image : Type;
  mask_image : Type;
  contour : Type;
  cvtColor_BGR2HSV : frame -> hsv_image;
  inRange : hsv_image -> Z * Z * Z -> Z * Z * Z -> mask_image;
  morphologyEx : mask_image -> morph_op -> nat -> mask_image;
  findContours : mask_image -> list contour;
  contourArea : contour -> spec_float;
  moments : contour -> Moments
}.

(** [max(first :: rest, key=key)]: the first element whose key no later
    element exceeds. *)
Definition py_max {A} (key : A -> spec_float) (first : A) (rest : list A) : A :=
  fold_left (fun best c => if SFltb (key best) (key c) then c else best) rest first.

Definition green_contours `{OpenCV} (fr : frame) : list contour :=
  let hsv := cvtColor_BGR2HSV fr in
  let lower_green := (35, 50, 50) in
  let upper_green := (85, 255, 255) in
  let mask := inRange hsv lower_green upper_green in
  let kernel := 5%nat in
  let mask := morphologyEx mask MORPH_OPEN kernel in
  let mask := morphologyEx mask MORPH_CLOSE kernel in
  findContours mask.

Definition centroid (M : Moments) : result (Z * Z) :=
  cx ← py_truediv_float (m10 M) (m00 M) ≫= py_int;
  cy ← py_truediv_float (m01 M) (m00 M) ≫= py_int;
  Ok (cx, cy).

Definition detect_green_in_frame `{OpenCV} (fr : frame) : result (option (Z * Z)) :=
  match green_contours fr with
  | c :: cs =>
      let largest_contour := py_max contourArea c cs in
      let M := moments largest_contour in
      if ne_zero (m00 M) then Some <$> centroid M else Ok None
  | [] => Ok None
  end.

(** ** TrajectoryScanner and UniformSampler *)

(** What [cv2.VideoCapture] finds at a path. *)
Inductive video_file `{OpenCV} :=
  | Missing
  | Unreadable
  | Readable (frames : list frame).

(** An entry of [coordinates]: the dict with keys frame, x and y. *)
Record coordinate := { c_frame : Z; c_x : Z; c_y : Z }.

Definition to_coordinate (vf : Z * (Z * Z)) : coordinate :=
  let '(f, (x, y)) := vf in {| c_frame := f; c_x := x; c_y := y |}.

(** The [while True] loop over [cap.read()]. *)
Fixpoint scan_frames `{OpenCV} (frames : list frame) (frame_count : Z)
    (valid_frames : list (Z * (Z * Z))) : result (Z * list (Z * (Z * Z))) :=
  match frames with
  | [] => Ok (frame_count, valid_frames)
  | fr :: rest =>
      let frame_count := frame_count + 1 in
      pos ← detect_green_in_frame fr;
      scan_frames rest frame_count
        (match pos with
         | Some p => valid_frames ++ [(frame_count, p)]
         | None => valid_frames
         end)
  end.

(** The position picked for sample [i]: [int(i * step)]. *)
Definition sample_index (step : spec_float) (i : Z) : result Z :=
  py_mul_int_float i step ≫= py_int.

(** The sampling block shared by both scanners. *)
Definition uniform_sample (valid_frames : list (Z * (Z * Z))) (num_samples : Z)
    : result (list coordinate) :=
  if Z.of_nat (length valid_frames) <=? num_samples then
    Ok (to_coordinate <$> valid_frames)
  else
    step ← py_truediv_int (Z.of_nat (length valid_frames)) num_samples;
    mapM (fun i => idx ← sample_index step i;
                   vf ← py_getitem valid_frames idx;
                   Ok (to_coordinate vf))
         (py_range num_samples).

(** [process_video_to_scenes.detect_green_dots_from_video] *)
Definition detect_green_dots_from_video `{OpenCV} (video : video_file) (num_samples : Z)
    : result (list coordinate) :=
  match video with
  | Readable frames =>
      '(_, valid_frames) ← scan_frames frames 0 [];
      if (length valid_frames =? 0)%nat then Err (ValueError NoGreenDot)
      else uniform_sample valid_frames num_samples
  | _ => Err (ValueError CannotOpenVideo)
  end.

(** The summary [detect_green_dot] saves when [output_json] is given. *)
Record coordinates_file := {
  total_frames : Z;
  sampled_frames : Z;
  saved_coordinates : list coordinate
}.

(** [detect_green_dot.detect_green_dot]: the coordinates it returns and
    the summary it saves, if any. *)
Definition detect_green_dot `{OpenCV} (video : video_file) (output_json : bool)
    (num_samples : Z) : result (list coordinate * option coordinates_file) :=
  match video with
  | Readable frames =>
      '(frame_count, valid_frames) ← scan_frames frames 0 [];
      if (length valid_frames =? 0)%nat then Ok ([], None)
      else
        coordinates ← uniform_sample valid_frames num_samples;
        Ok (coordinates,
            if output_json then
              Some {| total_frames := frame_count;
                      sampled_frames := Z.of_nat (length coordinates);
                      saved_coordinates := coordinates |}
            else None)
  | _ => Ok ([], None)
  end.

(** ** JSON documents and the Python heap *)

(** The values JSON and Python share without identity. *)
Inductive atom :=
  | Null
  | Bool (b : bool)
  | Num (n : pynum)
  | Str (s : string).

(** A document tree whose containers carry a label: [unit] for a JSON
    text, the address of the container for a structure in memory. *)
Inductive tree (A : Type) : Type :=
  | TAtom (a : atom)
  | TArr (x : A) (elems : list (tree A))
  | TObj (x : A) (members : list (string * tree A)).
Arguments TAtom {A} a.
Arguments TArr {A} x elems.
Arguments TObj {A} x members.

(** A JSON text, by its syntax tree. *)
Abbreviation json := (tree unit).
Abbreviation JArr elems := (TArr tt elems).
Abbreviation JObj members := (TObj tt members).
Abbreviation JNum n := (@TAtom unit (Num n)).
Abbreviation JStr s := (@TAtom unit (Str s)).

Definition loc := positive.

Inductive pyval :=
  | VAtom (a : atom)
  | VRef (l : loc).

(** A dict keeps its keys in insertion order; a list keeps its elements. *)
Inductive pyobj :=
  | ODict (items : list (string * pyval))
  | OList (elems : list pyval).

Abbreviation heap := (gmap loc pyobj).

(** [d[k] = v]: in place when the key is there, at the end otherwise. *)
Fixpoint dict_set {V} (items : list (string * V)) (k : string) (v : V)
    : list (string * V) :=
  match items with
  | [] => [(k, v)]
  | (k', v') :: rest =>
      if decide (k' = k) then (k, v) :: rest else (k', v') :: dict_set rest k v
  end.

(** [d.get(k)] *)
Fixpoint dict_get {V} (items : list (string * V)) (k : string) : option V :=
  match items with
  | [] => None
  | (k', v) :: rest => if decide (k' = k) then Some v else dict_get rest k
  end.

(** [dict(pairs)], as the JSON decoder builds an object. *)
Definition dict_of_pairs {V} (pairs : list (string * V)) : list (string * V) :=
  fold_left (fun d kv => dict_set d kv.1 kv.2) pairs [].

Fixpoint tree_depth {A} (t : tree A) : nat :=
  match t with
  | TAtom _ => 0
  | TArr _ elems => S (foldr (fun e d => Nat.max (tree_depth e) d) 0%nat elems)
  | TObj _ members => S (foldr (fun m d => Nat.max (tree_depth m.2) d) 0%nat members)
  end.

(** Forget the addresses. *)
Fixpoint erase {A} (t : tree A) : json :=
  match t with
  | TAtom a => TAtom a
  | TArr _ elems => JArr (erase <$> elems)
  | TObj _ members => JObj (prod_map id erase <$> members)
  end.

Definition root (t : tree loc) : pyval :=
  match t with
  | TAtom a => VAtom a
  | TArr l _ => VRef l
  | TObj l _ => VRef l
  end.

(** The object stored at the root of a container. *)
Definition node_obj (t : tree loc) : option (loc * pyobj) :=
  match t with
  | TAtom _ => None
  | TArr l elems => Some (l, OList (root <$> elems))
  | TObj l members => Some (l, ODict (prod_map id root <$> members))
  end.

(** Thread the heap through the elements of a list, left to right. *)
Definition alloc_all {X Y} (f : X -> heap -> Y * heap) : list X -> heap -> list Y * heap :=
  fix go xs h :=
    match xs with
    | [] => ([], h)
    | x :: xs =>
        let '(y, h1) := f x h in
        let '(ys, h2) := go xs h1 in
        (y :: ys, h2)
    end.

(** [json.loads]: the containers of the document are allocated bottom-up
    at fresh addresses; the result records where each one went. *)
Fixpoint alloc_tree (j : json) (h : heap) : tree loc * heap :=
  match j with
  | TAtom a => (TAtom a, h)
  | TArr _ elems =>
      let '(ts, h1) := alloc_all alloc_tree elems h in
      let l := fresh (dom h1) in
      (TArr l ts, <[l := OList (root <$> ts)]> h1)
  | TObj _ members =>
      let '(ms, h1) :=
        alloc_all (fun m h => let '(t, h1) := alloc_tree m.2 h in ((m.1, t), h1))
                  members h in
      let items := dict_of_pairs ms in
      let l := fresh (dom h1) in
      (TObj l items, <[l := ODict (prod_map id root <$> items)]> h1)
  end.

Definition json_loads (j : json) (h : heap) : pyval * heap :=
  let '(t, h') := alloc_tree j h in (root t, h').

(** The depth [json.dumps] follows references to before the interpreter
    gives up ([sys.getrecursionlimit()]). *)
Definition recursion_limit : nat := 1000.

Fixpoint dump (fuel : nat) (h : heap) (v : pyval) {struct fuel} : result json :=
  match v with
  | VAtom a => Ok (TAtom a)
  | VRef l =>
      match fuel with
      | O => Err (ValueError CircularReference)
      | S n =>
          match h !! l with
          | Some (OList elems) => (fun js => JArr js) <$> mapM (dump n h) elems
          | Some (ODict items) =>
              (fun ms => JObj ms) <$> mapM (fun kv => pair kv.1 <$> dump n h kv.2) items
          | None => Err TypeError
          end
      end
  end.

(** [json.dumps] *)
Definition json_dumps (h : heap) (v : pyval) : result json := dump recursion_limit h v.

(** [v.get(k)] with the default None; only dicts have the method. *)
Definition py_get (h : heap) (v : pyval) (k : string) : result pyval :=
  match v with
  | VRef l =>
      match h !! l with
      | Some (ODict items) => Ok (default (VAtom Null) (dict_get items k))
      | _ => Err AttributeError
      end
  | VAtom _ => Err AttributeError
  end.

(** [v[k]] with a string key. *)
Definition py_getitem_key (h : heap) (v : pyval) (k : string) : result pyval :=
  match v with
  | VRef l =>
      match h !! l with
      | Some (ODict items) =>
          match dict_get items k with Some x => Ok x | None => Err (KeyError k) end
      | _ => Err TypeError
      end
  | VAtom _ => Err TypeError
  end.

Definition chars (s : string) : list pyval :=
  (fun c => VAtom (Str (String c EmptyString))) <$> String.list_ascii_of_string s.

(** The elements a [for] loop visits. *)
Definition py_iter (h : heap) (v : pyval) : result (list pyval) :=
  match v with
  | VRef l =>
      match h !! l with
      | Some (OList elems) => Ok elems
      | Some (ODict items) => Ok ((fun kv => VAtom (Str kv.1)) <$> items)
      | None => Err TypeError
      end
  | VAtom (Str s) => Ok (chars s)
  | VAtom _ => Err TypeError
  end.

(** [v[0]] *)
Definition py_first (h : heap) (v : pyval) : result pyval :=
  match v with
  | VRef l =>
      match h !! l with
      | Some (OList elems) =>
          match elems with x :: _ => Ok x | [] => Err IndexError end
      | Some (ODict _) => Err (KeyError "0")
      | None => Err TypeError
      end
  | VAtom (Str s) =>
      match chars s with x :: _ => Ok x | [] => Err IndexError end
  | VAtom _ => Err TypeError
  end.

(** [v[k] = x] *)
Definition py_setitem (h : heap) (v : pyval) (k : string) (x : pyval) : result heap :=
  match v with
  | VRef l =>
      match h !! l with
      | Some (ODict items) => Ok (<[l := ODict (dict_set items k x)]> h)
      | _ => Err TypeError
      end
  | VAtom _ => Err TypeError
  end.

Definition is_PointSource (v : pyval) : bool :=
  match v with
  | VAtom (Str s) => bool_decide (s = "PointSource")
  | _ => false
  end.

(** The loop [for obj in objs: if obj.get('type') == 'PointSource': ...
    break], up to the object it stops at. *)
Fixpoint first_point_source (h : heap) (objs : list pyval) : result (option pyval) :=
  match objs with
  | [] => Ok None
  | obj :: rest =>
      ty ← py_get h obj "type";
      if is_PointSource ty then Ok (Some obj) else first_point_source h rest
  end.

(** [container.get('objs', [])] followed by the loop above. *)
Definition find_light_source (h : heap) (scene : pyval) : result (option pyval) :=
  match scene with
  | VRef l =>
      match h !! l with
      | Some (ODict items) =>
          match dict_get items "objs" with
          | Some objs => py_iter h objs ≫= first_point_source h
          | None => Ok None
          end
      | _ => Err AttributeError
      end
  | VAtom _ => Err AttributeError
  end.

(** ** The world of a run: heap and output files *)

(** What the pipeline leaves on disk. *)
Inductive file_content :=
  | JsonDoc (scene : json)
  | HtmlPage (scene : json) (compressed : string)
  | PngImage (html_path : string).

Record world := World {
  w_heap : heap;
  w_files : gmap string file_content
}.

(** The rendering collaborators: the Node.js compressor behind
    [compress_scene_for_url] and the browser behind
    [screenshot_with_selenium html_path image_path crop_top]. *)
Class Renderer := {
  compress_scene_for_url : json -> result string;
  screenshot_with_selenium : string -> string -> Z -> bool
}.

(** State and exceptions: an exception keeps the world reached so far. *)
Definition M (A : Type) : Type := world -> result A * world.

Global Instance M_ret : MRet M := fun A a w => (Ok a, w).
Global Instance M_bind : MBind M := fun A B f m w =>
  match m w with
  | (Ok a, w') => f a w'
  | (Err e, w') => (Err e, w')
  end.

Definition lift {A} (r : result A) : M A := fun w => (r, w).
Definition get_heap : M heap := fun w => (Ok (w_heap w), w).
Definition put_heap (h : heap) : M unit :=
  fun w => (Ok (), {| w_heap := h; w_files := w_files w |}).
Definition write_file (path : string) (c : file_content) : M unit :=
  fun w => (Ok (), {| w_heap := w_heap w; w_files := <[path := c]> (w_files w) |}).
Definition path_exists (path : string) : M bool :=
  fun w => (Ok (bool_decide (is_Some (w_files w !! path))), w).

(** What [open] and [json.load] find at the template path. *)
Inductive template_file :=
  | NoSuchFile
  | Malformed
  | Document (doc : json).

(** [json.load] of a document that parsed. *)
Definition json_load (doc : json) : M pyval :=
  h ← get_heap;
  let '(v, h') := json_loads doc h in
  put_heap h';; mret v.

(** ** CoordinateMapper *)

(** The number a JSON value stands for in arithmetic. *)
Definition as_number (v : pyval) : result pynum :=
  match v with
  | VAtom (Num n) => Ok n
  | VAtom (Bool b) => Ok (PInt (if b then 1 else 0))
  | _ => Err TypeError
  end.

(** [y_offset = template_y - first_y] *)
Definition compute_y_offset (template_y : pyval) (coordinates : list coordinate)
    : result pynum :=
  first ← py_getitem coordinates 0;
  ty ← as_number template_y;
  py_sub ty (PInt (c_y first)).

(** [new_x = coord['x']; new_y = coord['y'] + y_offset] *)
Definition mapped_point (y_offset : pynum) (coord : coordinate) : result (pynum * pynum) :=
  new_y ← py_add (PInt (c_y coord)) y_offset;
  Ok (PInt (c_x coord), new_y).

(** ** SceneInstanceEmitter *)

(** [new_json = json.loads(json.dumps(template))] *)
Definition copy_template (template : pyval) : M pyval :=
  h ← get_heap;
  text ← lift (json_dumps h template);
  let '(new_json, h') := json_loads text h in
  put_heap h';; mret new_json.

(** The patch loop of [process_video_to_scenes]. *)
Definition set_light_source (new_json : pyval) (new_x new_y : pynum) : M unit :=
  h ← get_heap;
  found ← lift (find_light_source h new_json);
  match found with
  | Some obj =>
      h1 ← lift (py_setitem h obj "x" (VAtom (Num new_x)));
      h2 ← lift (py_setitem h1 obj "y" (VAtom (Num new_y)));
      put_heap h2
  | None => mret ()
  end.

(** The two assignments through [new_json['objs'][0]] of
    [batch_generate_json_files]. *)
Definition set_first_object (new_json : pyval) (new_x new_y : pynum) : M unit :=
  h ← get_heap;
  obj ← lift (py_getitem_key h new_json "objs" ≫= py_first h);
  h1 ← lift (py_setitem h obj "x" (VAtom (Num new_x)));
  obj' ← lift (py_getitem_key h1 new_json "objs" ≫= py_first h1);
  h2 ← lift (py_setitem h1 obj' "y" (VAtom (Num new_y)));
  put_heap h2.

(** Lines 346 to 358 of [process_video_to_scenes]: the scene for one
    coordinate, in memory. *)
Definition build_scene (template : pyval) (y_offset : pynum) (coord : coordinate)
    : M pyval :=
  new_json ← copy_template template;
  '(new_x, new_y) ← lift (mapped_point y_offset coord);
  set_light_source new_json new_x new_y;;
  mret new_json.

(** [f"{i:02d}"] for the positions the loops count. *)
Definition pad2 (i : Z) : string :=
  if (0 <=? i) && (i <? 10) then "0" +:+ pretty i else pretty i.

Definition json_dir : string := "output/json".
Definition html_dir : string := "output/html".
Definition image_dir : string := "output/images".

(** [os.path.join(dir, name)] for the relative names used here. *)
Definition path_join (dir name : string) : string := dir +:+ "/" +:+ name.

(** [create_html_from_json] *)
Definition create_html_from_json `{Renderer} (json_data : pyval) (output_html : string)
    : M unit :=
  h ← get_heap;
  scene ← lift (json_dumps h json_data);
  compressed ← lift (compress_scene_for_url scene);
  _ ← lift (py_get h json_data "name");
  write_file output_html (HtmlPage scene compressed).

(** The paths one iteration reports. *)
Record emitted := {
  json_path : string;
  html_path : string;
  image_path : option string
}.

(** The [if generate_images] block: an image that is already there is
    kept, a failed screenshot is reported and skipped. *)
Definition render_image `{Renderer} (generate_images : bool) (crop_top : Z)
    (hpath ipath : string) : M (option string) :=
  if generate_images then
    already ← path_exists ipath;
    if (already : bool) then mret None
    else if screenshot_with_selenium hpath ipath crop_top then
           write_file ipath (PngImage hpath);; mret (Some ipath)
         else mret None
  else mret None.

(** [f"{output_prefix}_{i:02d}"] *)
Definition scene_filename (output_prefix : string) (i : Z) : string :=
  output_prefix +:+ "_" +:+ pad2 i.

(** Lines 360 to 398: the files of one scene. *)
Definition save_scene `{Renderer} (new_json : pyval) (output_prefix : string)
    (generate_images : bool) (crop_top : Z) (i : Z) : M emitted :=
  let filename := scene_filename output_prefix i in
  let jpath := path_join json_dir (filename +:+ ".json") in
  let hpath := path_join html_dir (filename +:+ ".html") in
  let ipath := path_join image_dir (filename +:+ ".png") in
  h ← get_heap;
  scene ← lift (json_dumps h new_json);
  write_file jpath (JsonDoc scene);;
  create_html_from_json new_json hpath;;
  image ← render_image generate_images crop_top hpath ipath;
  mret {| json_path := jpath; html_path := hpath; image_path := image |}.

(** The body of the [for i, coord in enumerate(coordinates, start=1)] loop. *)
Definition emit_scene `{Renderer} (template : pyval) (y_offset : pynum)
    (output_prefix : string) (generate_images : bool) (crop_top : Z)
    (ic : Z * coordinate) : M emitted :=
  new_json ← build_scene template y_offset ic.2;
  save_scene new_json output_prefix generate_images crop_top ic.1.

(** [enumerate(l, start=1)] *)
Definition enumerate1 {A} (l : list A) : list (Z * A) :=
  imap (fun i a => (Z.of_nat (S i), a)) l.

(** The dict [process_video_to_scenes] returns. *)
Record scenes_result := {
  json_files : list string;
  html_files : list string;
  image_files : list string
}.

Definition collect (es : list emitted) : scenes_result :=
  {| json_files := json_path <$> es;
     html_files := html_path <$> es;
     image_files := omap image_path es |}.

(** ** The pipeline driver *)

Definition process_video_to_scenes `{OpenCV} `{Renderer}
    (json_template : template_file) (video : video_file) (num_samples : Z)
    (output_prefix : string) (generate_images : bool) (crop_top : Z)
    : M scenes_result :=
  match json_template, video with
  | NoSuchFile, _ => lift (Err FileNotFoundError)
  | _, Missing => lift (Err FileNotFoundError)
  | Malformed, _ => lift (Err JSONDecodeError)
  | Document doc, _ =>
      template ← json_load doc;
      h ← get_heap;
      found ← lift (find_light_source h template);
      match found with
      | None => lift (Err (ValueError NoPointSource))
      | Some light_source =>
          template_x ← lift (py_getitem_key h light_source "x");
          template_y ← lift (py_getitem_key h light_source "y");
          coordinates ← lift (detect_green_dots_from_video video num_samples);
          y_offset ← lift (compute_y_offset template_y coordinates);
          es ← mapM (emit_scene template y_offset output_prefix generate_images crop_top)
                    (enumerate1 coordinates);
          mret (collect es)
      end
  end.

(** ** The two-script variant: [batch_generate_json_files] *)

(** What is found at [output/json/green_dot_coordinates.json]. *)
Definition coordinates_input := option coordinates_file.

Definition build_scene_batch (template : pyval) (y_offset : pynum) (coord : coordinate)
    : M pyval :=
  new_json ← copy_template template;
  '(new_x, new_y) ← lift (mapped_point y_offset coord);
  set_first_object new_json new_x new_y;;
  mret new_json.

Definition emit_scene_batch (template : pyval) (y_offset : pynum)
    (ic : Z * coordinate) : M string :=
  new_json ← build_scene_batch template y_offset ic.2;
  let output_path := path_join json_dir ("test_" +:+ pad2 ic.1 +:+ ".json") in
  h ← get_heap;
  scene ← lift (json_dumps h new_json);
  write_file output_path (JsonDoc scene);;
  mret output_path.

Definition batch_generate_json_files (json_template : template_file)
    (captured : coordinates_input) : M (list string) :=
  match json_template with
  | NoSuchFile => lift (Err FileNotFoundError)
  | Malformed => lift (Err JSONDecodeError)
  | Document doc =>
      template ← json_load doc;
      match captured with
      | None => lift (Err FileNotFoundError)
      | Some coord_data =>
          let coordinates := saved_coordinates coord_data in
          h ← get_heap;
          light_source ← lift (py_getitem_key h template "objs" ≫= py_first h);
          template_y ← lift (py_getitem_key h light_source "y");
          y_offset ← lift (compute_y_offset template_y coordinates);
          _ ← lift (py_getitem_key h light_source "x");
          mapM (emit_scene_batch template y_offset) (enumerate1 coordinates)
      end
  end.


(** ** The design document's own wording, and sample inputs *)

(** The sampler as the document defines it: entry [i] is the detection at
    position [floor (i * N / K)]. *)
Definition reference_sample (valid_frames : list (Z * (Z * Z))) (num_samples : Z)
    : list coordinate :=
  let n := Z.of_nat (length valid_frames) in
  if n <=? num_samples then to_coordinate <$> valid_frames
  else omap (fun i => to_coordinate <$> valid_frames !! Z.to_nat (i * n / num_samples))
            (py_range num_samples).

Definition strictly_increasing (l : list Z) : Prop :=
  forall (i j : nat) (a b : Z),
    (i < j)%nat -> l !! i = Some a -> l !! j = Some b -> a < b.

(** A marker seen in each of the frames 1 to [n]. *)
Definition trajectory (n : nat) : list (Z * (Z * Z)) :=
  (fun i => (Z.of_nat (S i), (398 + Z.of_nat i, 556 + 2 * Z.of_nat i))) <$> seq 0 n.


(** OpenCV on synthetic frames: a frame is the list of its green blobs,
    each given by its moments, and the area of a blob is its [m00]. *)
Definition synthetic_cv : OpenCV :=
  {| frame := list Moments;
     hsv_image := list Moments;
     mask_image := list Moments;
     contour := Moments;
     cvtColor_BGR2HSV := fun fr => fr;
     inRange := fun img _ _ => img;
     morphologyEx := fun mask _ _ => mask;
     findContours := fun mask => mask;
     contourArea := m00;
     moments := fun c => c |}.

(** A blob of [a] pixels around the pixel (x, y). *)
Definition blob (a x y : Z) : Moments :=
  {| m00 := of_int a; m10 := of_int (a * x); m01 := of_int (a * y) |}.

(** A renderer whose browser is missing: pages are written, screenshots fail. *)
Definition headless_renderer : Renderer :=
  {| compress_scene_for_url := fun _ => Ok "N4Ig";
     screenshot_with_selenium := fun _ _ _ => false |}.

Definition mirror : json :=
  JObj [("type", JStr "Mirror"); ("x", JNum (PInt 300)); ("y", JNum (PInt 200))].

Definition point_source (x y : pynum) : json :=
  JObj [("type", JStr "PointSource"); ("x", JNum x); ("y", JNum y)].

(** A template with its light source at (400, 625), behind a mirror. *)
Definition sample_template : json :=
  JObj [("version", JNum (PInt 5));
        ("objs", JArr [mirror; point_source (PInt 400) (PInt 625)])].

(** A template without any light source. *)
Definition mirror_template : json :=
  JObj [("version", JNum (PInt 5)); ("objs", JArr [mirror])].

(** The sample template once loaded into an empty interpreter. *)
Definition sample_located : tree loc := (alloc_tree sample_template ∅).1.
Definition sample_world : world :=
  {| w_heap := (alloc_tree sample_template ∅).2; w_files := ∅ |}.

(** 100.1 as [json.load] reads it: 0x1.9066666666666p+6. *)
Definition y_100_1 : spec_float := S754_finite false 7043911292184166 (-46).

(** The positions the strided branch can pick for sample [i] out of [N]
    detections: the floor of [i * N / K], or one less when [i * N / K]
    is a whole number that the two roundings of [i * (N / K)] miss. *)
Definition picks (N K i j : Z) : Prop :=
  j = i * N / K \/ (j = i * N / K - 1 /\ (i * N) mod K = 0 /\ 0 < i).


(** ** Structures in the heap *)

(** The containers of a located tree, each with the object it stands for. *)
Fixpoint nodes (t : tree loc) : list (loc * pyobj) :=
  match t with
  | TAtom _ => []
  | TArr l elems => (l, OList (root <$> elems)) :: concat (nodes <$> elems)
  | TObj l members =>
      (l, ODict (prod_map id root <$> members)) :: concat ((fun m => nodes m.2) <$> members)
  end.

Definition locs (t : tree loc) : list loc := (nodes t).*1.

(** The heap stores every container of [t] at its address. Two subtrees
    may sit at the same address: sharing is allowed. *)
Definition holds (h : heap) (t : tree loc) : Prop :=
  forall l o, (l, o) ∈ nodes t -> h !! l = Some o.

(** No dict has a key twice. *)
Fixpoint keys_unique {A} (t : tree A) : Prop :=
  match t with
  | TAtom _ => True
  | TArr _ elems => foldr (fun e P => keys_unique e /\ P) True elems
  | TObj _ members =>
      NoDup members.*1 /\ foldr (fun m P => keys_unique m.2 /\ P) True members
  end.

(** The addresses a value leads to. *)
Inductive reachable (h : heap) : pyval -> loc -> Prop :=
  | reach_root l : reachable h (VRef l) l
  | reach_elem l elems v l' :
      h !! l = Some (OList elems) -> v ∈ elems -> reachable h v l' ->
      reachable h (VRef l) l'
  | reach_item l items k v l' :
      h !! l = Some (ODict items) -> (k, v) ∈ items -> reachable h v l' ->
      reachable h (VRef l) l'.

(** ** The scene a template becomes, on documents *)

Definition is_point_source_obj {A} (t : tree A) : bool :=
  match t with
  | TObj _ members =>
      match dict_get members "type" with
      | Some (TAtom (Str s)) => bool_decide (s = "PointSource")
      | _ => false
      end
  | _ => false
  end.

(** The object with its x and y fields set, every other field kept. *)
Definition set_xy {A} (t : tree A) (new_x new_y : pynum) : tree A :=
  match t with
  | TObj l members =>
      TObj l (dict_set (dict_set members "x" (TAtom (Num new_x))) "y" (TAtom (Num new_y)))
  | _ => t
  end.

Fixpoint patch_first_point_source {A} (objs : list (tree A)) (new_x new_y : pynum)
    : list (tree A) :=
  match objs with
  | [] => []
  | o :: rest =>
      if is_point_source_obj o then set_xy o new_x new_y :: rest
      else o :: patch_first_point_source rest new_x new_y
  end.

(** The template with the coordinates of its first PointSource replaced:
    what a scene of [process_video_to_scenes] is meant to be. *)
Definition patch_scene {A} (scene : tree A) (new_x new_y : pynum) : tree A :=
  match scene with
  | TObj l members =>
      match dict_get members "objs" with
      | Some (TArr lo objs) =>
          TObj l (dict_set members "objs"
                    (TArr lo (patch_first_point_source objs new_x new_y)))
      | _ => scene
      end
  | _ => scene
  end.

(** The template with the coordinates of its first object replaced: what
    a scene of [batch_generate_json_files] is meant to be. *)
Definition patch_scene_batch {A} (scene : tree A) (new_x new_y : pynum) : tree A :=
  match scene with
  | TObj l members =>
      match dict_get members "objs" with
      | Some (TArr lo (o :: rest)) =>
          TObj l (dict_set members "objs" (TArr lo (set_xy o new_x new_y :: rest)))
      | _ => scene
      end
  | _ => scene
  end.


(** ** Where the light source sits, and what independence means *)

(** The scene [JObj members] lists the object [JObj light] in [objs],
    between the objects [before] and [after]. *)
Definition object_at (scene : json) (members : list (string * json))
    (before : list json) (light : list (string * json)) (after : list json) : Prop :=
  scene = JObj members /\
  dict_get members "objs" = Some (JArr (before ++ JObj light :: after)).

(** ... and it is the first PointSource of the scene. *)
Definition light_source_at (scene : json) (members : list (string * json))
    (before : list json) (light : list (string * json)) (after : list json) : Prop :=
  object_at scene members before light after /\
  is_point_source_obj (JObj light) = true /\
  Forall (fun p => (exists pms, p = JObj pms) /\ is_point_source_obj p = false) before.

(** The scene is an object whose [objs], if it has any, are objects none
    of which is a PointSource. *)
Definition no_light_source (scene : json) : Prop :=
  exists members,
    scene = JObj members /\
    match dict_get members "objs" with
    | None => True
    | Some (TArr _ objs) =>
        Forall (fun o => (exists oms, o = JObj oms) /\ is_point_source_obj o = false) objs
    | Some _ => False
    end.

(** The scene with new coordinates in that object, all else as it was. *)
Definition with_coordinates (members : list (string * json)) (before : list json)
    (light : list (string * json)) (after : list json) (new_x new_y : pynum) : json :=
  JObj (dict_set members "objs"
          (JArr (before
                   ++ JObj (dict_set (dict_set light "x" (JNum new_x)) "y" (JNum new_y))
                   :: after))).

(** Nothing the heap held before is touched by, or reachable from, [v]. *)
Definition independent_of (w w' : world) (v : pyval) : Prop :=
  forall other : tree loc,
    holds (w_heap w) other ->
    holds (w_heap w') other /\
    forall l, l ∈ locs other -> ~ reachable (w_heap w') v l.


(** ** The files of a run *)

(** The three paths of scene [i]. *)
Definition scene_json_path (output_prefix : string) (i : Z) : string :=
  path_join json_dir (scene_filename output_prefix i +:+ ".json").
Definition scene_html_path (output_prefix : string) (i : Z) : string :=
  path_join html_dir (scene_filename output_prefix i +:+ ".html").
Definition scene_image_path (output_prefix : string) (i : Z) : string :=
  path_join image_dir (scene_filename output_prefix i +:+ ".png").

Definition scene_paths (output_prefix : string) (i : Z) : list string :=
  [scene_json_path output_prefix i; scene_html_path output_prefix i;
   scene_image_path output_prefix i].

(** [batch_generate_json_files] names its scenes itself. *)
Definition batch_json_path (i : Z) : string :=
  path_join json_dir ("test_" +:+ pad2 i +:+ ".json").

(** From [w] to [w'] only paths in [allowed] were written, no file was
    removed, and an image that was there was left as it was. *)
Definition writes_only (allowed : string -> Prop) (w w' : world) : Prop :=
  (forall p, ~ allowed p -> w_files w' !! p = w_files w !! p) /\
  (forall p, is_Some (w_files w !! p) -> is_Some (w_files w' !! p)) /\
  (forall name c, w_files w !! path_join image_dir name = Some c ->
                  w_files w' !! path_join image_dir name = Some c).

(** Every run of [m] is within [R]. *)
Definition keeps {A} (R : world -> world -> Prop) (m : M A) : Prop :=
  forall w r w', m w = (r, w') -> R w w'.

(** The relation of the steps that touch no file. *)
Definition same_files (w w' : world) : Prop := w_files w' = w_files w.

(** What the loop reports for scene [ic.1], between the worlds [w] and
    [w']: its JSON and HTML paths, and its image path only for an image
    that was not there in [w] and is the rendering of its page in [w']. *)
Definition emitted_at (output_prefix : string) (generate_images : bool) (w w' : world)
    (ic : Z * coordinate) (e : emitted) : Prop :=
  json_path e = scene_json_path output_prefix ic.1 /\
  html_path e = scene_html_path output_prefix ic.1 /\
  (image_path e = None \/
   image_path e = Some (scene_image_path output_prefix ic.1) /\ generate_images = true /\
   w_files w !! scene_image_path output_prefix ic.1 = None /\
   w_files w' !! scene_image_path output_prefix ic.1
     = Some (PngImage (scene_html_path output_prefix ic.1))).

(** A renderer whose compressor is missing. *)
Definition broken_renderer : Renderer :=
  {| compress_scene_for_url := fun _ => Err CalledProcessError;
     screenshot_with_selenium := fun _ _ _ => false |}.

(** A template as the batch script wants it: the light source first. *)
Definition batch_template : json :=
  JObj [("version", JNum (PInt 5));
        ("objs", JArr [point_source (PInt 400) (PInt 625); mirror])].

(** Three synthetic frames: the marker, nothing, the marker further on. *)
Definition sample_frames : list (list Moments) :=
  [[blob 9 398 556]; []; [blob 4 1 1; blob 9 420 560]].

(** Duplicate-freeness of a list given in full, by evaluation. *)
Ltac solve_NoDup := refine (bool_decide_unpack _ _); vm_compute; exact I.


(** * Properties *)

(** ** Binary64: digits, shifts and rounding

    The facts below follow the reference implementation step by step;
    they give every operation of the sampler an error of at most one unit
    in the last place. *)

Section Binary64_facts.

Lemma digits2_pos_bounds (p : positive) :
  2 ^ (Z.pos (digits2_pos p) - 1) <= Z.pos p < 2 ^ Z.pos (digits2_pos p).
Proof.
  induction p as [p IH | p IH |]; cbn [digits2_pos].
  - rewrite Pos2Z.inj_succ.
    replace (Z.succ (Z.pos (digits2_pos p)) - 1) with (Z.succ (Z.pos (digits2_pos p) - 1)) by lia.
    rewrite !Z.pow_succ_r by lia. lia.
  - rewrite Pos2Z.inj_succ.
    replace (Z.succ (Z.pos (digits2_pos p)) - 1) with (Z.succ (Z.pos (digits2_pos p) - 1)) by lia.
    rewrite !Z.pow_succ_r by lia. lia.
  - cbn. lia.
Qed.

Lemma Zdigits2_bounds (m : Z) :
  0 < m -> 0 < Zdigits2 m /\ 2 ^ (Zdigits2 m - 1) <= m < 2 ^ Zdigits2 m.
Proof.
  destruct m as [| p | p]; try lia. intros _. cbn [Zdigits2].
  split; [lia | apply digits2_pos_bounds].
Qed.

Lemma Zdigits2_unique (m d : Z) :
  0 < d -> 2 ^ (d - 1) <= m < 2 ^ d -> Zdigits2 m = d.
Proof.
  intros Hd [Hlo Hhi].
  assert (0 < m) as Hm by (pose proof (Z.pow_pos_nonneg 2 (d - 1)); lia).
  destruct (Zdigits2_bounds m Hm) as (Hd' & Hlo' & Hhi').
  destruct (Z.lt_trichotomy (Zdigits2 m) d) as [Hlt | [Heq | Hgt]]; [| done |].
  - assert (2 ^ Zdigits2 m <= 2 ^ (d - 1)) by (apply Z.pow_le_mono_r; lia). lia.
  - assert (2 ^ d <= 2 ^ (Zdigits2 m - 1)) by (apply Z.pow_le_mono_r; lia). lia.
Qed.

Lemma iter_pos_nat {A} (f : A -> A) (p : positive) (x : A) :
  iter_pos f p x = Nat.iter (Pos.to_nat p) f x.
Proof.
  revert x. induction p as [p IH | p IH |]; intros x; cbn [iter_pos].
  - rewrite !IH. replace (Pos.to_nat p~1) with (Pos.to_nat p + S (Pos.to_nat p))%nat by lia.
    by rewrite Nat.iter_add, Nat.iter_succ_r.
  - rewrite !IH. replace (Pos.to_nat p~0) with (Pos.to_nat p + Pos.to_nat p)%nat by lia.
    by rewrite Nat.iter_add.
  - done.
Qed.

Lemma shr_1_m (mrs : shr_record) :
  0 <= shr_m mrs -> shr_m (shr_1 mrs) = shr_m mrs / 2.
Proof.
  destruct mrs as [m r s]. cbn [shr_m]. intros Hm.
  destruct m as [| [p | p |] |]; cbn [shr_1 shr_m]; try lia.
  - done.
  - rewrite Pos2Z.inj_xI. apply Z.div_unique with (r := 1); lia.
  - rewrite Pos2Z.inj_xO. apply Z.div_unique with (r := 0); lia.
  - done.
Qed.

Lemma shr_iter_m (n : nat) (mrs : shr_record) :
  0 <= shr_m mrs ->
  shr_m (Nat.iter n shr_1 mrs) = shr_m mrs / 2 ^ Z.of_nat n.
Proof.
  intros Hm. induction n as [| n IH].
  - cbn. by rewrite Z.div_1_r.
  - rewrite Nat.iter_succ, shr_1_m.
    + rewrite IH, Nat2Z.inj_succ, Z.pow_succ_r by lia.
      rewrite Z.div_div by lia. f_equal. lia.
    + rewrite IH. apply Z.div_pos; lia.
Qed.

Lemma shr_record_of_loc_m (m : Z) (l : location) :
  shr_m (shr_record_of_loc m l) = m.
Proof. by destruct l as [| []]. Qed.

Lemma round_nearest_even_bounds (mrs : shr_record) :
  shr_m mrs <= round_nearest_even (shr_m mrs) (loc_of_shr_record mrs) <= shr_m mrs + 1.
Proof.
  destruct mrs as [m [] []]; cbn [loc_of_shr_record round_nearest_even shr_m];
    try destruct (Z.even m); lia.
Qed.

Lemma round_nearest_even_exact (m : Z) :
  round_nearest_even (shr_m (shr_record_of_loc m loc_Exact))
    (loc_of_shr_record (shr_record_of_loc m loc_Exact)) = m.
Proof. done. Qed.

(** What [shr_fexp] does to a positive mantissa in the normal range. *)
Lemma shr_fexp_spec (m e : Z) (l : location) :
  0 < m -> -1074 <= Zdigits2 m + e - 53 ->
  let n := Z.max 0 (Zdigits2 m - 53) in
  exists mrs, shr_fexp 53 1024 m e l = (mrs, e + n) /\
    shr_m mrs = m / 2 ^ n /\
    (n = 0 -> mrs = shr_record_of_loc m l).
Proof.
  intros Hm Hrange n. unfold shr_fexp, fexp, emin.
  replace (Z.max (Zdigits2 m + e - 53) (3 - 1024 - 53) - e) with (Zdigits2 m - 53) by lia.
  destruct (Zdigits2 m - 53) as [| p | p] eqn:Hd; cbn [shr].
  - exists (shr_record_of_loc m l). subst n. cbn.
    rewrite Z.add_0_r, Z.div_1_r, shr_record_of_loc_m. done.
  - eexists. split; [f_equal; subst n; lia |].
    rewrite iter_pos_nat. subst n. split; [| lia].
    rewrite shr_iter_m, shr_record_of_loc_m by (rewrite shr_record_of_loc_m; lia).
    rewrite positive_nat_Z. f_equal.
  - exists (shr_record_of_loc m l). subst n. cbn.
    rewrite Z.add_0_r, Z.div_1_r, shr_record_of_loc_m. done.
Qed.

Lemma shift_to_prec (m : Z) :
  0 < m ->
  let n := Z.max 0 (Zdigits2 m - 53) in
  0 < m / 2 ^ n < 2 ^ 53 /\
  (2 ^ 52 <= m -> 2 ^ 52 <= m / 2 ^ n) /\
  (m / 2 ^ n) * 2 ^ n <= m < (m / 2 ^ n + 1) * 2 ^ n /\
  (m < 2 ^ 53 -> n = 0).
Proof.
  intros Hm n. destruct (Zdigits2_bounds m Hm) as (Hd & Hlo & Hhi).
  assert (0 < 2 ^ n) as Hn by (apply Z.pow_pos_nonneg; lia).
  assert ((m / 2 ^ n) * 2 ^ n <= m < (m / 2 ^ n + 1) * 2 ^ n) as Hdiv.
  { pose proof (Z.div_mod m (2 ^ n)). pose proof (Z.mod_pos_bound m (2 ^ n)). lia. }
  destruct (Z.le_gt_cases (Zdigits2 m) 53) as [Hle | Hgt].
  - assert (n = 0) as Hn0 by lia. rewrite Hn0 in *. rewrite Z.pow_0_r, Z.div_1_r in *.
    assert (2 ^ Zdigits2 m <= 2 ^ 53) by (apply Z.pow_le_mono_r; lia). lia.
  - assert (n = Zdigits2 m - 53) as Hn0 by lia.
    assert (2 ^ (Zdigits2 m - 1) = 2 ^ 52 * 2 ^ n) as E1.
    { rewrite <- Z.pow_add_r by lia. f_equal. lia. }
    assert (2 ^ Zdigits2 m = 2 ^ 53 * 2 ^ n) as E2.
    { rewrite <- Z.pow_add_r by lia. f_equal. lia. }
    assert (2 ^ 52 <= m / 2 ^ n) by (apply Z.div_le_lower_bound; lia).
    assert (m / 2 ^ n < 2 ^ 53) by (apply Z.div_lt_upper_bound; lia).
    assert (2 ^ 53 <= 2 ^ (Zdigits2 m - 1)) by (apply Z.pow_le_mono_r; lia).
    repeat split; try lia.
Qed.

Lemma binary_round_aux_spec (s : bool) (mx ex : Z) (lx : location) :
  0 < mx -> -1022 <= ex <= 970 -> Zdigits2 mx + ex <= 1023 ->
  exists mz ez,
    binary_round_aux 53 1024 s mx ex lx = S754_finite s mz ez /\
    ex <= ez /\ Zdigits2 mx - 53 <= ez - ex <= Z.max 0 (Zdigits2 mx - 53) + 1 /\
    Z.pos mz < 2 ^ 53 /\
    (Z.pos mz - 1) * 2 ^ (ez - ex) <= mx /\
    mx + 1 <= (Z.pos mz + 1) * 2 ^ (ez - ex) /\
    (2 ^ 52 <= mx -> 2 ^ 52 <= Z.pos mz) /\
    (lx = loc_Exact -> mx < 2 ^ 53 -> Z.pos mz = mx /\ ez = ex).
Proof.
  intros Hm Hex Hov.
  destruct (Zdigits2_bounds mx Hm) as (Hd & _).
  destruct (shr_fexp_spec mx ex lx Hm) as (mrs1 & E1 & Hm1 & Hex1); [lia |].
  destruct (shift_to_prec mx Hm) as (Ha & Ha52 & Hadiv & Han).
  set (n1 := Z.max 0 (Zdigits2 mx - 53)) in *.
  set (a := mx / 2 ^ n1) in *.
  assert (0 <= n1) as Hn1 by (unfold n1; lia).
  pose proof (round_nearest_even_bounds mrs1) as Hr.
  set (m1r := round_nearest_even (shr_m mrs1) (loc_of_shr_record mrs1)) in *.
  rewrite Hm1 in Hr. fold a in Hr.
  assert (0 < m1r) as Hm1r by lia.
  destruct (Zdigits2_bounds m1r Hm1r) as (Hd1 & Hd1lo & Hd1hi).
  destruct (shr_fexp_spec m1r (ex + n1) loc_Exact Hm1r) as (mrs2 & E2 & Hm2 & _); [lia |].
  destruct (shift_to_prec m1r Hm1r) as (Hb & Hb52 & Hbdiv & Hbn).
  set (n2 := Z.max 0 (Zdigits2 m1r - 53)) in *.
  set (b := m1r / 2 ^ n2) in *.
  assert (0 <= n2) as Hn2' by (unfold n2; lia).
  assert (n2 <= 1) as Hn2.
  { destruct (Z.le_gt_cases (Zdigits2 m1r) 54) as [? | Hgt]; [lia |].
    assert (2 ^ 54 <= 2 ^ (Zdigits2 m1r - 1)) by (apply Z.pow_le_mono_r; lia). lia. }
  assert (0 < 2 ^ n1) as Hp1 by (apply Z.pow_pos_nonneg; lia).
  assert (0 < 2 ^ n2) as Hp2 by (apply Z.pow_pos_nonneg; lia).
  unfold binary_round_aux. rewrite E1. fold m1r. rewrite E2, Hm2. fold b.
  destruct b as [| mz |] eqn:Hbz; try lia.
  exists mz, (ex + n1 + n2).
  assert ((ex + n1 + n2 <=? 1024 - 53) = true) as ->.
  { apply Z.leb_le. lia. }
  replace (ex + n1 + n2 - ex) with (n1 + n2) by lia.
  rewrite Z.pow_add_r by lia.
  assert (b = Z.pos mz) as Hbz' by done.
  assert (lx = loc_Exact -> n1 = 0 -> m1r = mx) as Hexact.
  { intros -> Hn. unfold m1r. by rewrite (Hex1 Hn). }
  assert (Zdigits2 mx - 53 <= n1 <= Z.max 0 (Zdigits2 mx - 53)) as Hn1d by (unfold n1; lia).
  clearbody b a m1r n1 n2.
  split; [done |]. split; [lia |]. split; [lia |]. split; [lia |].
  split; [nia |]. split; [nia |]. split; [lia |].
  intros Hl Hlt. specialize (Han Hlt). specialize (Hexact Hl Han).
  assert (n2 = 0) as Hn20 by (apply Hbn; lia).
  subst n1 n2. rewrite Z.pow_0_r in *. lia.
Qed.

Lemma Zdigits2_lt (m k : Z) : 0 < m -> 0 <= k -> 2 ^ k <= m -> k < Zdigits2 m.
Proof.
  intros Hm Hk Hle. destruct (Zdigits2_bounds m Hm) as (Hd & _ & Hhi).
  apply (Z.pow_lt_mono_r_iff 2); lia.
Qed.

Lemma Zdigits2_le (m k : Z) : 0 < m -> 0 <= k -> m < 2 ^ k -> Zdigits2 m <= k.
Proof.
  intros Hm Hk Hlt. destruct (Zdigits2_bounds m Hm) as (Hd & Hlo & _).
  assert (Zdigits2 m - 1 < k); [| lia].
  apply (Z.pow_lt_mono_r_iff 2); lia.
Qed.

Lemma pos_iter_xO (p k : positive) : Z.pos (Pos.iter xO p k) = Z.pos p * 2 ^ Z.pos k.
Proof.
  change (Pos.iter xO p k) with (shift_pos k p).
  rewrite shift_pos_correct, Z.pow_pos_fold. lia.
Qed.

(** Integers below 2^53 convert exactly, to a normalised mantissa. *)
Lemma of_int_pos (z : Z) :
  0 < z < 2 ^ 53 ->
  exists m e, of_int z = S754_finite false m e /\
    -52 <= e <= 0 /\ 2 ^ 52 <= Z.pos m < 2 ^ 53 /\ Z.pos m = z * 2 ^ (- e).
Proof.
  intros [Hz Hlt]. destruct z as [| p |]; try lia.
  destruct (Zdigits2_bounds (Z.pos p) Hz) as (Hd & Hlo & Hhi).
  pose proof (Zdigits2_le (Z.pos p) 53 Hz ltac:(lia) Hlt) as Hd53.
  cbn [Zdigits2] in *.
  unfold of_int, binary_normalize, binary_round, shl_align, fexp, emin.
  replace (Z.max (Z.pos (digits2_pos p) + 0 - 53) (3 - 1024 - 53) - 0)
    with (Z.pos (digits2_pos p) - 53) by lia.
  replace (Z.max (Z.pos (digits2_pos p) + 0 - 53) (3 - 1024 - 53))
    with (Z.pos (digits2_pos p) - 53) by lia.
  destruct (Z.pos (digits2_pos p) - 53) as [| k | k] eqn:Hk; try lia.
  - assert (Z.pos (digits2_pos p) - 1 = 52) as E by lia. rewrite E in Hlo.
    destruct (binary_round_aux_spec false (Z.pos p) 0 loc_Exact) as
      (mz & ez & -> & _ & _ & _ & _ & _ & _ & Hexact); [lia | lia | cbn [Zdigits2]; lia |].
    destruct (Hexact eq_refl Hlt) as [Hmz ->].
    exists mz, 0. rewrite Hmz, Z.mul_1_r. repeat split; lia.
  - assert (Z.pos (Pos.iter xO p k) = Z.pos p * 2 ^ Z.pos k) as Hm by apply pos_iter_xO.
    assert (2 ^ (Z.pos (digits2_pos p)) * 2 ^ Z.pos k = 2 ^ 53) as E1.
    { rewrite <- Z.pow_add_r by lia. f_equal. lia. }
    assert (2 ^ (Z.pos (digits2_pos p) - 1) * 2 ^ Z.pos k = 2 ^ 52) as E2.
    { rewrite <- Z.pow_add_r by lia. f_equal. lia. }
    assert (0 < 2 ^ Z.pos k) as Hpk by (apply Z.pow_pos_nonneg; lia).
    assert (2 ^ 52 <= Z.pos (Pos.iter xO p k) < 2 ^ 53) as Hrange by nia.
    destruct (binary_round_aux_spec false (Z.pos (Pos.iter xO p k)) (Z.neg k) loc_Exact) as
      (mz & ez & -> & _ & _ & _ & _ & _ & _ & Hexact); [lia | lia | |].
    { rewrite (Zdigits2_unique _ 53); lia. }
    destruct (Hexact eq_refl ltac:(lia)) as [Hmz ->].
    exists mz, (Z.neg k). rewrite Hmz, Hm. repeat split; try lia.
Qed.


(** [a / b] on positive ints: a normalised quotient, within one unit in
    the last place of the exact one. *)
Lemma fdiv_exact_spec (N K : Z) :
  0 < N < 2 ^ 51 -> 0 < K < 2 ^ 53 ->
  exists ms es,
    fdiv (exact N) (exact K) = S754_finite false ms es /\
    -105 <= es <= 0 /\ 2 ^ 52 <= Z.pos ms < 2 ^ 53 /\
    (Z.pos ms - 1) * K <= N * 2 ^ (- es) <= (Z.pos ms + 1) * K.
Proof.
  intros HN HK.
  destruct N as [| n |]; try lia. destruct K as [| k |]; try lia.
  destruct (Zdigits2_bounds (Z.pos n) ltac:(lia)) as (Hd1 & Hlo1 & Hhi1).
  destruct (Zdigits2_bounds (Z.pos k) ltac:(lia)) as (Hd2 & Hlo2 & Hhi2).
  pose proof (Zdigits2_le (Z.pos n) 51 ltac:(lia) ltac:(lia) ltac:(lia)) as Hd1'.
  pose proof (Zdigits2_le (Z.pos k) 53 ltac:(lia) ltac:(lia) ltac:(lia)) as Hd2'.
  cbn [exact]. unfold fdiv, SFdiv, SFdiv_core_binary, fexp, emin.
  set (d1 := Zdigits2 (Z.pos n)) in *. set (d2 := Zdigits2 (Z.pos k)) in *.
  replace (Z.min (Z.max (d1 + 0 - (d2 + 0) - 53) (3 - 1024 - 53)) (0 - 0))
    with (d1 - d2 - 53) by lia.
  replace (0 - 0 - (d1 - d2 - 53)) with (53 + d2 - d1) by lia.
  destruct (53 + d2 - d1) as [| s |] eqn:Hs; try lia.
  rewrite Z.shiftl_mul_pow2 by lia.
  assert (2 ^ (d1 - 1) * 2 ^ Z.pos s = 2 ^ 53 * 2 ^ (d2 - 1)) as Epow.
  { rewrite <- !Z.pow_add_r by lia. f_equal. lia. }
  assert (2 ^ d1 = 2 * 2 ^ (d1 - 1)) as E1.
  { rewrite <- Z.pow_succ_r by lia. f_equal. lia. }
  assert (2 ^ d2 = 2 * 2 ^ (d2 - 1)) as E2.
  { rewrite <- Z.pow_succ_r by lia. f_equal. lia. }
  assert (0 < 2 ^ Z.pos s) as HS by (apply Z.pow_pos_nonneg; lia).
  assert (0 < 2 ^ (d2 - 1)) as HP2 by (apply Z.pow_pos_nonneg; lia).
  pose proof (Z_div_mod (Z.pos n * 2 ^ Z.pos s) (Z.pos k) ltac:(lia)) as Hdiv.
  destruct (Z.div_eucl (Z.pos n * 2 ^ Z.pos s) (Z.pos k)) as [q r].
  destruct Hdiv as [Hq Hr].
  assert (2 ^ 52 <= q < 2 ^ 54) as Hqr by nia.
  pose proof (Zdigits2_le q 54 ltac:(lia) ltac:(lia) ltac:(lia)) as Hdq.
  destruct (binary_round_aux_spec false q (d1 - d2 - 53) (new_location (Z.pos k) r))
    as (mz & ez & E & Hez & Hsh & Hmz & Hlo & Hhi & H52 & _); [lia.. |].
  cbn [xorb]. rewrite E. exists mz, ez.
  split; [done |]. split; [lia |]. split; [lia |].
  set (c := ez - (d1 - d2 - 53)) in *.
  assert (0 <= c) as Hc by (unfold c; lia).
  assert (2 ^ Z.pos s = 2 ^ (- ez) * 2 ^ c) as Ea.
  { rewrite <- Z.pow_add_r by lia. f_equal. unfold c. lia. }
  assert (0 < 2 ^ c) as Hp by (apply Z.pow_pos_nonneg; lia).
  rewrite Ea in Hq. set (P := 2 ^ c) in *. set (Q := 2 ^ (- ez)) in *.
  clearbody P Q c d1 d2.
  split; apply Z.mul_le_mono_pos_r with (p := P); try done; nia.
Qed.

(** Python's [i * x] for a positive int and a normalised positive float. *)
Lemma int_mul_float_spec (i : Z) (ms : positive) (es : Z) :
  0 < i < 2 ^ 53 -> 2 ^ 52 <= Z.pos ms < 2 ^ 53 -> -900 <= es <= 0 ->
  exists mx ex,
    fmul (of_int i) (S754_finite false ms es) = S754_finite false mx ex /\
    es <= ex /\ 2 ^ 52 <= Z.pos mx < 2 ^ 53 /\
    (Z.pos mx - 1) * 2 ^ (ex - es) <= i * Z.pos ms < (Z.pos mx + 1) * 2 ^ (ex - es).
Proof.
  intros Hi Hms Hes.
  destruct (of_int_pos i) as (mi & ei & Ei & Hei & Hmi & Hvi); [lia |].
  unfold fmul. rewrite Ei. cbn [SFmul xorb].
  assert (2 ^ 104 <= Z.pos (mi * ms) < 2 ^ 106) as Hprod by (rewrite Pos2Z.inj_mul; nia).
  pose proof (Zdigits2_lt (Z.pos (mi * ms)) 104 ltac:(lia) ltac:(lia) ltac:(lia)) as Hd1.
  pose proof (Zdigits2_le (Z.pos (mi * ms)) 106 ltac:(lia) ltac:(lia) ltac:(lia)) as Hd2.
  destruct (binary_round_aux_spec false (Z.pos (mi * ms)) (ei + es) loc_Exact)
    as (mx & ex & E & Hex & Hsh & Hmx & Hlo & Hhi & H52 & _); [lia.. |].
  rewrite E. exists mx, ex.
  split; [done |]. split; [lia |]. split; [lia |].
  assert (2 ^ (ex - (ei + es)) = 2 ^ (ex - es) * 2 ^ (- ei)) as Ea.
  { rewrite <- Z.pow_add_r by lia. f_equal. lia. }
  assert (0 < 2 ^ (- ei)) as Hp by (apply Z.pow_pos_nonneg; lia).
  rewrite Pos2Z.inj_mul, Hvi, Ea in Hlo, Hhi.
  split.
  - apply Z.mul_le_mono_pos_r with (p := 2 ^ (- ei)); [done |]. lia.
  - apply Z.mul_lt_mono_pos_r with (p := 2 ^ (- ei)); [done |]. lia.
Qed.

Lemma trunc_scaled (m : positive) (e c : Z) :
  c <= 0 -> c <= e ->
  trunc (S754_finite false m e) = Some ((Z.pos m * 2 ^ (e - c)) / 2 ^ (- c)).
Proof.
  intros Hc Hce. cbn [trunc cond_Zopp]. f_equal.
  destruct (Z.ltb_spec e 0) as [Hneg | Hpos].
  - replace (2 ^ (- c)) with (2 ^ (- e) * 2 ^ (e - c))
      by (rewrite <- Z.pow_add_r by lia; f_equal; lia).
    rewrite Z.div_mul_cancel_r; [done | |]; apply Z.pow_nonzero; lia.
  - replace (2 ^ (e - c)) with (2 ^ e * 2 ^ (- c))
      by (rewrite <- Z.pow_add_r by lia; f_equal; lia).
    rewrite Z.mul_assoc, Z.div_mul; [done |]. apply Z.pow_nonzero; lia.
Qed.

(** The arithmetic heart of the sampler: both roundings together move
    [i * N / K] by less than [1 / K]. *)
Lemma stride_error (N K i ms mx Q U : Z) :
  0 < K -> 0 < i < K -> i * N < 2 ^ 50 -> 0 < N ->
  0 < Q -> 0 < U -> 2 ^ 52 <= ms -> 2 ^ 52 <= mx ->
  (ms - 1) * K <= N * Q <= (ms + 1) * K ->
  (mx - 1) * U <= i * ms < (mx + 1) * U ->
  i * N * Q - Q < K * (mx * U) < i * N * Q + Q.
Proof.
  intros HK Hi HiN HN HQ HU Hms Hmx [H1l H1r] [H2l H2r].
  assert ((2 ^ 52 - 1) * K <= N * Q) as He by nia.
  assert ((2 ^ 52 - 1) * (i * K) <= i * N * Q) as He' by nia.
  assert (3 * (i * K) < Q) as Hf by nia.
  assert (K * (i * ms) <= i * N * Q + i * K) as Hb by nia.
  assert (i * N * Q <= K * (i * ms) + i * K) as Hb' by nia.
  assert ((2 ^ 52 - 1) * U <= i * ms) as Hd by nia.
  assert ((2 ^ 52 - 1) * (K * U) <= K * (i * ms)) as Hd' by nia.
  assert (3 * 2 ^ 50 * (K * U) < (2 ^ 50 + 1) * Q) as Hg by nia.
  assert (i * K + K * U < Q) as Hsum by nia.
  assert (K * (mx * U) <= K * (i * ms) + K * U) as Ha by nia.
  assert (K * (i * ms) < K * (mx * U) + K * U) as Ha' by nia.
  lia.
Qed.


End Binary64_facts.

(** ** The error monad on lists *)

Lemma mapM_result_Forall2 {A B} (f : A -> result B) (P : A -> B -> Prop) (l : list A) :
  (forall x, x ∈ l -> exists y, f x = Ok y /\ P x y) ->
  exists k, mapM f l = Ok k /\ Forall2 P l k.
Proof.
  induction l as [| x l IH]; intros Hall.
  - exists []. split; [done | constructor].
  - destruct (Hall x) as (y & Hy & HP); [left |].
    destruct IH as (k & Hk & HF); [intros z Hz; apply Hall; by right |].
    exists (y :: k). split; [| by constructor].
    cbn. rewrite Hy. cbn. rewrite Hk. done.
Qed.

Lemma py_range_lookup (n : Z) (i : nat) :
  (i < Z.to_nat n)%nat -> py_range n !! i = Some (Z.of_nat i).
Proof.
  intros Hi. unfold py_range. rewrite list_lookup_fmap, lookup_seq_lt by done. done.
Qed.

Lemma py_range_length (n : Z) : length (py_range n) = Z.to_nat n.
Proof. unfold py_range. by rewrite length_fmap, length_seq. Qed.

Lemma py_range_elem (n x : Z) : x ∈ py_range n -> 0 <= x < n.
Proof.
  unfold py_range. intros (i & -> & Hi)%list_elem_of_fmap.
  apply elem_of_seq in Hi. lia.
Qed.

Lemma py_getitem_nonneg {A} (l : list A) (j : Z) (a : A) :
  0 <= j -> l !! Z.to_nat j = Some a -> py_getitem l j = Ok a.
Proof.
  intros Hj Hl. unfold py_getitem.
  destruct (Z.ltb_spec j 0) as [? | _]; [lia |].
  destruct (Z.ltb_spec j 0) as [? | _]; [lia |]. by rewrite Hl.
Qed.

(** ** UniformSampler *)

Lemma stride_spec (N K : Z) :
  0 < K < N -> N * K < 2 ^ 50 ->
  exists step, py_truediv_int N K = Ok step /\
    forall i, 0 <= i < K -> exists j, sample_index step i = Ok j /\ picks N K i j.
Proof.
  intros HK HNK.
  assert (N < 2 ^ 50) as HN by nia.
  destruct (fdiv_exact_spec N K) as (ms & es & Es & Hes & Hms & Hq); [lia.. |].
  exists (S754_finite false ms es). split.
  { unfold py_truediv_int. destruct (Z.eqb_spec K 0) as [? | _]; [lia |]. by rewrite Es. }
  intros i Hi. unfold sample_index, py_mul_int_float, py_float.
  destruct (Z.eq_dec i 0) as [-> | Hi0].
  { exists 0. split; [done |]. left. by rewrite Z.mul_0_l, Z.div_0_l by lia. }
  destruct (of_int_pos i) as (mi & ei & Ei & _); [nia |].
  destruct (int_mul_float_spec i ms es) as (mx & ex & Ex & Hex & Hmx & Hp); [nia | lia.. |].
  rewrite Ei. cbn [mbind result_bind]. rewrite <- Ei, Ex. cbn [py_int].
  rewrite (trunc_scaled mx ex es) by lia.
  set (Q := 2 ^ (- es)) in *. set (U := 2 ^ (ex - es)) in *.
  assert (0 < Q) as HQ by (apply Z.pow_pos_nonneg; lia).
  assert (0 < U) as HU by (apply Z.pow_pos_nonneg; lia).
  assert (i * N < 2 ^ 50) as HiN by nia.
  pose proof (stride_error N K i (Z.pos ms) (Z.pos mx) Q U) as Herr.
  specialize (Herr ltac:(lia) ltac:(lia) HiN ltac:(lia) HQ HU ltac:(lia) ltac:(lia) Hq Hp).
  set (X := Z.pos mx * U) in *. clearbody X Q U.
  pose proof (Z.div_mod (i * N) K ltac:(lia)) as Hdm.
  pose proof (Z.mod_pos_bound (i * N) K ltac:(lia)) as Hrho.
  unfold picks.
  set (f := i * N / K) in *. set (rho := (i * N) mod K) in *. clearbody f rho.
  assert (X < (f + 1) * Q) as Hup by nia.
  eexists. split; [done |].
  destruct (Z.eq_dec rho 0) as [Hr0 | Hr0].
  - assert ((f - 1) * Q <= X) as Hlo by nia.
    destruct (Z.le_gt_cases (f * Q) X) as [Hge | Hlt].
    + left. symmetry. apply Z.div_unique with (r := X - f * Q); lia.
    + right. split; [| lia]. symmetry.
      apply Z.div_unique with (r := X - (f - 1) * Q); lia.
  - left. assert (f * Q <= X) as Hlo by nia.
    symmetry. apply Z.div_unique with (r := X - f * Q); lia.
Qed.

Lemma picks_range (N K i j : Z) :
  0 < K < N -> 0 <= i < K -> picks N K i j -> 0 <= j < N.
Proof.
  intros HK Hi Hp.
  assert (0 <= i * N / K) by (apply Z.div_pos; nia).
  assert (i * N / K < N) by (apply Z.div_lt_upper_bound; nia).
  destruct Hp as [-> | (-> & _ & Hpos)]; [lia |].
  assert (1 <= i * N / K) by (apply Z.div_le_lower_bound; nia). lia.
Qed.

Lemma picks_increasing (N K i i' j j' : Z) :
  0 < K < N -> 0 <= i < i' -> i' < K ->
  picks N K i j -> picks N K i' j' -> j < j'.
Proof.
  intros HK Hi Hi' Hp Hp'.
  assert (j <= i * N / K) as Hj by (destruct Hp as [-> | (-> & _)]; lia).
  assert (i * N / K + 1 <= i' * N / K) as Hstep.
  { apply Z.div_le_lower_bound; [lia |].
    pose proof (Z.mul_div_le (i * N) K ltac:(lia)). nia. }
  destruct Hp' as [-> | (-> & Hmod & _)]; [lia |].
  assert (i' * N = K * (i' * N / K)) as Hex.
  { pose proof (Z.div_mod (i' * N) K ltac:(lia)). lia. }
  assert (i * N / K < i' * N / K - 1); [| lia].
  apply Z.div_lt_upper_bound; [lia |]. nia.
Qed.

(** The strided branch, position by position. *)
Lemma uniform_sample_strided (valid_frames : list (Z * (Z * Z))) (K : Z) :
  let N := Z.of_nat (length valid_frames) in
  0 < K < N -> N * K < 2 ^ 50 ->
  exists out, uniform_sample valid_frames K = Ok out /\
    length out = Z.to_nat K /\
    forall i : nat, (i < Z.to_nat K)%nat ->
      exists j, picks N K (Z.of_nat i) j /\ 0 <= j < N /\
        out !! i = to_coordinate <$> valid_frames !! Z.to_nat j.
Proof.
  intros N HK HNK. unfold uniform_sample. fold N.
  destruct (Z.leb_spec N K) as [? | _]; [lia |].
  destruct (stride_spec N K HK HNK) as (step & -> & Hidx).
  cbn [mbind result_bind].
  set (body := fun i : Z => _).
  destruct (mapM_result_Forall2 body
    (fun i c => exists j, picks N K i j /\ 0 <= j < N /\
                  Some c = to_coordinate <$> valid_frames !! Z.to_nat j)
    (py_range K)) as (out & -> & HF).
  { intros i Hi%py_range_elem.
    destruct (Hidx i Hi) as (j & Hj & Hp).
    pose proof (picks_range N K i j HK Hi Hp) as Hr.
    destruct (lookup_lt_is_Some_2 valid_frames (Z.to_nat j)) as [vf Hvf]; [lia |].
    exists (to_coordinate vf). split.
    - unfold body. rewrite Hj. cbn [mbind result_bind].
      by rewrite (py_getitem_nonneg _ _ vf) by (done || lia).
    - exists j. by rewrite Hvf. }
  exists out. split; [done |].
  pose proof (Forall2_length _ _ _ HF) as Hlen. rewrite py_range_length in Hlen.
  split; [done |]. intros i Hi.
  destruct (lookup_lt_is_Some_2 out i) as [c Hc]; [lia |].
  pose proof (Forall2_lookup_lr _ _ _ _ _ _ HF (py_range_lookup K i Hi) Hc)
    as (j & Hp & Hr & Heq).
  exists j. by rewrite Hc.
Qed.

Lemma StronglySorted_lookup {A} (R : A -> A -> Prop) (l : list A) :
  StronglySorted R l <->
  forall (i j : nat) (a b : A), (i < j)%nat -> l !! i = Some a -> l !! j = Some b -> R a b.
Proof.
  induction l as [| x l IH].
  - split; [intros _ i j a b _ Hi; by rewrite lookup_nil in Hi | constructor].
  - rewrite StronglySorted_cons, IH, Forall_forall. split.
    + intros [Hx Hl] i j a b Hij Hi Hj.
      destruct j as [| j]; [lia |]. cbn in Hj.
      destruct i as [| i]; cbn in Hi.
      * injection Hi as <-. apply Hx. by eapply list_elem_of_lookup_2.
      * apply (Hl i j); [lia | done..].
    + intros H. split.
      * intros y (j & Hj)%list_elem_of_lookup_1. by apply (H 0%nat (S j)); [lia | |].
      * intros i j a b Hij Hi Hj. apply (H (S i) (S j)); [lia | done..].
Qed.

Lemma uniform_sample_all (valid_frames : list (Z * (Z * Z))) (K : Z) :
  Z.of_nat (length valid_frames) <= K ->
  uniform_sample valid_frames K = Ok (to_coordinate <$> valid_frames).
Proof.
  intros HK. unfold uniform_sample.
  by destruct (Z.leb_spec (Z.of_nat (length valid_frames)) K) as [_ | ?]; [| lia].
Qed.

Lemma to_coordinate_frame (vf : Z * (Z * Z)) : c_frame (to_coordinate vf) = vf.1.
Proof. by destruct vf as [f [x y]]. Qed.

(** C3: for every trajectory whose frame indices are strictly increasing
    and every K >= 1, the sampler succeeds and the frame indices of the
    sample set are strictly increasing, hence without duplicates. [N * K]
    below 2^50 keeps the rounding of [i * (N / K)] under the distance
    between two picks; it is only asked when the sampler strides. *)
Theorem sample_frames_strictly_increasing (valid_frames : list (Z * (Z * Z))) (K : Z) :
  let N := Z.of_nat (length valid_frames) in
  1 <= K -> (K < N -> N * K < 2 ^ 50) ->
  StronglySorted Z.lt (fst <$> valid_frames) ->
  exists out, uniform_sample valid_frames K = Ok out /\
    StronglySorted Z.lt (c_frame <$> out) /\ NoDup (c_frame <$> out).
Proof.
  intros N HK Hbound Hsorted.
  assert (forall out, StronglySorted Z.lt (c_frame <$> out) -> NoDup (c_frame <$> out)) as Hnodup.
  { intros out. generalize (c_frame <$> out). intros l Hl.
    induction Hl as [| x l _ IH Hx]; constructor; [| done].
    intros Hin. rewrite Forall_forall in Hx. specialize (Hx x Hin). lia. }
  destruct (Z.le_gt_cases N K) as [Hle | Hgt].
  - exists (to_coordinate <$> valid_frames).
    split; [by apply uniform_sample_all |].
    assert (c_frame <$> (to_coordinate <$> valid_frames) = fst <$> valid_frames) as E.
    { rewrite <- list_fmap_compose. apply list_fmap_ext. intros i x _. apply to_coordinate_frame. }
    split; [by rewrite E | apply Hnodup; by rewrite E].
  - destruct (uniform_sample_strided valid_frames K) as (out & Hout & Hlen & Hpick);
      [lia | by apply Hbound |].
    fold N in Hpick. exists out. split; [done |].
    assert (StronglySorted Z.lt (c_frame <$> out)) as Hs; [| by auto].
    apply StronglySorted_lookup. intros i i' a b Hii' Ha Hb.
    rewrite list_lookup_fmap in Ha, Hb.
    assert (i' < Z.to_nat K)%nat as Hi'.
    { rewrite <- Hlen. apply lookup_lt_is_Some. destruct (out !! i'); [eauto | done]. }
    destruct (Hpick i ltac:(lia)) as (j & Hp & Hr & Ej).
    destruct (Hpick i' Hi') as (j' & Hp' & Hr' & Ej').
    rewrite Ej in Ha. rewrite Ej' in Hb.
    assert (j < j') as Hjj' by (eapply (picks_increasing N K); [| | | exact Hp | exact Hp']; lia).
    destruct (valid_frames !! Z.to_nat j) as [vf |] eqn:Hvf; [| done].
    destruct (valid_frames !! Z.to_nat j') as [vf' |] eqn:Hvf'; [| done].
    cbn in Ha, Hb. injection Ha as <-. injection Hb as <-.
    rewrite !to_coordinate_frame.
    rewrite StronglySorted_lookup in Hsorted.
    apply (Hsorted (Z.to_nat j) (Z.to_nat j')); [lia | |]; rewrite list_lookup_fmap.
    + by rewrite Hvf.
    + by rewrite Hvf'.
Qed.

Lemma py_getitem_0 {A} (l : list A) :
  py_getitem l 0 = match head l with Some a => Ok a | None => Err IndexError end.
Proof. by destruct l. Qed.

(** C10: for every non-empty trajectory and every K >= 1 the first
    element of the sample set is the first detection of the trajectory,
    so the vertical offset computed from the sample set is the one
    computed from the earliest detection of the scan, whatever K. *)
Theorem sample_starts_at_first_detection (valid_frames : list (Z * (Z * Z))) (K : Z) :
  let N := Z.of_nat (length valid_frames) in
  1 <= K -> (K < N -> N * K < 2 ^ 50) -> valid_frames <> [] ->
  exists out, uniform_sample valid_frames K = Ok out /\
    head out = to_coordinate <$> head valid_frames /\
    forall template_y,
      compute_y_offset template_y out =
      compute_y_offset template_y (to_coordinate <$> valid_frames).
Proof.
  intros N HK Hbound Hne.
  assert (forall out, head out = to_coordinate <$> head valid_frames ->
    forall template_y, compute_y_offset template_y out =
      compute_y_offset template_y (to_coordinate <$> valid_frames)) as Hoff.
  { intros out Hhead ty. unfold compute_y_offset.
    rewrite !py_getitem_0, Hhead. by destruct valid_frames. }
  destruct (Z.le_gt_cases N K) as [Hle | Hgt].
  - exists (to_coordinate <$> valid_frames).
    split; [by apply uniform_sample_all |]. split; [by destruct valid_frames | done].
  - destruct (uniform_sample_strided valid_frames K) as (out & Hout & Hlen & Hpick);
      [lia | by apply Hbound |].
    fold N in Hpick. exists out. split; [done |].
    assert (head out = to_coordinate <$> head valid_frames) as Hhead; [| by auto].
    destruct (Hpick 0%nat ltac:(lia)) as (j & Hp & Hr & Ej).
    rewrite !head_lookup, Ej.
    destruct Hp as [-> | (_ & _ & ?)]; [| lia].
    by rewrite Z.mul_0_l, Z.div_0_l by lia.
Qed.

(** C1, as amended: with N detections and K >= 1, the sampler returns the
    trajectory unchanged when N <= K; otherwise it returns exactly K
    entries, entry i being the detection at position [int(i * (N / K))]
    computed in binary64: that is [floor (i * N / K)], or one less when K
    divides [i * N] and the rounded product falls short of the whole
    number. For 100 detections and K = 5 the positions are 0, 20, 40, 60
    and 80. *)
Theorem uniform_sample_positions (valid_frames : list (Z * (Z * Z))) (K : Z) :
  let N := Z.of_nat (length valid_frames) in
  1 <= K -> (K < N -> N * K < 2 ^ 50) ->
  (N <= K -> uniform_sample valid_frames K = Ok (to_coordinate <$> valid_frames)) /\
  (K < N ->
     exists out, uniform_sample valid_frames K = Ok out /\
       length out = Z.to_nat K /\
       forall i : nat, (i < Z.to_nat K)%nat ->
         exists j, picks N K (Z.of_nat i) j /\ 0 <= j < N /\
           out !! i = to_coordinate <$> valid_frames !! Z.to_nat j) /\
  uniform_sample (trajectory 100) 5 =
    Ok (omap (fun j => to_coordinate <$> trajectory 100 !! j) [0; 20; 40; 60; 80]%nat).
Proof.
  intros N HK Hbound. split; [apply uniform_sample_all |]. split.
  - intros Hgt. apply uniform_sample_strided; [lia | by apply Hbound].
  - by vm_compute.
Qed.

Lemma uniform_sample_positions_witness :
  1 <= 22 /\ (22 < 30 -> 30 * 22 < 2 ^ 50) /\
  exists out, uniform_sample (trajectory 30) 22 = Ok out /\ length out = 22%nat.
Proof.
  split; [lia |]. split; [lia |].
  destruct (uniform_sample_positions (trajectory 30) 22) as (_ & Hstride & _).
  - lia.
  - vm_compute. done.
  - destruct Hstride as (out & Hout & Hlen & _); [vm_compute; done |].
    exists out. split; [exact Hout | exact Hlen].
Defined.

(** C1, as stated, fails: of 30 detections and K = 22, sample 11 is
    the detection at position 14 (frame 15), where [floor (11 * 30 / 22)]
    is 15 (frame 16): [30 / 22] rounds below 15/11. *)
Lemma uniform_sample_not_reference :
  exists out, uniform_sample (trajectory 30) 22 = Ok out /\
    out <> reference_sample (trajectory 30) 22 /\
    c_frame <$> out !! 11%nat = Some 15 /\
    c_frame <$> reference_sample (trajectory 30) 22 !! 11%nat = Some 16.
Proof.
  eexists. split; [by vm_compute |]. split; [| by vm_compute].
  vm_compute. discriminate.
Qed.

Lemma sample_frames_strictly_increasing_witness :
  1 <= 22 /\ (22 < 30 -> 30 * 22 < 2 ^ 50) /\
  StronglySorted Z.lt (fst <$> trajectory 30) /\
  exists out, uniform_sample (trajectory 30) 22 = Ok out /\
    StronglySorted Z.lt (c_frame <$> out) /\ NoDup (c_frame <$> out).
Proof.
  assert (StronglySorted Z.lt (fst <$> trajectory 30)) as Hs.
  { refine (bool_decide_unpack _ _). vm_compute. exact I. }
  split; [lia |]. split; [lia |]. split; [exact Hs |].
  apply (sample_frames_strictly_increasing (trajectory 30) 22); [lia | | exact Hs].
  vm_compute. done.
Defined.

Lemma sample_starts_at_first_detection_witness :
  1 <= 22 /\ (22 < 30 -> 30 * 22 < 2 ^ 50) /\ trajectory 30 <> [] /\
  exists out, uniform_sample (trajectory 30) 22 = Ok out /\
    head out = to_coordinate <$> head (trajectory 30).
Proof.
  split; [lia |]. split; [lia |]. split; [vm_compute; discriminate |].
  destruct (sample_starts_at_first_detection (trajectory 30) 22) as (out & Hout & Hhead & _).
  - lia.
  - vm_compute. done.
  - vm_compute. discriminate.
  - exists out. split; [exact Hout | exact Hhead].
Defined.

(** ** Documents, dicts and the heap *)

Lemma tree_ind' {A} (P : tree A -> Prop) :
  (forall a, P (TAtom a)) ->
  (forall x elems, Forall P elems -> P (TArr x elems)) ->
  (forall x members, Forall (fun m => P m.2) members -> P (TObj x members)) ->
  forall t, P t.
Proof.
  intros Hatom Harr Hobj. fix IH 1. intros [a | x elems | x members].
  - apply Hatom.
  - apply Harr. induction elems as [| e elems IHe]; constructor; [apply IH | exact IHe].
  - apply Hobj. induction members as [| m members IHm]; constructor; [apply IH | exact IHm].
Qed.

Section dict_fmap.
Context {V W : Type} (f : V -> W).

Lemma dict_get_fmap (items : list (string * V)) (k : string) :
  dict_get (prod_map id f <$> items) k = f <$> dict_get items k.
Proof.
  induction items as [| [k' v] items IH]; [done |]. cbn.
  destruct (decide (k' = k)); [done | exact IH].
Qed.

Lemma dict_set_fmap (items : list (string * V)) (k : string) (v : V) :
  prod_map id f <$> dict_set items k v = dict_set (prod_map id f <$> items) k (f v).
Proof.
  induction items as [| [k' v'] items IH]; [done |]. cbn.
  destruct (decide (k' = k)); [done |]. cbn. by rewrite IH.
Qed.

End dict_fmap.

Section dicts.
Context {V : Type}.

Lemma dict_get_split (items : list (string * V)) (k : string) (v : V) :
  dict_get items k = Some v ->
  exists m1 m2, items = m1 ++ (k, v) :: m2 /\ k ∉ m1.*1.
Proof.
  induction items as [| [k' v'] items IH]; [done |]. cbn.
  destruct (decide (k' = k)) as [-> | Hne].
  - intros [= ->]. exists [], items. split; [done | apply not_elem_of_nil].
  - intros (m1 & m2 & -> & Hk)%IH. exists ((k', v') :: m1), m2.
    split; [done |]. cbn. rewrite not_elem_of_cons. done.
Qed.

Lemma dict_get_app (m1 m2 : list (string * V)) (k : string) (v : V) :
  k ∉ m1.*1 -> dict_get (m1 ++ (k, v) :: m2) k = Some v.
Proof.
  induction m1 as [| [k' v'] m1 IH]; cbn.
  - intros _. by rewrite decide_True.
  - rewrite not_elem_of_cons. intros [Hne Hk]. rewrite decide_False by done. auto.
Qed.

Lemma dict_set_app (m1 m2 : list (string * V)) (k : string) (v v' : V) :
  k ∉ m1.*1 -> dict_set (m1 ++ (k, v) :: m2) k v' = m1 ++ (k, v') :: m2.
Proof.
  induction m1 as [| [k0 v0] m1 IH]; cbn.
  - intros _. by rewrite decide_True.
  - rewrite not_elem_of_cons. intros [Hne Hk]. rewrite decide_False by done.
    by rewrite IH.
Qed.

Lemma dict_set_fresh (items : list (string * V)) (k : string) (v : V) :
  k ∉ items.*1 -> dict_set items k v = items ++ [(k, v)].
Proof.
  induction items as [| [k0 v0] items IH]; cbn; [done |].
  rewrite not_elem_of_cons. intros [Hne Hk]. rewrite decide_False by done.
  by rewrite IH.
Qed.

Lemma dict_of_pairs_NoDup (pairs : list (string * V)) :
  NoDup pairs.*1 -> dict_of_pairs pairs = pairs.
Proof.
  unfold dict_of_pairs.
  cut (forall acc, NoDup (acc ++ pairs).*1 ->
         fold_left (fun d kv => dict_set d kv.1 kv.2) pairs acc = acc ++ pairs).
  { intros H Hnd. apply (H []). done. }
  induction pairs as [| [k v] pairs IH]; intros acc Hnd; cbn.
  - by rewrite app_nil_r.
  - rewrite dict_set_fresh.
    + rewrite IH; rewrite <- app_assoc; done.
    + rewrite fmap_app, NoDup_app in Hnd. destruct Hnd as (_ & Hdis & _).
      intros Hin. apply (Hdis k Hin). cbn. left.
Qed.

Lemma dict_get_elem (items : list (string * V)) (k : string) (v : V) :
  dict_get items k = Some v -> (k, v) ∈ items.
Proof.
  intros (m1 & m2 & -> & _)%dict_get_split. rewrite elem_of_app, elem_of_cons. auto.
Qed.

(** Entries that survive an assignment were there before, or are the new one. *)
Lemma elem_of_dict_set (items : list (string * V)) (k : string) (v : V) (kv : string * V) :
  kv ∈ dict_set items k v -> kv ∈ items \/ kv = (k, v).
Proof.
  induction items as [| [k0 v0] items IH]; cbn.
  - rewrite list_elem_of_singleton. auto.
  - destruct (decide (k0 = k)) as [-> | Hne]; rewrite !elem_of_cons; naive_solver.
Qed.
End dicts.

Lemma mapM_result_Ok {A B} (f : A -> result B) (l : list A) (k : list B) :
  Forall2 (fun x y => f x = Ok y) l k -> mapM f l = Ok k.
Proof.
  induction 1 as [| x y l k Hxy _ IH]; [done |].
  cbn. rewrite Hxy. cbn. by rewrite IH.
Qed.

Lemma elem_of_concat {A} (x : A) (ls : list (list A)) :
  x ∈ concat ls <-> exists l, x ∈ l /\ l ∈ ls.
Proof.
  induction ls as [| l ls IH]; cbn.
  - split; [by intros ?%elem_of_nil | by intros (l & _ & ?%elem_of_nil)].
  - rewrite elem_of_app, IH. split.
    + intros [Hx | (l' & Hx & Hl)]; [exists l | exists l']; rewrite elem_of_cons; auto.
    + intros (l' & Hx & [-> | Hl]%elem_of_cons); eauto.
Qed.

Lemma elem_of_nodes_arr (l : loc) (elems : list (tree loc)) (n : loc * pyobj) :
  n ∈ nodes (TArr l elems) <->
  n = (l, OList (root <$> elems)) \/ exists e, e ∈ elems /\ n ∈ nodes e.
Proof.
  cbn. rewrite elem_of_cons, elem_of_concat. split.
  - intros [-> | (ns & Hn & (e & -> & He)%list_elem_of_fmap)]; eauto.
  - intros [-> | (e & He & Hn)]; [by left | right].
    exists (nodes e). split; [done |]. apply list_elem_of_fmap. eauto.
Qed.

Lemma elem_of_nodes_obj (l : loc) (members : list (string * tree loc)) (n : loc * pyobj) :
  n ∈ nodes (TObj l members) <->
  n = (l, ODict (prod_map id root <$> members)) \/
  exists m, m ∈ members /\ n ∈ nodes m.2.
Proof.
  cbn. rewrite elem_of_cons, elem_of_concat. split.
  - intros [-> | (ns & Hn & (m & -> & Hm)%list_elem_of_fmap)]; eauto.
  - intros [-> | (m & Hm & Hn)]; [by left | right].
    exists (nodes m.2). split; [done |]. apply list_elem_of_fmap. eauto.
Qed.

Lemma elem_of_locs (t : tree loc) (l : loc) :
  l ∈ locs t <-> exists o, (l, o) ∈ nodes t.
Proof.
  unfold locs. rewrite list_elem_of_fmap. split.
  - intros ([l' o] & -> & Hn). eauto.
  - intros (o & Hn). by exists (l, o).
Qed.

Lemma holds_weaken (h h' : heap) (t : tree loc) :
  holds h t -> h ⊆ h' -> holds h' t.
Proof. intros Ht Hsub l o Hn. eapply lookup_weaken; [by apply Ht | done]. Qed.

Lemma holds_frame (h : heap) (t : tree loc) (l : loc) (o : pyobj) :
  holds h t -> l ∉ locs t -> holds (<[l := o]> h) t.
Proof.
  intros Ht Hl l' o' Hn. rewrite lookup_insert_ne; [by apply Ht |].
  intros ->. apply Hl, elem_of_locs. eauto.
Qed.

Lemma holds_elem (h : heap) (l : loc) (elems : list (tree loc)) (e : tree loc) :
  holds h (TArr l elems) -> e ∈ elems -> holds h e.
Proof. intros Ht He l' o Hn. apply Ht, elem_of_nodes_arr. eauto. Qed.

Lemma holds_member (h : heap) (l : loc) (members : list (string * tree loc))
    (m : string * tree loc) :
  holds h (TObj l members) -> m ∈ members -> holds h m.2.
Proof. intros Ht Hm l' o Hn. apply Ht, elem_of_nodes_obj. eauto. Qed.

Lemma holds_arr (h : heap) (l : loc) (elems : list (tree loc)) :
  holds h (TArr l elems) -> h !! l = Some (OList (root <$> elems)).
Proof. intros Ht. apply Ht, elem_of_nodes_arr. by left. Qed.

Lemma holds_obj (h : heap) (l : loc) (members : list (string * tree loc)) :
  holds h (TObj l members) -> h !! l = Some (ODict (prod_map id root <$> members)).
Proof. intros Ht. apply Ht, elem_of_nodes_obj. by left. Qed.

(** *** [json.dumps] reads back what the heap holds *)

Lemma tree_depth_elem {A} (x : A) (elems : list (tree A)) (e : tree A) :
  e ∈ elems -> (tree_depth e < tree_depth (TArr x elems))%nat.
Proof.
  cbn. induction elems as [| e' elems IH]; [by intros ?%elem_of_nil |].
  rewrite elem_of_cons. cbn. intros [-> | He]; [lia |]. specialize (IH He). lia.
Qed.

Lemma tree_depth_member {A} (x : A) (members : list (string * tree A)) (m : string * tree A) :
  m ∈ members -> (tree_depth m.2 < tree_depth (TObj x members))%nat.
Proof.
  cbn. induction members as [| m' members IH]; [by intros ?%elem_of_nil |].
  rewrite elem_of_cons. cbn. intros [-> | Hm]; [lia |]. specialize (IH Hm). lia.
Qed.

Lemma dump_holds (t : tree loc) :
  forall (h : heap) (fuel : nat),
    holds h t -> (tree_depth t <= fuel)%nat -> dump fuel h (root t) = Ok (erase t).
Proof.
  induction t as [a | l elems IH | l members IH] using tree_ind'; intros h fuel Ht Hd.
  - by destruct fuel.
  - destruct fuel as [| n]; [cbn in Hd; lia |].
    cbn [root dump erase]. rewrite (holds_arr _ _ _ Ht).
    rewrite (mapM_result_Ok _ _ (erase <$> elems)); [done |].
    apply Forall2_fmap, Forall_Forall2_diag.
    rewrite Forall_forall in IH |- *. intros e He. apply IH; [done | |].
    + by eapply holds_elem.
    + pose proof (tree_depth_elem l elems e He). lia.
  - destruct fuel as [| n]; [cbn in Hd; lia |].
    cbn [root dump erase]. rewrite (holds_obj _ _ _ Ht).
    rewrite (mapM_result_Ok _ _ (prod_map id erase <$> members)); [done |].
    apply Forall2_fmap, Forall_Forall2_diag.
    rewrite Forall_forall in IH |- *. intros [k e] Hm. cbn.
    rewrite (IH (k, e) Hm); [done | |].
    + by eapply (holds_member _ _ _ (k, e)).
    + pose proof (tree_depth_member l members (k, e) Hm). cbn in *. lia.
Qed.

(** *** What a value reaches lies inside the tree that describes it *)

Lemma reachable_locs (t : tree loc) :
  forall (h : heap) (l : loc), holds h t -> reachable h (root t) l -> l ∈ locs t.
Proof.
  induction t as [a | l0 elems IH | l0 members IH] using tree_ind'; intros h l Ht Hr.
  - inversion Hr.
  - cbn [root] in Hr. inversion Hr as [| ? es v ? Hl Hv Hr' | ? its k v ? Hl]; subst.
    + apply elem_of_locs. eexists. apply elem_of_nodes_arr. by left.
    + rewrite (holds_arr _ _ _ Ht) in Hl. injection Hl as <-.
      apply list_elem_of_fmap in Hv as (e & -> & He).
      rewrite Forall_forall in IH.
      apply (IH e He h l) in Hr'; [| by eapply holds_elem].
      apply elem_of_locs in Hr' as (o & Ho).
      apply elem_of_locs. exists o. apply elem_of_nodes_arr. eauto.
    + rewrite (holds_arr _ _ _ Ht) in Hl. done.
  - cbn [root] in Hr. inversion Hr as [| ? es v ? Hl | ? its k v ? Hl Hv Hr']; subst.
    + apply elem_of_locs. eexists. apply elem_of_nodes_obj. by left.
    + rewrite (holds_obj _ _ _ Ht) in Hl. done.
    + rewrite (holds_obj _ _ _ Ht) in Hl. injection Hl as <-.
      apply list_elem_of_fmap in Hv as ([k' e] & [= -> ->] & Hm).
      rewrite Forall_forall in IH.
      apply (IH (k', e) Hm h l) in Hr'; [| by eapply (holds_member _ _ _ (k', e))].
      apply elem_of_locs in Hr' as (o & Ho).
      apply elem_of_locs. exists o. apply elem_of_nodes_obj. eauto.
Qed.

(** *** [json.loads] builds a fresh tree *)

Lemma alloc_all_spec {X Y} (f : X -> heap -> Y * heap) (R : X -> Y -> Prop)
    (L : Y -> list loc) (H : heap -> Y -> Prop) :
  (forall h h' y, H h y -> h ⊆ h' -> H h' y) ->
  forall xs,
    Forall (fun x => forall h, exists y h',
              f x h = (y, h') /\ R x y /\ h ⊆ h' /\ H h' y /\ NoDup (L y) /\
              forall l, l ∈ L y -> (l ∉ dom h) /\ (l ∈ dom h')) xs ->
    forall h, exists ys h',
      alloc_all f xs h = (ys, h') /\ Forall2 R xs ys /\ h ⊆ h' /\
      Forall (H h') ys /\ NoDup (concat (L <$> ys)) /\
      forall l, l ∈ concat (L <$> ys) -> (l ∉ dom h) /\ (l ∈ dom h').
Proof.
  intros Hmono xs Hxs. induction Hxs as [| x xs Hx _ IH]; intros h.
  - exists [], h. cbn. split; [done |]. split; [constructor |]. split; [done |].
    split; [constructor |]. split; [constructor |]. by intros l ?%elem_of_nil.
  - destruct (Hx h) as (y & h1 & Ey & HR & Hsub1 & HH & Hnd & Hfresh).
    destruct (IH h1) as (ys & h2 & Eys & HRs & Hsub2 & HHs & Hnds & Hfreshs).
    exists (y :: ys), h2. cbn. rewrite Ey, Eys.
    pose proof (subseteq_dom _ _ Hsub1) as Hd1.
    pose proof (subseteq_dom _ _ Hsub2) as Hd2.
    split; [done |]. split; [by constructor |]. split; [by etrans |].
    split; [constructor; [by eapply Hmono | done] |]. split.
    + apply NoDup_app. split; [done |]. split; [| done].
      intros l Hl Hl'. apply Hfresh in Hl as [_ Hl]. apply Hfreshs in Hl' as [Hl' _]. done.
    + intros l [Hl | Hl]%elem_of_app.
      * apply Hfresh in Hl as [? ?]. split; [done |]. by apply Hd2.
      * apply Hfreshs in Hl as [Hl ?]. split; [| done]. intros ?. by apply Hl, Hd1.
Qed.

Lemma keys_unique_arr {A} (x : A) (elems : list (tree A)) :
  keys_unique (TArr x elems) <-> Forall keys_unique elems.
Proof.
  cbn. induction elems as [| e elems IH]; cbn; [by split; [constructor |] |].
  rewrite Forall_cons, IH. done.
Qed.

Lemma keys_unique_obj {A} (x : A) (members : list (string * tree A)) :
  keys_unique (TObj x members) <->
  NoDup members.*1 /\ Forall (fun m => keys_unique m.2) members.
Proof.
  cbn. apply and_iff_compat_l.
  induction members as [| m members IH]; cbn; [by split; [constructor |] |].
  rewrite Forall_cons, IH. done.
Qed.

Lemma locs_arr (l : loc) (elems : list (tree loc)) :
  locs (TArr l elems) = l :: concat (locs <$> elems).
Proof.
  unfold locs. cbn. f_equal. induction elems as [| e elems IH]; [done |].
  cbn. by rewrite fmap_app, IH.
Qed.

Lemma locs_obj (l : loc) (members : list (string * tree loc)) :
  locs (TObj l members) = l :: concat ((fun m => locs m.2) <$> members).
Proof.
  unfold locs. cbn. f_equal. induction members as [| m members IH]; [done |].
  cbn. by rewrite fmap_app, IH.
Qed.

Lemma alloc_tree_spec (j : json) :
  keys_unique j ->
  forall h, exists t h',
    alloc_tree j h = (t, h') /\ erase t = j /\ h ⊆ h' /\ holds h' t /\
    NoDup (locs t) /\ forall l, l ∈ locs t -> (l ∉ dom h) /\ (l ∈ dom h').
Proof.
  induction j as [a | [] elems IH | [] members IH] using tree_ind'; intros Hk h.
  - exists (TAtom a), h. cbn. split; [done |]. split; [done |]. split; [done |].
    split; [by intros l o ?%elem_of_nil |]. split; [constructor |].
    by intros l ?%elem_of_nil.
  - apply keys_unique_arr in Hk.
    destruct (alloc_all_spec alloc_tree (fun x y => erase y = x) locs holds) with
      (xs := elems) (h := h) as (ts & h1 & Ets & HR & Hsub & HH & Hnd & Hfresh).
    { intros ????. by apply holds_weaken. }
    { rewrite Forall_forall in IH, Hk |- *. intros e He. by apply IH, Hk. }
    pose proof (is_fresh (dom h1)) as Hl. set (l := fresh (dom h1)) in *.
    assert (h1 !! l = None) as Hnone by by apply not_elem_of_dom.
    exists (TArr l ts), (<[l := OList (root <$> ts)]> h1).
    cbn [alloc_tree]. rewrite Ets. fold l.
    split; [done |]. split.
    { cbn. f_equal. clear -HR.
      induction HR as [| ???? <- _ IH]; [done |]. cbn. by rewrite IH. }
    split; [etrans; [done | by apply insert_subseteq] |]. split.
    { intros l' o [[= -> ->] | (e & He & Hn)]%elem_of_nodes_arr.
      - apply lookup_insert_eq.
      - rewrite Forall_forall in HH.
        eapply lookup_weaken; [by apply (HH e He) | by apply insert_subseteq]. }
    rewrite locs_arr. split.
    { apply NoDup_cons. split; [| done]. intros Hin. by apply Hfresh in Hin as [_ ?]. }
    intros l' [-> | Hin]%elem_of_cons.
    + split; [| set_solver]. intros ?. by apply Hl, (subseteq_dom _ _ Hsub).
    + apply Hfresh in Hin as [? ?]. split; [done | set_solver].
  - apply keys_unique_obj in Hk as [Hnodup Hk].
    destruct (alloc_all_spec
                (fun (m : string * json) h =>
                   let '(t, h1) := alloc_tree m.2 h in ((m.1, t), h1))
                (fun x y => y.1 = x.1 /\ erase y.2 = x.2)
                (fun y : string * tree loc => locs y.2)
                (fun h (y : string * tree loc) => holds h y.2)) with
      (xs := members) (h := h) as (ms & h1 & Ems & HR & Hsub & HH & Hnd & Hfresh).
    { intros ????. by apply holds_weaken. }
    { rewrite Forall_forall in IH, Hk |- *. intros m Hm h0.
      destruct (IH m Hm (Hk m Hm) h0) as (t & h' & -> & ? & ? & ? & ? & ?).
      by exists (m.1, t), h'. }
    assert (ms.*1 = members.*1) as Ekeys.
    { clear -HR. induction HR as [| ???? [E _] _ IH]; [done |]. cbn. by rewrite E, IH. }
    assert (prod_map id erase <$> ms = members) as Eerase.
    { clear -HR. induction HR as [| [] [] ?? [? ?] _ IH]; [done |].
      cbn in *. by subst. }
    pose proof (is_fresh (dom h1)) as Hl. set (l := fresh (dom h1)) in *.
    assert (h1 !! l = None) as Hnone by by apply not_elem_of_dom.
    exists (TObj l ms), (<[l := ODict (prod_map id root <$> ms)]> h1).
    cbn [alloc_tree]. rewrite Ems. fold l.
    rewrite dict_of_pairs_NoDup by by rewrite Ekeys.
    split; [done |]. split; [cbn; by rewrite Eerase |].
    split; [etrans; [done | by apply insert_subseteq] |]. split.
    { intros l' o [[= -> ->] | (m & Hm & Hn)]%elem_of_nodes_obj.
      - apply lookup_insert_eq.
      - rewrite Forall_forall in HH.
        eapply lookup_weaken; [by apply (HH m Hm) | by apply insert_subseteq]. }
    rewrite locs_obj. split.
    { apply NoDup_cons. split; [| done]. intros Hin. by apply Hfresh in Hin as [_ ?]. }
    intros l' [-> | Hin]%elem_of_cons.
    + split; [| set_solver]. intros ?. by apply Hl, (subseteq_dom _ _ Hsub).
    + apply Hfresh in Hin as [? ?]. split; [done | set_solver].
Qed.

(** *** Assigning the coordinates of one object of [objs] *)

Lemma nodes_set_atom (members : list (string * tree loc)) (k : string) (a : atom)
    (n : loc * pyobj) :
  n ∈ concat ((fun m => nodes m.2) <$> dict_set members k (TAtom a)) ->
  n ∈ concat ((fun m => nodes m.2) <$> members).
Proof.
  rewrite !elem_of_concat.
  intros (ns & Hn & (m & -> & [Hm | ->]%elem_of_dict_set)%list_elem_of_fmap).
  - exists (nodes m.2). split; [done |]. apply list_elem_of_fmap. eauto.
  - by apply elem_of_nil in Hn.
Qed.

Section assign.
Context (lr lo l_o : loc) (m1 m2 loms : list (string * tree loc))
        (lpre lpost : list (tree loc)) (ax ay : atom).

Let scene (light : list (string * tree loc)) : tree loc :=
  TObj lr (m1 ++ ("objs", TArr lo (lpre ++ TObj l_o light :: lpost)) :: m2).
Let light' : list (string * tree loc) :=
  dict_set (dict_set loms "x" (TAtom ax)) "y" (TAtom ay).

Lemma nodes_scene (light : list (string * tree loc)) :
  nodes (scene light) =
    ((lr, ODict (prod_map id root <$>
                   (m1 ++ ("objs", TArr lo (lpre ++ TObj l_o loms :: lpost)) :: m2)))
       :: concat ((fun m => nodes m.2) <$> m1)
       ++ (lo, OList (root <$> (lpre ++ TObj l_o loms :: lpost)))
       :: concat (nodes <$> lpre))
    ++ (l_o, ODict (prod_map id root <$> light))
    :: concat ((fun m => nodes m.2) <$> light)
    ++ (concat (nodes <$> lpost) ++ concat ((fun m => nodes m.2) <$> m2)).
Proof.
  unfold scene. cbn [nodes].
  repeat (rewrite ?fmap_app, ?fmap_cons, ?concat_app, ?concat_cons;
          cbn [nodes snd fst prod_map root]).
  repeat (rewrite <- ?app_assoc; cbn [app]). done.
Qed.

Lemma assign_holds (h : heap) :
  holds h (scene loms) -> NoDup (locs (scene loms)) ->
  holds (<[l_o := ODict (prod_map id root <$> light')]> h) (scene light') /\
  forall l, l ∈ locs (scene light') -> l ∈ locs (scene loms).
Proof.
  unfold holds, locs. rewrite !nodes_scene.
  set (P := (_ :: _ ++ _ :: _)). set (S := (concat (nodes <$> lpost) ++ _)).
  intros Hh Hnd. rewrite !fmap_app, fmap_cons, fmap_app in Hnd. cbn [fst] in Hnd.
  apply NoDup_app in Hnd as (_ & Hdis & Hnd').
  apply NoDup_cons in Hnd' as [Hnot _]. rewrite not_elem_of_app in Hnot.
  destruct Hnot as [HnC HnS].
  assert (forall n, n ∈ concat ((fun m => nodes m.2) <$> light') ->
                    n ∈ concat ((fun m => nodes m.2) <$> loms)) as Hsub.
  { intros n Hn. by do 2 apply nodes_set_atom in Hn. }
  split.
  - intros l o Hn. rewrite elem_of_app, elem_of_cons, elem_of_app in Hn.
    destruct Hn as [Hn | [[= -> ->] | [Hn | Hn]]].
    + rewrite lookup_insert_ne.
      * apply Hh. rewrite elem_of_app. by left.
      * intros <-. apply (Hdis l_o); [by apply (list_elem_of_fmap_2 fst _ (l_o, o)) |]. left.
    + apply lookup_insert_eq.
    + apply Hsub in Hn. rewrite lookup_insert_ne.
      * apply Hh. rewrite elem_of_app, elem_of_cons, elem_of_app. auto.
      * intros <-. by apply HnC, (list_elem_of_fmap_2 fst _ (l_o, o)).
    + rewrite lookup_insert_ne.
      * apply Hh. rewrite elem_of_app, elem_of_cons, elem_of_app. auto.
      * intros <-. by apply HnS, (list_elem_of_fmap_2 fst _ (l_o, o)).
  - intros l ([l' o] & -> & Hn)%list_elem_of_fmap.
    rewrite elem_of_app, elem_of_cons, elem_of_app in Hn.
    destruct Hn as [Hn | [[= -> ->] | [Hn | Hn]]].
    + apply (list_elem_of_fmap_2 fst _ (l', o)). rewrite elem_of_app. by left.
    + apply (list_elem_of_fmap_2 fst _ (l_o, ODict (prod_map id root <$> loms))).
      rewrite elem_of_app, elem_of_cons. auto.
    + apply Hsub in Hn. apply (list_elem_of_fmap_2 fst _ (l', o)).
      rewrite elem_of_app, elem_of_cons, elem_of_app. auto.
    + apply (list_elem_of_fmap_2 fst _ (l', o)).
      rewrite elem_of_app, elem_of_cons, elem_of_app. auto.
Qed.
End assign.

(** *** Finding the light source *)

Lemma is_point_source_obj_erase {A} (t : tree A) :
  is_point_source_obj (erase t) = is_point_source_obj t.
Proof.
  destruct t as [a | x elems | x members]; [done.. |]. cbn.
  rewrite dict_get_fmap. by destruct (dict_get members "type") as [[[] | |] |].
Qed.

Lemma is_PointSource_root (l : loc) (members : list (string * tree loc)) :
  is_PointSource (default (VAtom Null) (root <$> dict_get members "type")) =
  is_point_source_obj (TObj l members).
Proof. cbn. by destruct (dict_get members "type") as [[[] | |] |]. Qed.

Lemma py_get_holds (h : heap) (l : loc) (members : list (string * tree loc)) (k : string) :
  holds h (TObj l members) ->
  py_get h (VRef l) k = Ok (default (VAtom Null) (root <$> dict_get members k)).
Proof. intros Ht. cbn. by rewrite (holds_obj _ _ _ Ht), dict_get_fmap. Qed.

Lemma first_point_source_atoms (h : heap) (vs : list pyval) (ls : pyval) :
  Forall (fun v => exists a, v = VAtom a) vs -> first_point_source h vs <> Ok (Some ls).
Proof. by intros [| ? ? [a ->] _]. Qed.

Lemma first_point_source_inv (h : heap) (es : list (tree loc)) (ls : pyval) :
  Forall (holds h) es ->
  first_point_source h (root <$> es) = Ok (Some ls) ->
  exists lpre l_o loms lpost,
    es = lpre ++ TObj l_o loms :: lpost /\ ls = VRef l_o /\
    is_point_source_obj (TObj l_o loms) = true /\
    Forall (fun p => (exists pl pms, p = TObj pl pms) /\ is_point_source_obj p = false) lpre.
Proof.
  induction 1 as [| e es He _ IH]; [done |]. cbn [fmap list_fmap first_point_source].
  destruct e as [a | l elems | l members].
  - done.
  - cbn. by rewrite (holds_arr _ _ _ He).
  - cbn [root]. rewrite (py_get_holds _ _ _ _ He). cbn [mbind result_bind].
    rewrite (is_PointSource_root l).
    destruct (is_point_source_obj (TObj l members)) eqn:Hps.
    + intros [= <-]. exists [], l, members, es. by repeat split.
    + intros (lpre & l_o & loms & lpost & -> & -> & Hps' & Hpre)%IH.
      exists (TObj l members :: lpre), l_o, loms, lpost.
      split; [done |]. split; [done |]. split; [done |].
      constructor; [| done]. eauto.
Qed.

Lemma first_point_source_found (h : heap) (lpre lpost : list (tree loc)) (l_o : loc)
    (loms : list (string * tree loc)) :
  Forall (holds h) lpre -> holds h (TObj l_o loms) ->
  is_point_source_obj (TObj l_o loms) = true ->
  Forall (fun p => (exists pl pms, p = TObj pl pms) /\ is_point_source_obj p = false) lpre ->
  first_point_source h (root <$> (lpre ++ TObj l_o loms :: lpost)) = Ok (Some (VRef l_o)).
Proof.
  intros Hh Ho Hps Hpre. induction Hpre as [| p lpre [(pl & pms & ->) Hp] _ IH].
  - cbn [app fmap list_fmap first_point_source root].
    rewrite (py_get_holds _ _ _ _ Ho). cbn [mbind result_bind].
    by rewrite (is_PointSource_root l_o), Hps.
  - apply Forall_cons in Hh as [Hp' Hh].
    cbn [app fmap list_fmap first_point_source root].
    rewrite (py_get_holds _ _ _ _ Hp'). cbn [mbind result_bind].
    rewrite (is_PointSource_root pl), Hp. by apply IH.
Qed.

Lemma holds_elems (h : heap) (l : loc) (elems : list (tree loc)) :
  holds h (TArr l elems) -> Forall (holds h) elems.
Proof. intros Ht. apply Forall_forall. intros e He. by eapply holds_elem. Qed.

(** A template in which the lookup loop finds a light source has the
    shape [light_source_at]. *)
Lemma find_light_source_inv (h : heap) (t : tree loc) (ls : pyval) :
  holds h t -> find_light_source h (root t) = Ok (Some ls) ->
  exists members before light after,
    light_source_at (erase t) members before light after.
Proof.
  intros Ht. destruct t as [a | l elems | l members]; [done | |].
  { cbn. by rewrite (holds_arr _ _ _ Ht). }
  cbn [root find_light_source]. rewrite (holds_obj _ _ _ Ht), dict_get_fmap.
  destruct (dict_get members "objs") as [objs |] eqn:Hobjs; [| done].
  cbn [fmap option_fmap option_map].
  destruct objs as [a | lo es | lo oms].
  - destruct a; try done. cbn. intros Hf. exfalso. revert Hf.
    unfold chars. apply first_point_source_atoms, Forall_fmap, Forall_true.
    intros c. hnf. by eexists.
  - pose proof (holds_member _ _ _ _ Ht (dict_get_elem _ _ _ Hobjs)) as Hlo.
    cbn [snd] in Hlo. cbn [root py_iter]. rewrite (holds_arr _ _ _ Hlo).
    cbn [mbind result_bind].
    intros (lpre & l_o & loms & lpost & -> & -> & Hps & Hpre)%first_point_source_inv;
      [| by eapply holds_elems].
    exists (prod_map id erase <$> members), (erase <$> lpre),
           (prod_map id erase <$> loms), (erase <$> lpost).
    split; [split; [done |] |].
    { rewrite dict_get_fmap, Hobjs. cbn. by rewrite fmap_app. }
    split; [by rewrite <- Hps, <- (is_point_source_obj_erase (TObj l_o loms)) |].
    apply Forall_fmap. eapply Forall_impl; [exact Hpre |].
    intros p [(pl & pms & ->) Hp]. cbn [compose]. split; [by eexists |].
    by rewrite is_point_source_obj_erase.
  - pose proof (holds_member _ _ _ _ Ht (dict_get_elem _ _ _ Hobjs)) as Hlo.
    cbn [snd] in Hlo. cbn [root py_iter]. rewrite (holds_obj _ _ _ Hlo).
    cbn [mbind result_bind]. intros Hf. exfalso. revert Hf.
    apply first_point_source_atoms, Forall_fmap, Forall_true.
    intros kv. hnf. by eexists.
Qed.

Lemma object_located (t : tree loc) (members : list (string * json))
    (before : list json) (light : list (string * json)) (after : list json) :
  object_at (erase t) members before light after ->
  exists lr m1 m2 lo lpre l_o loms lpost,
    t = TObj lr (m1 ++ ("objs", TArr lo (lpre ++ TObj l_o loms :: lpost)) :: m2) /\
    ("objs" ∉ m1.*1) /\
    erase <$> lpre = before /\ prod_map id erase <$> loms = light /\
    erase <$> lpost = after.
Proof.
  intros [Ht Hobjs]. destruct t as [a | l elems | lr lms]; [done.. |].
  cbn in Ht. injection Ht as <-. rewrite dict_get_fmap in Hobjs.
  destruct (dict_get lms "objs") as [objs |] eqn:Hget; [| done].
  cbn in Hobjs. injection Hobjs as Hobjs.
  destruct objs as [a | lo es | lo oms]; [done | | done].
  cbn in Hobjs. injection Hobjs as Hes.
  apply fmap_app_inv in Hes as (lpre & es' & -> & Hes' & ->).
  symmetry in Hes'. apply fmap_cons_inv in Hes' as (o & lpost & Ho & -> & ->).
  destruct o as [a | lo' es'' | l_o loms]; [done.. |].
  cbn in Ho. injection Ho as ->.
  apply dict_get_split in Hget as (m1 & m2 & -> & Hk).
  by exists lr, m1, m2, lo, lpre, l_o, loms, lpost.
Qed.

Lemma patch_first_point_source_at (before : list json) (light : list (string * json))
    (after : list json) (new_x new_y : pynum) :
  is_point_source_obj (JObj light) = true ->
  Forall (fun p => (exists pms, p = JObj pms) /\ is_point_source_obj p = false) before ->
  patch_first_point_source (before ++ JObj light :: after) new_x new_y =
    before ++ JObj (dict_set (dict_set light "x" (JNum new_x)) "y" (JNum new_y)) :: after.
Proof.
  intros Hps. induction 1 as [| p before [_ Hp] _ IH].
  - cbn [app patch_first_point_source]. by rewrite Hps.
  - cbn [app patch_first_point_source]. by rewrite Hp, IH.
Qed.

(** [patch_scene] changes the two coordinates of the first PointSource
    and nothing else. *)
Lemma patch_scene_at (scene : json) (members : list (string * json))
    (before : list json) (light : list (string * json)) (after : list json)
    (new_x new_y : pynum) :
  light_source_at scene members before light after ->
  patch_scene scene new_x new_y = with_coordinates members before light after new_x new_y.
Proof.
  intros ([-> Hobjs] & Hps & Hpre). unfold patch_scene, with_coordinates.
  by rewrite Hobjs, patch_first_point_source_at.
Qed.

Lemma patch_scene_batch_at (scene : json) (members : list (string * json))
    (light : list (string * json)) (after : list json) (new_x new_y : pynum) :
  object_at scene members [] light after ->
  patch_scene_batch scene new_x new_y = with_coordinates members [] light after new_x new_y.
Proof. intros [-> Hobjs]. unfold patch_scene_batch, with_coordinates. by rewrite Hobjs. Qed.

Lemma keys_unique_erase {A} (t : tree A) : keys_unique t -> keys_unique (erase t).
Proof.
  induction t as [a | x elems IH | x members IH] using tree_ind'; [done | |].
  - rewrite keys_unique_arr. cbn [erase]. rewrite keys_unique_arr, Forall_fmap.
    intros Hk. rewrite Forall_forall in IH, Hk. apply Forall_forall.
    intros e He. by apply IH, Hk.
  - rewrite keys_unique_obj. cbn [erase]. rewrite keys_unique_obj, Forall_fmap.
    intros [Hnd Hk]. split.
    + rewrite <- list_fmap_compose. erewrite list_fmap_ext; [exact Hnd |]. by intros ? [].
    + rewrite Forall_forall in IH, Hk. apply Forall_forall.
      intros m Hm. by apply IH, Hk.
Qed.

(** *** The copy and the patch, in the heap *)

Lemma copy_template_spec (w : world) (t : tree loc) :
  holds (w_heap w) t -> keys_unique t -> (tree_depth t <= recursion_limit)%nat ->
  exists t2 h1,
    copy_template (root t) w = (Ok (root t2), {| w_heap := h1; w_files := w_files w |}) /\
    erase t2 = erase t /\ w_heap w ⊆ h1 /\ holds h1 t2 /\ NoDup (locs t2) /\
    forall l, l ∈ locs t2 -> (l ∉ dom (w_heap w)) /\ (l ∈ dom h1).
Proof.
  intros Ht Hk Hd.
  destruct (alloc_tree_spec (erase t) (keys_unique_erase t Hk) (w_heap w))
    as (t2 & h1 & Ealloc & Eerase & Hsub & Hholds & Hnd & Hfresh).
  exists t2, h1. split; [| done].
  unfold copy_template, mbind, M_bind, get_heap, lift, json_dumps.
  rewrite (dump_holds t _ _ Ht Hd). unfold json_loads. by rewrite Ealloc.
Qed.

Lemma scene_lookups (h : heap) (lr lo l_o : loc) (m1 m2 loms : list (string * tree loc))
    (lpre lpost : list (tree loc)) :
  let t := TObj lr (m1 ++ ("objs", TArr lo (lpre ++ TObj l_o loms :: lpost)) :: m2) in
  holds h t -> NoDup (locs t) -> "objs" ∉ m1.*1 ->
  (exists items, h !! lr = Some (ODict items) /\ dict_get items "objs" = Some (VRef lo)) /\
  h !! lo = Some (OList (root <$> (lpre ++ TObj l_o loms :: lpost))) /\
  h !! l_o = Some (ODict (prod_map id root <$> loms)) /\
  lr <> l_o /\ lo <> l_o /\ l_o ∈ locs t /\
  Forall (holds h) lpre /\ holds h (TObj l_o loms).
Proof.
  intros t Ht Hnd Hk.
  assert (holds h (TArr lo (lpre ++ TObj l_o loms :: lpost))) as Hlo.
  { apply (holds_member _ _ _ ("objs", _) Ht). rewrite elem_of_app, elem_of_cons. auto. }
  assert (holds h (TObj l_o loms)) as Ho.
  { apply (holds_elem _ _ _ _ Hlo). rewrite elem_of_app, elem_of_cons. auto. }
  split.
  { eexists. split; [by apply holds_obj |].
    rewrite (dict_get_fmap root). by rewrite dict_get_app. }
  split; [by apply holds_arr |]. split; [by apply holds_obj |].
  unfold locs in *. subst t.
  rewrite (nodes_scene lr lo l_o m1 m2 loms lpre lpost loms) in Hnd |- *.
  rewrite fmap_app, fmap_cons in Hnd |- *. cbn [fst] in *.
  apply NoDup_app in Hnd as (_ & Hdis & _).
  assert (forall l, l ∈ lr :: (concat ((fun m : string * tree loc => nodes m.2) <$> m1)
                     ++ (lo, OList (root <$> lpre ++ TObj l_o loms :: lpost))
                     :: concat (nodes <$> lpre)).*1 -> l <> l_o) as Hne.
  { intros l Hl ->. apply (Hdis l_o Hl). left. }
  split; [apply Hne; left |]. split.
  { apply Hne. right. rewrite fmap_app, fmap_cons, elem_of_app, elem_of_cons. auto. }
  split; [rewrite elem_of_app, elem_of_cons; right; by left |].
  split; [| done].
  apply Forall_forall. intros e He. apply (holds_elem _ _ _ _ Hlo).
  rewrite elem_of_app. auto.
Qed.

Lemma erase_scene (lr lo l_o : loc) (m1 m2 loms : list (string * tree loc))
    (lpre lpost : list (tree loc)) (new_x new_y : pynum) :
  "objs" ∉ m1.*1 ->
  erase (TObj lr (m1 ++ ("objs", TArr lo (lpre ++ TObj l_o
           (dict_set (dict_set loms "x" (TAtom (Num new_x))) "y" (TAtom (Num new_y)))
           :: lpost)) :: m2)) =
  with_coordinates
    (prod_map id erase <$> (m1 ++ ("objs", TArr lo (lpre ++ TObj l_o loms :: lpost)) :: m2))
    (erase <$> lpre) (prod_map id erase <$> loms) (erase <$> lpost) new_x new_y.
Proof.
  intros Hk. unfold with_coordinates. cbn [erase].
  rewrite !fmap_app, !fmap_cons. cbn [prod_map fst snd id erase].
  rewrite dict_set_app.
  - rewrite !fmap_app, !fmap_cons. cbn [erase]. by rewrite !(dict_set_fmap erase).
  - rewrite <- list_fmap_compose. erewrite list_fmap_ext; [exact Hk |]. by intros ? [].
Qed.

Lemma set_light_source_spec (h : heap) (files : gmap string file_content) (t : tree loc)
    (members : list (string * json)) (before : list json) (light : list (string * json))
    (after : list json) (new_x new_y : pynum) :
  holds h t -> NoDup (locs t) ->
  light_source_at (erase t) members before light after ->
  exists t' l_o o,
    set_light_source (root t) new_x new_y (World h files) =
      (Ok (), World (<[l_o := o]> h) files) /\
    l_o ∈ locs t /\ root t' = root t /\ holds (<[l_o := o]> h) t' /\
    erase t' = with_coordinates members before light after new_x new_y /\
    forall l, l ∈ locs t' -> l ∈ locs t.
Proof.
  intros Ht Hnd (Hobj & Hps & Hpre).
  destruct (object_located _ _ _ _ _ Hobj)
    as (lr & m1 & m2 & lo & lpre & l_o & loms & lpost & -> & Hk & <- & <- & <-).
  destruct Hobj as [Hmem _]. cbn in Hmem. injection Hmem as <-.
  destruct (scene_lookups _ _ _ _ _ _ _ _ _ Ht Hnd Hk)
    as ((items & Hr & Hobjs) & Hlo & Hlight & Hne1 & Hne2 & Hin & Hhpre & Hho).
  destruct (assign_holds lr lo l_o m1 m2 loms lpre lpost (Num new_x) (Num new_y) h Ht Hnd)
    as [Hholds Hlocs].
  exists (TObj lr (m1 ++ ("objs", TArr lo (lpre ++ TObj l_o
            (dict_set (dict_set loms "x" (TAtom (Num new_x))) "y" (TAtom (Num new_y)))
            :: lpost)) :: m2)),
         l_o,
         (ODict (prod_map id root <$>
            dict_set (dict_set loms "x" (TAtom (Num new_x))) "y" (TAtom (Num new_y)))).
  split; [| split; [exact Hin |]; split; [done |];
    split; [exact Hholds |]; split; [by apply erase_scene | exact Hlocs]].
  unfold set_light_source, mbind, M_bind, get_heap, lift, put_heap. cbn [root w_heap w_files].
  unfold find_light_source. rewrite Hr, Hobjs. cbn [mbind result_bind py_iter].
  rewrite Hlo. cbn [mbind result_bind].
  rewrite first_point_source_found; [| done | done | |].
  - unfold py_setitem. rewrite Hlight, lookup_insert_eq, insert_insert_eq.
    by rewrite !(dict_set_fmap root).
  - by rewrite <- (is_point_source_obj_erase (TObj l_o loms)).
  - apply Forall_fmap in Hpre. eapply Forall_impl; [exact Hpre |].
    intros p [[pms Hp] Hps']. cbn [compose] in *.
    rewrite is_point_source_obj_erase in Hps'. split; [| done].
    destruct p; try done. by eexists _, _.
Qed.

Lemma set_first_object_spec (h : heap) (files : gmap string file_content) (t : tree loc)
    (members : list (string * json)) (light : list (string * json))
    (after : list json) (new_x new_y : pynum) :
  holds h t -> NoDup (locs t) ->
  object_at (erase t) members [] light after ->
  exists t' l_o o,
    set_first_object (root t) new_x new_y (World h files) =
      (Ok (), World (<[l_o := o]> h) files) /\
    l_o ∈ locs t /\ root t' = root t /\ holds (<[l_o := o]> h) t' /\
    erase t' = with_coordinates members [] light after new_x new_y /\
    forall l, l ∈ locs t' -> l ∈ locs t.
Proof.
  intros Ht Hnd Hobj.
  destruct (object_located _ _ _ _ _ Hobj)
    as (lr & m1 & m2 & lo & lpre & l_o & loms & lpost & -> & Hk & Hnil & <- & <-).
  apply fmap_nil_inv in Hnil as ->.
  destruct Hobj as [Hmem _]. cbn in Hmem. injection Hmem as <-.
  destruct (scene_lookups _ _ _ _ _ _ _ _ _ Ht Hnd Hk)
    as ((items & Hr & Hobjs) & Hlo & Hlight & Hne1 & Hne2 & Hin & Hhpre & Hho).
  destruct (assign_holds lr lo l_o m1 m2 loms [] lpost (Num new_x) (Num new_y) h Ht Hnd)
    as [Hholds Hlocs].
  exists (TObj lr (m1 ++ ("objs", TArr lo ([] ++ TObj l_o
            (dict_set (dict_set loms "x" (TAtom (Num new_x))) "y" (TAtom (Num new_y)))
            :: lpost)) :: m2)),
         l_o,
         (ODict (prod_map id root <$>
            dict_set (dict_set loms "x" (TAtom (Num new_x))) "y" (TAtom (Num new_y)))).
  split; [| split; [exact Hin |]; split; [done |];
    split; [exact Hholds |]; split; [by apply (erase_scene lr lo l_o m1 m2 loms []) | exact Hlocs]].
  unfold set_first_object, mbind, M_bind, get_heap, lift, put_heap. cbn [root w_heap w_files].
  unfold py_getitem_key at 1. rewrite Hr, Hobjs. cbn [mbind result_bind].
  unfold py_first at 1. rewrite Hlo. cbn [app fmap list_fmap root].
  unfold py_setitem at 1. rewrite Hlight.
  unfold py_getitem_key. rewrite lookup_insert_ne, Hr, Hobjs by done.
  cbn [mbind result_bind]. unfold py_first. rewrite lookup_insert_ne, Hlo by done.
  cbn [app fmap list_fmap root].
  unfold py_setitem. rewrite lookup_insert_eq, insert_insert_eq.
  by rewrite !(dict_set_fmap root).
Qed.

Lemma first_object_inv (h : heap) (t : tree loc) (ls ty : pyval) :
  holds h t ->
  py_getitem_key h (root t) "objs" ≫= py_first h = Ok ls ->
  py_getitem_key h ls "y" = Ok ty ->
  exists members light after, object_at (erase t) members [] light after.
Proof.
  intros Ht. destruct t as [a | l elems | l members]; [done | |].
  { cbn. by rewrite (holds_arr _ _ _ Ht). }
  cbn [root py_getitem_key]. rewrite (holds_obj _ _ _ Ht), dict_get_fmap.
  destruct (dict_get members "objs") as [objs |] eqn:Hobjs; [| done].
  cbn [fmap option_fmap option_map mbind result_bind].
  pose proof (holds_member _ _ _ _ Ht (dict_get_elem _ _ _ Hobjs)) as Hlo. cbn [snd] in Hlo.
  destruct objs as [a | lo es | lo oms].
  - destruct a as [| | | s]; try done. cbn [root py_first]. unfold chars.
    destruct (String.list_ascii_of_string s); [done |]. by intros [= <-].
  - cbn [root py_first]. rewrite (holds_arr _ _ _ Hlo).
    destruct es as [| e es]; [done |]. cbn [fmap list_fmap]. intros [= <-].
    pose proof (holds_elem _ _ _ e Hlo ltac:(left)) as He.
    destruct e as [a | le ees | l_o loms]; [done | |].
    { cbn. by rewrite (holds_arr _ _ _ He). }
    intros _. exists (prod_map id erase <$> members), (prod_map id erase <$> loms),
                     (erase <$> es).
    split; [done |]. by rewrite dict_get_fmap, Hobjs.
  - cbn [root py_first]. by rewrite (holds_obj _ _ _ Hlo).
Qed.

Lemma independent_of_fresh (w w' : world) (t : tree loc) :
  holds (w_heap w') t ->
  (forall l, l ∈ locs t -> l ∉ dom (w_heap w)) ->
  (forall l o, w_heap w !! l = Some o -> w_heap w' !! l = Some o) ->
  independent_of w w' (root t).
Proof.
  intros Ht Hfresh Hkeep other Hother. split.
  - intros l o Hn. by apply Hkeep, Hother.
  - intros l (o & Hn)%elem_of_locs Hr.
    apply (reachable_locs t _ _ Ht), Hfresh in Hr.
    apply Hr, elem_of_dom. exists o. by apply Hother.
Qed.

Lemma patched_copy_independent (w : world) (h1 : heap) (t2 t3 : tree loc) (l_o : loc)
    (o : pyobj) :
  w_heap w ⊆ h1 ->
  (forall l, l ∈ locs t2 -> (l ∉ dom (w_heap w)) /\ (l ∈ dom h1)) ->
  l_o ∈ locs t2 -> holds (<[l_o := o]> h1) t3 ->
  (forall l, l ∈ locs t3 -> l ∈ locs t2) ->
  independent_of w (World (<[l_o := o]> h1) (w_files w)) (root t3).
Proof.
  intros Hsub Hfresh Hin Hholds Hlocs. apply independent_of_fresh; cbn [w_heap].
  - done.
  - intros l Hl. by apply Hfresh, Hlocs.
  - intros l ob Hl. rewrite lookup_insert_ne.
    + by eapply lookup_weaken.
    + intros <-. apply (Hfresh l_o Hin), elem_of_dom. eauto.
Qed.

Lemma build_scene_spec (w : world) (template : tree loc) (y_offset : pynum)
    (coord : coordinate) (new_x new_y : pynum) (ls : pyval) :
  holds (w_heap w) template -> keys_unique template ->
  (tree_depth template <= recursion_limit)%nat ->
  mapped_point y_offset coord = Ok (new_x, new_y) ->
  find_light_source (w_heap w) (root template) = Ok (Some ls) ->
  exists members before light after scene w',
    light_source_at (erase template) members before light after /\
    build_scene (root template) y_offset coord w = (Ok (root scene), w') /\
    holds (w_heap w') scene /\
    erase scene = with_coordinates members before light after new_x new_y /\
    independent_of w w' (root scene) /\ w_files w' = w_files w.
Proof.
  intros Ht Hk Hd Hmp Hfind.
  destruct (find_light_source_inv _ _ _ Ht Hfind) as (members & before & light & after & Hls).
  destruct (copy_template_spec w template Ht Hk Hd)
    as (t2 & h1 & Ecopy & Eerase & Hsub & Hholds & Hnd & Hfresh).
  rewrite <- Eerase in Hls.
  destruct (set_light_source_spec h1 (w_files w) t2 _ _ _ _ new_x new_y Hholds Hnd Hls)
    as (t3 & l_o & o & Eset & Hin & Hroot & Hholds3 & Eerase3 & Hlocs).
  exists members, before, light, after, t3, (World (<[l_o := o]> h1) (w_files w)).
  rewrite Eerase in Hls.
  split; [done |]. split.
  { unfold build_scene. unfold mbind at 1, M_bind at 1. rewrite Ecopy.
    unfold mbind at 1, M_bind at 1, lift. rewrite Hmp.
    unfold mbind at 1, M_bind at 1. rewrite Eset. by rewrite Hroot. }
  split; [done |]. split; [done |]. split; [| done].
  by apply (patched_copy_independent w h1 t2).
Qed.

Lemma build_scene_batch_spec (w : world) (template : tree loc) (y_offset : pynum)
    (coord : coordinate) (new_x new_y : pynum) (ls ty : pyval) :
  holds (w_heap w) template -> keys_unique template ->
  (tree_depth template <= recursion_limit)%nat ->
  mapped_point y_offset coord = Ok (new_x, new_y) ->
  py_getitem_key (w_heap w) (root template) "objs" ≫= py_first (w_heap w) = Ok ls ->
  py_getitem_key (w_heap w) ls "y" = Ok ty ->
  exists members light after scene w',
    object_at (erase template) members [] light after /\
    build_scene_batch (root template) y_offset coord w = (Ok (root scene), w') /\
    holds (w_heap w') scene /\
    erase scene = with_coordinates members [] light after new_x new_y /\
    independent_of w w' (root scene) /\ w_files w' = w_files w.
Proof.
  intros Ht Hk Hd Hmp Hfirst Hy.
  destruct (first_object_inv _ _ _ _ Ht Hfirst Hy) as (members & light & after & Hobj).
  destruct (copy_template_spec w template Ht Hk Hd)
    as (t2 & h1 & Ecopy & Eerase & Hsub & Hholds & Hnd & Hfresh).
  rewrite <- Eerase in Hobj.
  destruct (set_first_object_spec h1 (w_files w) t2 _ _ _ new_x new_y Hholds Hnd Hobj)
    as (t3 & l_o & o & Eset & Hin & Hroot & Hholds3 & Eerase3 & Hlocs).
  exists members, light, after, t3, (World (<[l_o := o]> h1) (w_files w)).
  rewrite Eerase in Hobj.
  split; [done |]. split.
  { unfold build_scene_batch. unfold mbind at 1, M_bind at 1. rewrite Ecopy.
    unfold mbind at 1, M_bind at 1, lift. rewrite Hmp.
    unfold mbind at 1, M_bind at 1. rewrite Eset. by rewrite Hroot. }
  split; [done |]. split; [done |]. split; [| done].
  by apply (patched_copy_independent w h1 t2).
Qed.

(** C4: every scene is a structurally independent deep copy of the
    template. Whatever the heap held before the scene was built (the
    template, the scenes built earlier) is still held unchanged and none of
    its addresses is reachable from the scene; the document of the scene is
    the document of the template with the x and y fields of the light
    source (the first PointSource for [process_video_to_scenes], the first
    object for [batch_generate_json_files]) replaced by the mapped point,
    every other field as it was. The template is a structure read by
    [json.load]: dicts with distinct keys, nested within the recursion
    limit, with the light source the caller has already looked up. *)
Theorem scene_is_independent_copy (w : world) (template : tree loc) (y_offset : pynum)
    (coord : coordinate) (new_x new_y : pynum) :
  holds (w_heap w) template -> keys_unique template ->
  (tree_depth template <= recursion_limit)%nat ->
  mapped_point y_offset coord = Ok (new_x, new_y) ->
  (forall ls,
     find_light_source (w_heap w) (root template) = Ok (Some ls) ->
     exists members before light after scene w',
       light_source_at (erase template) members before light after /\
       build_scene (root template) y_offset coord w = (Ok (root scene), w') /\
       holds (w_heap w') scene /\
       erase scene = with_coordinates members before light after new_x new_y /\
       independent_of w w' (root scene) /\ w_files w' = w_files w) /\
  (forall ls ty,
     py_getitem_key (w_heap w) (root template) "objs" ≫= py_first (w_heap w) = Ok ls ->
     py_getitem_key (w_heap w) ls "y" = Ok ty ->
     exists members light after scene w',
       object_at (erase template) members [] light after /\
       build_scene_batch (root template) y_offset coord w = (Ok (root scene), w') /\
       holds (w_heap w') scene /\
       erase scene = with_coordinates members [] light after new_x new_y /\
       independent_of w w' (root scene) /\ w_files w' = w_files w).
Proof.
  intros Ht Hk Hd Hmp. split.
  - intros ls. by apply build_scene_spec.
  - intros ls ty. by apply build_scene_batch_spec.
Qed.

(** ** The files of a scene *)

Lemma tree_depth_arr_le {A} (x : A) (elems : list (tree A)) (n : nat) :
  (tree_depth (TArr x elems) <= S n)%nat <-> Forall (fun e => (tree_depth e <= n)%nat) elems.
Proof.
  cbn. induction elems as [| e elems IH]; cbn.
  - split; [constructor | lia].
  - rewrite Forall_cons, <- IH. lia.
Qed.

Lemma tree_depth_obj_le {A} (x : A) (members : list (string * tree A)) (n : nat) :
  (tree_depth (TObj x members) <= S n)%nat <->
  Forall (fun m => (tree_depth m.2 <= n)%nat) members.
Proof.
  cbn. induction members as [| m members IH]; cbn.
  - split; [constructor | lia].
  - rewrite Forall_cons, <- IH. lia.
Qed.

Lemma tree_depth_erase {A} (t : tree A) : tree_depth (erase t) = tree_depth t.
Proof.
  induction t as [a | x elems IH | x members IH] using tree_ind'; [done | |]; cbn; f_equal.
  - induction IH as [| e elems He _ IH']; [done |]. cbn. by rewrite He, IH'.
  - induction IH as [| [k e] members Hm _ IH']; [done |]. cbn in *. by rewrite Hm, IH'.
Qed.

Lemma Forall_dict_set {V} (P : string * V -> Prop) (items : list (string * V))
    (k : string) (v : V) :
  Forall P items -> P (k, v) -> Forall P (dict_set items k v).
Proof.
  intros Hitems Hkv. apply Forall_forall.
  intros kv [Hin | ->]%elem_of_dict_set; [| done].
  by apply (proj1 (Forall_forall _ _) Hitems).
Qed.

(** Setting coordinates never deepens the document. *)
Lemma with_coordinates_depth (scene : json) (members : list (string * json))
    (before : list json) (light : list (string * json)) (after : list json)
    (new_x new_y : pynum) (n : nat) :
  object_at scene members before light after ->
  (tree_depth scene <= n)%nat ->
  (tree_depth (with_coordinates members before light after new_x new_y) <= n)%nat.
Proof.
  intros [-> Hobjs] Hd. unfold with_coordinates.
  destruct n as [| n]; [cbn in Hd; lia |].
  apply tree_depth_obj_le in Hd. apply tree_depth_obj_le.
  pose proof (proj1 (Forall_forall _ _) Hd _ (dict_get_elem _ _ _ Hobjs)) as Hd1.
  cbn [snd] in Hd1.
  apply Forall_dict_set; [done |]. cbn [snd].
  destruct n as [| n]; [cbn in Hd1; lia |].
  apply tree_depth_arr_le in Hd1. apply tree_depth_arr_le.
  rewrite Forall_app, Forall_cons in Hd1 |- *.
  destruct Hd1 as (Hb & Hl & Ha). split; [done |]. split; [| done].
  destruct n as [| n]; [cbn in Hl; lia |].
  apply tree_depth_obj_le in Hl. apply tree_depth_obj_le.
  do 2 (apply Forall_dict_set; [| cbn; lia]). done.
Qed.

Lemma json_path_not_html (a b : string) :
  path_join json_dir a <> path_join html_dir b.
Proof. unfold path_join, json_dir, html_dir. intros Heq. vm_compute in Heq. congruence. Qed.

Lemma json_path_not_image (a b : string) :
  path_join json_dir a <> path_join image_dir b.
Proof. unfold path_join, json_dir, image_dir. intros Heq. vm_compute in Heq. congruence. Qed.

Lemma bind_Ok {A B} (m : M A) (f : A -> M B) (w w1 : world) (a : A) :
  m w = (Ok a, w1) -> (m ≫= f) w = f a w1.
Proof. intros E. unfold mbind, M_bind. by rewrite E. Qed.

Lemma bind_Err {A B} (m : M A) (f : A -> M B) (w w1 : world) (e : pyexn) :
  m w = (Err e, w1) -> (m ≫= f) w = (Err e, w1).
Proof. intros E. unfold mbind, M_bind. by rewrite E. Qed.

Lemma create_html_from_json_files `{Renderer} (w : world) (scene : tree loc) (hpath : string) :
  holds (w_heap w) scene -> (tree_depth scene <= recursion_limit)%nat ->
  (exists l members, scene = TObj l members) ->
  exists r w',
    create_html_from_json (root scene) hpath w = (r, w') /\ w_heap w' = w_heap w /\
    forall p, p <> hpath -> w_files w' !! p = w_files w !! p.
Proof.
  intros Ht Hd (l & members & ->). unfold create_html_from_json.
  erewrite bind_Ok by reflexivity.
  unfold json_dumps. rewrite (dump_holds _ _ _ Ht Hd).
  erewrite bind_Ok by reflexivity.
  destruct (compress_scene_for_url (erase (TObj l members))) as [compressed | e].
  - erewrite bind_Ok by reflexivity. rewrite (py_get_holds _ _ _ _ Ht).
    erewrite bind_Ok by reflexivity.
    eexists _, _. split; [reflexivity |]. split; [done |].
    intros p Hp. cbn. by rewrite lookup_insert_ne.
  - erewrite bind_Err by reflexivity. by eexists _, _.
Qed.

Lemma render_image_files `{Renderer} (w : world) (generate_images : bool) (crop_top : Z)
    (hpath ipath : string) :
  exists r w',
    render_image generate_images crop_top hpath ipath w = (Ok r, w') /\
    w_heap w' = w_heap w /\
    forall p, p <> ipath -> w_files w' !! p = w_files w !! p.
Proof.
  unfold render_image. destruct generate_images; [| by eexists _, _].
  erewrite bind_Ok by reflexivity.
  destruct (bool_decide _); [by eexists _, _ |].
  destruct (screenshot_with_selenium _ _ _); [| by eexists _, _].
  erewrite bind_Ok by reflexivity.
  eexists _, _. split; [reflexivity |]. split; [done |].
  intros p Hp. cbn. by rewrite lookup_insert_ne.
Qed.

(** Whatever the renderers do, the JSON file of the scene is on disk
    once [save_scene] has run. *)
Lemma save_scene_json `{Renderer} (w : world) (scene : tree loc) (output_prefix : string)
    (generate_images : bool) (crop_top i : Z) :
  holds (w_heap w) scene -> (tree_depth scene <= recursion_limit)%nat ->
  (exists l members, scene = TObj l members) ->
  exists r w',
    save_scene (root scene) output_prefix generate_images crop_top i w = (r, w') /\
    w_files w' !! path_join json_dir (scene_filename output_prefix i +:+ ".json")
      = Some (JsonDoc (erase scene)).
Proof.
  intros Ht Hd Hobj. unfold save_scene.
  erewrite bind_Ok by reflexivity.
  unfold json_dumps. rewrite (dump_holds _ _ _ Ht Hd).
  erewrite bind_Ok by reflexivity. erewrite bind_Ok by reflexivity.
  set (w1 := {| w_heap := w_heap w; w_files := _ |}).
  destruct (create_html_from_json_files w1 scene
              (path_join html_dir (scene_filename output_prefix i +:+ ".html")) Ht Hd Hobj)
    as ([[] | e] & w2 & E2 & Hh2 & Hf2).
  2: { erewrite bind_Err by exact E2. eexists _, _. split; [reflexivity |].
       rewrite Hf2 by apply json_path_not_html. apply lookup_insert_eq. }
  erewrite bind_Ok by exact E2.
  destruct (render_image_files w2 generate_images crop_top
              (path_join html_dir (scene_filename output_prefix i +:+ ".html"))
              (path_join image_dir (scene_filename output_prefix i +:+ ".png")))
    as (img & w3 & E3 & Hh3 & Hf3).
  erewrite bind_Ok by exact E3.
  eexists _, _. split; [reflexivity |]. cbn.
  rewrite Hf3 by apply json_path_not_image.
  rewrite Hf2 by apply json_path_not_html. apply lookup_insert_eq.
Qed.

Lemma erase_obj_inv (t : tree loc) (ms : list (string * json)) :
  erase t = JObj ms -> exists l members, t = TObj l members.
Proof. destruct t as [a | l elems | l members]; cbn; [done | done | eauto]. Qed.

(** One turn of the loop leaves the patched template at the scene's JSON
    path, whatever becomes of the page and the image. *)
Lemma emit_scene_json `{Renderer} (w : world) (template : tree loc) (y_offset : pynum)
    (coord : coordinate) (new_x new_y : pynum) (ls : pyval) (output_prefix : string)
    (generate_images : bool) (crop_top i : Z) :
  holds (w_heap w) template -> keys_unique template ->
  (tree_depth template <= recursion_limit)%nat ->
  mapped_point y_offset coord = Ok (new_x, new_y) ->
  find_light_source (w_heap w) (root template) = Ok (Some ls) ->
  exists r w',
    emit_scene (root template) y_offset output_prefix generate_images crop_top (i, coord) w
      = (r, w') /\
    w_files w' !! path_join json_dir (scene_filename output_prefix i +:+ ".json")
      = Some (JsonDoc (patch_scene (erase template) new_x new_y)).
Proof.
  intros Ht Hk Hd Hmp Hfind.
  destruct (build_scene_spec w template y_offset coord new_x new_y ls Ht Hk Hd Hmp Hfind)
    as (members & before & light & after & scene & w1 & Hls & Ebuild & Hholds & Eerase & _).
  assert (tree_depth scene <= recursion_limit)%nat as Hd1.
  { rewrite <- tree_depth_erase, Eerase.
    apply (with_coordinates_depth (erase template)); [apply Hls |].
    by rewrite tree_depth_erase. }
  destruct (save_scene_json w1 scene output_prefix generate_images crop_top i Hholds Hd1)
    as (r & w2 & Esave & Hfile).
  { by apply (erase_obj_inv _ _ Eerase). }
  exists r, w2. split.
  - unfold emit_scene. cbn [fst snd]. by erewrite bind_Ok by exact Ebuild.
  - by rewrite (patch_scene_at _ _ _ _ _ _ _ Hls), <- Eerase.
Qed.

(** C5. The emitter is deterministic: what one turn of the loop leaves at
    the scene's JSON path is a function of the template document, the
    mapped point and the position [i] alone. Two runs on templates with the
    same document, in any two interpreter states and with any flags, write
    to the same path the template with the coordinates of its light source
    replaced by their mapped point: the same file for the same point, and
    for two points files that differ in those two fields only. *)
Theorem emit_scene_deterministic `{Renderer} (w1 w2 : world) (t1 t2 : tree loc)
    (y_offset1 y_offset2 : pynum) (coord1 coord2 : coordinate) (p1 p2 : pynum * pynum)
    (ls1 ls2 : pyval) (output_prefix : string) (images1 images2 : bool)
    (crop_top1 crop_top2 i : Z) :
  holds (w_heap w1) t1 -> keys_unique t1 -> (tree_depth t1 <= recursion_limit)%nat ->
  holds (w_heap w2) t2 -> keys_unique t2 -> (tree_depth t2 <= recursion_limit)%nat ->
  erase t1 = erase t2 ->
  find_light_source (w_heap w1) (root t1) = Ok (Some ls1) ->
  find_light_source (w_heap w2) (root t2) = Ok (Some ls2) ->
  mapped_point y_offset1 coord1 = Ok p1 ->
  mapped_point y_offset2 coord2 = Ok p2 ->
  let path := path_join json_dir (scene_filename output_prefix i +:+ ".json") in
  exists members before light after r1 w1' r2 w2',
    light_source_at (erase t1) members before light after /\
    emit_scene (root t1) y_offset1 output_prefix images1 crop_top1 (i, coord1) w1
      = (r1, w1') /\
    emit_scene (root t2) y_offset2 output_prefix images2 crop_top2 (i, coord2) w2
      = (r2, w2') /\
    w_files w1' !! path
      = Some (JsonDoc (with_coordinates members before light after p1.1 p1.2)) /\
    w_files w2' !! path
      = Some (JsonDoc (with_coordinates members before light after p2.1 p2.2)) /\
    (p1 = p2 -> w_files w1' !! path = w_files w2' !! path).
Proof.
  intros Ht1 Hk1 Hd1 Ht2 Hk2 Hd2 Edoc Hfind1 Hfind2 Hmp1 Hmp2 path. subst path.
  destruct p1 as [x1 y1], p2 as [x2 y2].
  destruct (find_light_source_inv _ _ _ Ht1 Hfind1)
    as (members & before & light & after & Hls).
  destruct (emit_scene_json w1 t1 y_offset1 coord1 x1 y1 ls1 output_prefix images1
              crop_top1 i Ht1 Hk1 Hd1 Hmp1 Hfind1) as (r1 & w1' & E1 & F1).
  destruct (emit_scene_json w2 t2 y_offset2 coord2 x2 y2 ls2 output_prefix images2
              crop_top2 i Ht2 Hk2 Hd2 Hmp2 Hfind2) as (r2 & w2' & E2 & F2).
  rewrite <- Edoc in F2.
  rewrite (patch_scene_at _ _ _ _ _ _ _ Hls) in F1.
  rewrite (patch_scene_at _ _ _ _ _ _ _ Hls) in F2.
  exists members, before, light, after, r1, w1', r2, w2'.
  repeat (split; [done |]). intros [= -> ->]. by rewrite F1, F2.
Qed.

(** ** The marker locator *)

Lemma SFltb_irrefl (x : spec_float) : SFltb x x = false.
Proof.
  unfold SFltb, SFcompare. destruct x as [[] | [] | | [] m e]; try done.
  all: by rewrite Z.compare_refl, (Pos.compare_cont_refl m Eq).
Qed.

Lemma SFltb_trans (x y z : spec_float) :
  SFltb x y = true -> SFltb y z = true -> SFltb x z = true.
Proof.
  unfold SFltb, SFcompare.
  destruct x as [sx | sx | | sx mx ex], y as [sy | sy | | sy my ey],
           z as [sz | sz | | sz mz ez]; try done.
  all: try (by destruct sx, sy, sz).
  destruct sx, sy, sz; try done.
  all: change (Pos.compare_cont Eq ?a ?b) with (Pos.compare a b).
  all: destruct (Z.compare_spec ex ey), (Z.compare_spec ey ez), (Z.compare_spec ex ez);
    try lia; try done; subst.
  all: destruct (Pos.compare_spec mx my), (Pos.compare_spec my mz),
         (Pos.compare_spec mx mz); try lia; done.
Qed.

(** The running maximum of [max(..., key=key)] is one of the elements
    seen so far, and none of them has a larger key. *)
Lemma py_max_fold {A} (key : A -> spec_float) (rest : list A) :
  forall (best : A) (seen : list A),
    best ∈ seen ->
    (forall c, c ∈ seen -> SFltb (key best) (key c) = false) ->
    let r := fold_left (fun best c => if SFltb (key best) (key c) then c else best)
               rest best in
    r ∈ seen ++ rest /\ forall c, c ∈ seen ++ rest -> SFltb (key r) (key c) = false.
Proof.
  induction rest as [| c rest IH]; intros best seen Hin Hmax; cbn [fold_left].
  { by rewrite app_nil_r. }
  replace (seen ++ c :: rest) with ((seen ++ [c]) ++ rest) by by rewrite <- app_assoc.
  destruct (SFltb (key best) (key c)) eqn:Hlt; apply IH.
  - apply elem_of_app. right. by left.
  - intros c' [Hc' | ->%list_elem_of_singleton]%elem_of_app; [| apply SFltb_irrefl].
    destruct (SFltb (key c) (key c')) eqn:Hlt'; [| done].
    by rewrite <- (Hmax c' Hc'), (SFltb_trans _ _ _ Hlt Hlt').
  - apply elem_of_app. by left.
  - by intros c' [Hc' | ->%list_elem_of_singleton]%elem_of_app; [apply Hmax |].
Qed.

Lemma py_max_spec {A} (key : A -> spec_float) (first : A) (rest : list A) :
  py_max key first rest ∈ first :: rest /\
  forall c, c ∈ first :: rest -> SFltb (key (py_max key first rest)) (key c) = false.
Proof.
  apply (py_max_fold key rest first [first]); [by left |].
  intros c ->%list_elem_of_singleton. apply SFltb_irrefl.
Qed.

Lemma ne_zero_not_zero (x : spec_float) : ne_zero x = true -> is_zero x = false.
Proof. by destruct x as [[] | | |]. Qed.

Lemma py_int_trunc (x : spec_float) (z : Z) : trunc x = Some z -> py_int x = Ok z.
Proof. destruct x; cbn; try done. all: by intros [= ->]. Qed.

Lemma centroid_finite (M : Moments) (cx cy : Z) :
  ne_zero (m00 M) = true ->
  trunc (fdiv (m10 M) (m00 M)) = Some cx ->
  trunc (fdiv (m01 M) (m00 M)) = Some cy ->
  centroid M = Ok (cx, cy).
Proof.
  intros Hne%ne_zero_not_zero Hx%py_int_trunc Hy%py_int_trunc.
  unfold centroid, py_truediv_float. rewrite Hne. cbn [mbind result_bind].
  by rewrite Hx, Hy.
Qed.

Section locator.
Context `{OpenCV}.

(** C9. The locator answers absence when the mask has no contour, without
    raising. With contours, the one it measures is an element of largest
    area; it answers absence when the [m00] of that contour is zero and
    otherwise the centroid (int(m10/m00), int(m01/m00)) of that contour,
    which is a pair of integers whenever the two quotients are finite. *)
Theorem detect_green_in_frame_spec (fr : frame) :
  (green_contours fr = [] -> detect_green_in_frame fr = Ok None) /\
  (forall c cs,
     green_contours fr = c :: cs ->
     let largest_contour := py_max contourArea c cs in
     let M := moments largest_contour in
     largest_contour ∈ c :: cs /\
     (forall c', c' ∈ c :: cs ->
        SFltb (contourArea largest_contour) (contourArea c') = false) /\
     (ne_zero (m00 M) = false -> detect_green_in_frame fr = Ok None) /\
     (ne_zero (m00 M) = true ->
        detect_green_in_frame fr = Some <$> centroid M /\
        detect_green_in_frame fr <> Ok None /\
        forall cx cy,
          trunc (fdiv (m10 M) (m00 M)) = Some cx ->
          trunc (fdiv (m01 M) (m00 M)) = Some cy ->
          detect_green_in_frame fr = Ok (Some (cx, cy)))).
Proof.
  unfold detect_green_in_frame. split; [by intros -> |].
  intros c cs ->. cbn zeta.
  destruct (py_max_spec contourArea c cs) as [Hin Hmax].
  split; [done |]. split; [done |]. split; [by intros -> |].
  intros Hne. rewrite Hne. split; [done |]. split.
  - by destruct (centroid _).
  - intros cx cy Hx Hy. by rewrite (centroid_finite _ cx cy Hne Hx Hy).
Qed.

End locator.

Lemma detect_green_in_frame_spec_witness :
  let fr := [blob 4 10 20; blob 9 398 556; blob 9 1 1] in
  @detect_green_in_frame synthetic_cv fr = Ok (Some (398, 556)).
Proof.
  intros fr.
  destruct (@detect_green_in_frame_spec synthetic_cv fr) as [_ Hsome].
  destruct (Hsome (blob 4 10 20) [blob 9 398 556; blob 9 1 1]) as (_ & _ & _ & Hc).
  { reflexivity. }
  destruct Hc as (_ & _ & Hc); [vm_compute; reflexivity |].
  apply Hc; vm_compute; reflexivity.
Defined.

(** ** The coordinate mapper *)

(** C2, amended. The offset is the reference y minus the y of the first
    sample, and every sample maps to its own x and its y plus the offset,
    in Python's arithmetic. When the reference y is an integer the offset
    and the sums are exact, and the first sample lands on the reference y. *)
Theorem mapped_points_follow_offset (template_y : pynum) (coordinates : list coordinate)
    (first : coordinate) :
  coordinates !! 0%nat = Some first ->
  compute_y_offset (VAtom (Num template_y)) coordinates
    = py_sub template_y (PInt (c_y first)) /\
  (forall y_offset c,
     mapped_point y_offset c
       = (fun new_y => (PInt (c_x c), new_y)) <$> py_add (PInt (c_y c)) y_offset) /\
  (forall n, template_y = PInt n ->
     compute_y_offset (VAtom (Num template_y)) coordinates = Ok (PInt (n - c_y first)) /\
     (forall c, mapped_point (PInt (n - c_y first)) c
                = Ok (PInt (c_x c), PInt (c_y c + (n - c_y first)))) /\
     mapped_point (PInt (n - c_y first)) first = Ok (PInt (c_x first), PInt n)).
Proof.
  intros Hfirst.
  assert (py_getitem coordinates 0 = Ok first) as Hget.
  { destruct coordinates as [| c0 rest]; [done |]. by injection Hfirst as ->. }
  split; [by unfold compute_y_offset; rewrite Hget |].
  split.
  { intros y_offset c. unfold mapped_point. by destruct (py_add _ _). }
  intros n ->. split; [by unfold compute_y_offset; rewrite Hget |].
  split; [done |]. unfold mapped_point. cbn. do 3 f_equal. lia.
Qed.

Lemma mapped_points_follow_offset_witness :
  let first := {| c_frame := 1; c_x := 398; c_y := 556 |} in
  let later := {| c_frame := 9; c_x := 420; c_y := 560 |} in
  compute_y_offset (VAtom (Num (PInt 625))) [first; later] = Ok (PInt 69) /\
  mapped_point (PInt 69) later = Ok (PInt 420, PInt 629) /\
  mapped_point (PInt 69) first = Ok (PInt 398, PInt 625).
Proof.
  intros first later.
  destruct (mapped_points_follow_offset (PInt 625) [first; later] first) as (_ & _ & Hint).
  { reflexivity. }
  destruct (Hint 625 eq_refl) as (Hoff & Hall & Hfirst).
  split; [exact Hoff |]. split; [exact (Hall later) | exact Hfirst].
Defined.

(** With the reference y at 100.1 and the first detection at y = 556 the
    difference and the sum are rounded: the first mapped y is
    100.10000000000002. *)
Lemma mapped_first_y_not_reference :
  let first := {| c_frame := 1; c_x := 398; c_y := 556 |} in
  exists y_offset new_y,
    compute_y_offset (VAtom (Num (PFloat y_100_1))) [first] = Ok y_offset /\
    mapped_point y_offset first = Ok (PInt 398, new_y) /\
    new_y = PFloat (S754_finite false 7043911292184168 (-46)) /\
    py_num_eqb new_y (PFloat y_100_1) = false.
Proof. intros first. eexists _, _. repeat split; vm_compute; reflexivity. Qed.

(** ** Failures before the first artifact *)

Lemma bind_lift {A B} (r : result A) (f : A -> M B) (w : world) :
  (lift r ≫= f) w = match r with Ok a => f a w | Err e => (Err e, w) end.
Proof. by destruct r. Qed.

Lemma json_load_files (doc : json) (w : world) :
  exists v h1, json_load doc w = (Ok v, {| w_heap := h1; w_files := w_files w |}).
Proof.
  unfold json_load, json_loads. erewrite bind_Ok by reflexivity.
  destruct (alloc_tree doc (w_heap w)) as [t h1]. by eexists _, _.
Qed.

Lemma json_load_spec (doc : json) (w : world) :
  keys_unique doc ->
  exists t h1,
    json_load doc w = (Ok (root t), {| w_heap := h1; w_files := w_files w |}) /\
    erase t = doc /\ holds h1 t /\ NoDup (locs t).
Proof.
  intros Hk.
  destruct (alloc_tree_spec doc Hk (w_heap w)) as (t & h1 & Ealloc & Eerase & _ & Hh & Hnd & _).
  exists t, h1. split; [| done].
  unfold json_load, json_loads. erewrite bind_Ok by reflexivity. by rewrite Ealloc.
Qed.

(** Scanning a video in which no frame shows the marker. *)
Lemma scan_frames_nothing `{OpenCV} (frames : list frame) :
  Forall (fun fr => detect_green_in_frame fr = Ok None) frames ->
  forall (frame_count : Z) (valid_frames : list (Z * (Z * Z))),
    scan_frames frames frame_count valid_frames
      = Ok (frame_count + Z.of_nat (length frames), valid_frames).
Proof.
  induction 1 as [| fr frames Hfr _ IH]; intros frame_count valid_frames; cbn [scan_frames].
  - cbn. by rewrite Z.add_0_r.
  - rewrite Hfr. cbn [mbind result_bind]. rewrite IH. do 2 f_equal. cbn [length]. lia.
Qed.

(** A failed scan ends the run before anything is written. *)
Lemma pipeline_aborts `{OpenCV} `{Renderer} (json_template : template_file)
    (video : video_file) (num_samples : Z) (output_prefix : string)
    (generate_images : bool) (crop_top : Z) (w : world) (e0 : pyexn) :
  detect_green_dots_from_video video num_samples = Err e0 ->
  exists e w',
    process_video_to_scenes json_template video num_samples output_prefix
      generate_images crop_top w = (Err e, w') /\
    w_files w' = w_files w.
Proof.
  intros Hscan. unfold process_video_to_scenes.
  destruct json_template as [| | doc].
  1, 2: by destruct video; eexists _, _.
  destruct (json_load_files doc w) as (v & h1 & Eload).
  assert (forall video' : video_file, video' = video ->
    exists e w',
      (template ← json_load doc;
       h ← get_heap;
       found ← lift (find_light_source h template);
       match found with
       | None => lift (Err (ValueError NoPointSource))
       | Some light_source =>
           template_x ← lift (py_getitem_key h light_source "x");
           template_y ← lift (py_getitem_key h light_source "y");
           coordinates ← lift (detect_green_dots_from_video video' num_samples);
           y_offset ← lift (compute_y_offset template_y coordinates);
           es ← mapM (emit_scene template y_offset output_prefix generate_images crop_top)
                     (enumerate1 coordinates);
           mret (collect es)
       end) w = (Err e, w') /\ w_files w' = w_files w) as Hrun.
  { intros video' ->. erewrite bind_Ok by exact Eload. erewrite bind_Ok by reflexivity.
    rewrite bind_lift. cbn [w_heap].
    destruct (find_light_source h1 v) as [[ls |] | e]; [| by eexists _, _ ..].
    rewrite bind_lift. destruct (py_getitem_key h1 ls "x"); [| by eexists _, _].
    rewrite bind_lift. destruct (py_getitem_key h1 ls "y"); [| by eexists _, _].
    rewrite bind_lift, Hscan. by eexists _, _. }
  destruct video; [by eexists _, _ | by apply Hrun ..].
Qed.

(** Where a loaded scene keeps its light source. *)
Lemma find_light_source_found (h : heap) (t : tree loc) (members : list (string * json))
    (before : list json) (light : list (string * json)) (after : list json) :
  holds h t -> NoDup (locs t) ->
  light_source_at (erase t) members before light after ->
  exists l_o loms,
    find_light_source h (root t) = Ok (Some (VRef l_o)) /\
    h !! l_o = Some (ODict (prod_map id root <$> loms)) /\
    prod_map id erase <$> loms = light.
Proof.
  intros Ht Hnd (Hobj & Hps & Hpre).
  destruct (object_located _ _ _ _ _ Hobj)
    as (lr & m1 & m2 & lo & lpre & l_o & loms & lpost & -> & Hk & <- & <- & <-).
  destruct (scene_lookups _ _ _ _ _ _ _ _ _ Ht Hnd Hk)
    as ((items & Hr & Hobjs) & Hlo & Hlight & _ & _ & _ & Hhpre & Hho).
  exists l_o, loms. split; [| done].
  cbn [root]. unfold find_light_source. rewrite Hr, Hobjs. cbn [mbind result_bind py_iter].
  rewrite Hlo. cbn [mbind result_bind].
  apply first_point_source_found; [done | done | |].
  - by rewrite <- (is_point_source_obj_erase (TObj l_o loms)).
  - apply Forall_fmap in Hpre. eapply Forall_impl; [exact Hpre |].
    intros p [[pms Hp] Hps']. cbn [compose] in *.
    rewrite is_point_source_obj_erase in Hps'. split; [| done].
    destruct p; try done. by eexists _, _.
Qed.

Lemma py_getitem_key_located (h : heap) (l : loc) (loms : list (string * tree loc))
    (k : string) :
  h !! l = Some (ODict (prod_map id root <$> loms)) ->
  is_Some (dict_get (prod_map id erase <$> loms) k) ->
  exists v, py_getitem_key h (VRef l) k = Ok v.
Proof.
  intros Hl. rewrite dict_get_fmap. intros [j Hj].
  unfold py_getitem_key. rewrite Hl, dict_get_fmap.
  destruct (dict_get loms k) as [x |]; [by eexists | done].
Qed.

(** With a template in order, a failed scan is the failure of the run. *)
Lemma pipeline_scan_failure `{OpenCV} `{Renderer} (doc : json) (video : video_file)
    (num_samples : Z) (output_prefix : string) (generate_images : bool) (crop_top : Z)
    (w : world) (members : list (string * json)) (before : list json)
    (light : list (string * json)) (after : list json) (e : pyexn) :
  keys_unique doc -> light_source_at doc members before light after ->
  is_Some (dict_get light "x") -> is_Some (dict_get light "y") ->
  video <> Missing ->
  detect_green_dots_from_video video num_samples = Err e ->
  exists w',
    process_video_to_scenes (Document doc) video num_samples output_prefix
      generate_images crop_top w = (Err e, w') /\
    w_files w' = w_files w.
Proof.
  intros Hk Hls Hx Hy Hvideo Hscan.
  destruct (json_load_spec doc w Hk) as (t & h1 & Eload & Eerase & Hh & Hnd).
  rewrite <- Eerase in Hls.
  destruct (find_light_source_found h1 t _ _ _ _ Hh Hnd Hls) as (l_o & loms & Hfind & Hl & <-).
  destruct (py_getitem_key_located h1 l_o loms "x" Hl Hx) as [vx Evx].
  destruct (py_getitem_key_located h1 l_o loms "y" Hl Hy) as [vy Evy].
  exists {| w_heap := h1; w_files := w_files w |}. split; [| done].
  unfold process_video_to_scenes.
  assert (forall video' : video_file, video' = video ->
    (template ← json_load doc;
     h ← get_heap;
     found ← lift (find_light_source h template);
     match found with
     | None => lift (Err (ValueError NoPointSource))
     | Some light_source =>
         template_x ← lift (py_getitem_key h light_source "x");
         template_y ← lift (py_getitem_key h light_source "y");
         coordinates ← lift (detect_green_dots_from_video video' num_samples);
         y_offset ← lift (compute_y_offset template_y coordinates);
         es ← mapM (emit_scene template y_offset output_prefix generate_images crop_top)
                   (enumerate1 coordinates);
         mret (collect es)
     end) w = (Err e, {| w_heap := h1; w_files := w_files w |})) as Hrun.
  { intros video' ->. erewrite bind_Ok by exact Eload. erewrite bind_Ok by reflexivity.
    rewrite bind_lift. cbn [w_heap]. rewrite Hfind.
    rewrite bind_lift, Evx, bind_lift, Evy, bind_lift, Hscan. done. }
  destruct video; [done | by apply Hrun ..].
Qed.

Lemma first_point_source_none (h : heap) (es : list (tree loc)) :
  Forall (holds h) es ->
  Forall (fun o => (exists oms, o = JObj oms) /\ is_point_source_obj o = false)
         (erase <$> es) ->
  first_point_source h (root <$> es) = Ok None.
Proof.
  induction 1 as [| o es Ho _ IH]; [done |].
  rewrite fmap_cons, Forall_cons. intros [[[oms Homs] Hps] Hrest].
  destruct o as [a | l elems | l loms]; [done | done |].
  cbn [fmap list_fmap first_point_source]. fold (root <$> es).
  rewrite (py_get_holds _ _ _ _ Ho). cbn [mbind result_bind].
  rewrite (is_PointSource_root l), <- is_point_source_obj_erase, Hps. by apply IH.
Qed.

Lemma find_light_source_none (h : heap) (t : tree loc) :
  holds h t -> no_light_source (erase t) -> find_light_source h (root t) = Ok None.
Proof.
  intros Ht (members & Hscene & Hobjs).
  destruct t as [a | l elems | l tms]; [done | done |]. cbn in Hscene.
  injection Hscene as <-. rewrite dict_get_fmap in Hobjs.
  cbn [root find_light_source]. rewrite (holds_obj _ _ _ Ht), dict_get_fmap.
  destruct (dict_get tms "objs") as [objs |] eqn:Hget; [| done].
  cbn [fmap option_fmap option_map] in *.
  destruct objs as [a | lo es | lo oms]; [done | | done].
  pose proof (holds_member _ _ _ _ Ht (dict_get_elem _ _ _ Hget)) as Hlo. cbn [snd] in Hlo.
  cbn [root py_iter]. rewrite (holds_arr _ _ _ Hlo). cbn [mbind result_bind].
  apply first_point_source_none; [by eapply holds_elems | done].
Qed.

Section failures.
Context `{OpenCV} `{Renderer}.

(** C6, amended. A video that cannot be opened makes
    [detect_green_dots_from_video] raise its ValueError, and
    [process_video_to_scenes] ends in an exception with no file written,
    which is that ValueError when the template is in order and the path
    exists. [detect_green_dot] returns the empty list instead. *)
Theorem unopenable_video_aborts (video : video_file) (json_template : template_file)
    (num_samples : Z) (output_prefix : string) (generate_images : bool) (crop_top : Z)
    (output_json : bool) (w : world) :
  video = Missing \/ video = Unreadable ->
  detect_green_dots_from_video video num_samples = Err (ValueError CannotOpenVideo) /\
  (exists e w',
     process_video_to_scenes json_template video num_samples output_prefix
       generate_images crop_top w = (Err e, w') /\
     w_files w' = w_files w) /\
  (forall doc members before light after,
     json_template = Document doc -> video = Unreadable ->
     keys_unique doc -> light_source_at doc members before light after ->
     is_Some (dict_get light "x") -> is_Some (dict_get light "y") ->
     exists w',
       process_video_to_scenes json_template video num_samples output_prefix
         generate_images crop_top w = (Err (ValueError CannotOpenVideo), w') /\
       w_files w' = w_files w) /\
  detect_green_dot video output_json num_samples = Ok ([], None).
Proof.
  intros Hvideo.
  assert (detect_green_dots_from_video video num_samples = Err (ValueError CannotOpenVideo))
    as Hscan by by destruct Hvideo as [-> | ->].
  split; [done |]. split; [by eapply pipeline_aborts |]. split.
  - intros doc members before light after -> -> Hk Hls Hx Hy.
    by eapply pipeline_scan_failure.
  - by destruct Hvideo as [-> | ->].
Qed.

(** C7, amended. When no frame of an opened video shows the marker, the
    frame loop ends with an empty list, [detect_green_dots_from_video]
    raises its ValueError before sampling, and [process_video_to_scenes]
    ends in an exception with no file written, which is that ValueError
    when the template is in order. [detect_green_dot] returns the empty
    list and saves no summary. *)
Theorem no_detection_aborts (frames : list frame) (json_template : template_file)
    (num_samples : Z) (output_prefix : string) (generate_images : bool) (crop_top : Z)
    (output_json : bool) (w : world) :
  Forall (fun fr => detect_green_in_frame fr = Ok None) frames ->
  scan_frames frames 0 [] = Ok (Z.of_nat (length frames), []) /\
  detect_green_dots_from_video (Readable frames) num_samples
    = Err (ValueError NoGreenDot) /\
  (exists e w',
     process_video_to_scenes json_template (Readable frames) num_samples output_prefix
       generate_images crop_top w = (Err e, w') /\
     w_files w' = w_files w) /\
  (forall doc members before light after,
     json_template = Document doc ->
     keys_unique doc -> light_source_at doc members before light after ->
     is_Some (dict_get light "x") -> is_Some (dict_get light "y") ->
     exists w',
       process_video_to_scenes json_template (Readable frames) num_samples output_prefix
         generate_images crop_top w = (Err (ValueError NoGreenDot), w') /\
       w_files w' = w_files w) /\
  detect_green_dot (Readable frames) output_json num_samples = Ok ([], None).
Proof.
  intros Hnone.
  pose proof (scan_frames_nothing frames Hnone 0 []) as Hloop. rewrite Z.add_0_l in Hloop.
  assert (detect_green_dots_from_video (Readable frames) num_samples
          = Err (ValueError NoGreenDot)) as Hscan.
  { unfold detect_green_dots_from_video. by rewrite Hloop. }
  split; [done |]. split; [done |]. split; [by eapply pipeline_aborts |]. split.
  - intros doc members before light after -> Hk Hls Hx Hy.
    by eapply pipeline_scan_failure.
  - unfold detect_green_dot. by rewrite Hloop.
Qed.

(** C8, amended. On a template whose objects include no PointSource,
    [process_video_to_scenes], given a video path that exists, raises its
    ValueError for the missing light source with no file written. *)
Theorem missing_light_source_aborts (doc : json) (video : video_file) (num_samples : Z)
    (output_prefix : string) (generate_images : bool) (crop_top : Z) (w : world) :
  keys_unique doc -> no_light_source doc -> video <> Missing ->
  exists w',
    process_video_to_scenes (Document doc) video num_samples output_prefix
      generate_images crop_top w = (Err (ValueError NoPointSource), w') /\
    w_files w' = w_files w.
Proof.
  intros Hk Hnone Hvideo.
  destruct (json_load_spec doc w Hk) as (t & h1 & Eload & Eerase & Hh & Hnd).
  rewrite <- Eerase in Hnone.
  pose proof (find_light_source_none h1 t Hh Hnone) as Hfind.
  exists {| w_heap := h1; w_files := w_files w |}. split; [| done].
  unfold process_video_to_scenes.
  destruct video; [done | |].
  all: erewrite bind_Ok by exact Eload; erewrite bind_Ok by reflexivity.
  all: by rewrite bind_lift; cbn [w_heap]; rewrite Hfind.
Qed.

End failures.

(** ** The sample template *)

Lemma sample_template_keys_unique : keys_unique sample_template.
Proof. cbn. repeat split; solve_NoDup. Qed.

Lemma mirror_template_keys_unique : keys_unique mirror_template.
Proof. cbn. repeat split; solve_NoDup. Qed.

Lemma sample_template_light_source :
  light_source_at sample_template
    [("version", JNum (PInt 5)); ("objs", JArr [mirror; point_source (PInt 400) (PInt 625)])]
    [mirror]
    [("type", JStr "PointSource"); ("x", JNum (PInt 400)); ("y", JNum (PInt 625))]
    [].
Proof.
  split; [by split |]. split; [done |].
  constructor; [| constructor]. split; [by eexists | done].
Qed.

Lemma mirror_template_no_light_source : no_light_source mirror_template.
Proof.
  eexists. split; [reflexivity |]. cbn.
  constructor; [| constructor]. split; [by eexists | done].
Qed.

Lemma sample_located_holds : holds (w_heap sample_world) sample_located.
Proof.
  destruct (alloc_tree_spec sample_template sample_template_keys_unique ∅)
    as (t & h & Ealloc & _ & _ & Hh & _).
  unfold sample_world, sample_located. cbn [w_heap]. by rewrite Ealloc.
Qed.

Lemma sample_located_keys_unique : keys_unique sample_located.
Proof. vm_compute. repeat split; solve_NoDup. Qed.

Lemma sample_located_depth : (tree_depth sample_located <= recursion_limit)%nat.
Proof. apply Nat.leb_le. vm_compute. reflexivity. Qed.

Lemma scene_is_independent_copy_witness :
  let later := {| c_frame := 9; c_x := 420; c_y := 560 |} in
  exists members before light after scene w',
    light_source_at (erase sample_located) members before light after /\
    build_scene (root sample_located) (PInt 69) later sample_world = (Ok (root scene), w') /\
    holds (w_heap w') scene /\
    erase scene = with_coordinates members before light after (PInt 420) (PInt 629) /\
    independent_of sample_world w' (root scene) /\ w_files w' = w_files sample_world.
Proof.
  intros later.
  destruct (scene_is_independent_copy sample_world sample_located (PInt 69) later
              (PInt 420) (PInt 629)) as [Hpipeline _].
  - exact sample_located_holds.
  - exact sample_located_keys_unique.
  - exact sample_located_depth.
  - reflexivity.
  - apply (Hpipeline (VRef 2%positive)). vm_compute. reflexivity.
Defined.

Lemma emit_scene_deterministic_witness :
  let first := {| c_frame := 1; c_x := 398; c_y := 556 |} in
  let later := {| c_frame := 9; c_x := 420; c_y := 560 |} in
  let path := "output/json/test_01.json" in
  exists members before light after r1 w1' r2 w2',
    light_source_at (erase sample_located) members before light after /\
    @emit_scene headless_renderer (root sample_located) (PInt 69) "test" true 0
      (1, first) sample_world = (r1, w1') /\
    @emit_scene headless_renderer (root sample_located) (PInt 69) "test" false 0
      (1, later) sample_world = (r2, w2') /\
    w_files w1' !! path
      = Some (JsonDoc (with_coordinates members before light after (PInt 398) (PInt 625))) /\
    w_files w2' !! path
      = Some (JsonDoc (with_coordinates members before light after (PInt 420) (PInt 629))).
Proof.
  intros first later path.
  destruct (@emit_scene_deterministic headless_renderer sample_world sample_world
              sample_located sample_located (PInt 69) (PInt 69) first later
              (PInt 398, PInt 625) (PInt 420, PInt 629)
              (VRef 2%positive) (VRef 2%positive) "test" true false 0 0 1)
    as (members & before & light & after & r1 & w1' & r2 & w2' & Hls & E1 & E2 & F1 & F2 & _).
  1, 4: exact sample_located_holds.
  1, 3: exact sample_located_keys_unique.
  1, 2: exact sample_located_depth.
  1-5: vm_compute; reflexivity.
  by exists members, before, light, after, r1, w1', r2, w2'.
Defined.

(** ** Runs that end early, on concrete inputs *)

(** [detect_green_dot] on a video that cannot be opened. *)
Lemma detect_green_dot_returns_empty :
  @detect_green_dot synthetic_cv (@Unreadable synthetic_cv) true 20 = Ok ([], None) /\
  ~ is_Err (@detect_green_dot synthetic_cv (@Unreadable synthetic_cv) true 20).
Proof. split; [reflexivity |]. by intros [e He]. Qed.

(** Two frames without a usable marker: the loop succeeds, the scanner
    of the pipeline does not. *)
Lemma scan_without_detection_fails :
  let video := @Readable synthetic_cv [[]; [blob 0 3 4]] in
  @scan_frames synthetic_cv [[]; [blob 0 3 4]] 0 [] = Ok (2, []) /\
  @detect_green_dots_from_video synthetic_cv video 20 = Err (ValueError NoGreenDot) /\
  ~ is_Ok (@detect_green_dots_from_video synthetic_cv video 20).
Proof.
  intros video. split; [vm_compute; reflexivity |].
  split; [vm_compute; reflexivity |]. by intros [a Ha].
Qed.

(** [batch_generate_json_files] moves the mirror of a template that has
    no light source, and writes the scene. *)
Lemma batch_accepts_template_without_light_source :
  let captured :=
    {| total_frames := 1; sampled_frames := 1;
       saved_coordinates := [{| c_frame := 1; c_x := 398; c_y := 556 |}] |} in
  let run := batch_generate_json_files (Document mirror_template) (Some captured)
               {| w_heap := ∅; w_files := ∅ |} in
  no_light_source mirror_template /\
  run.1 = Ok ["output/json/test_01.json"] /\
  w_files run.2 !! "output/json/test_01.json"
    = Some (JsonDoc (JObj [("version", JNum (PInt 5));
                           ("objs", JArr [JObj [("type", JStr "Mirror");
                                                ("x", JNum (PInt 398));
                                                ("y", JNum (PInt 200))]])])).
Proof.
  intros captured run. split; [exact mirror_template_no_light_source |].
  split; vm_compute; reflexivity.
Qed.

Lemma unopenable_video_aborts_witness :
  let empty := {| w_heap := ∅; w_files := ∅ |} in
  @detect_green_dots_from_video synthetic_cv (@Unreadable synthetic_cv) 20
    = Err (ValueError CannotOpenVideo) /\
  (exists w',
     @process_video_to_scenes synthetic_cv headless_renderer (Document sample_template)
       (@Unreadable synthetic_cv) 20 "test" true 0 empty
       = (Err (ValueError CannotOpenVideo), w') /\
     w_files w' = ∅).
Proof.
  intros empty.
  destruct (@unopenable_video_aborts synthetic_cv headless_renderer
              (@Unreadable synthetic_cv) (Document sample_template) 20 "test" true 0 true
              empty) as (Hscan & _ & Hrun & _).
  { right. reflexivity. }
  split; [exact Hscan |].
  apply (Hrun sample_template _ _ _ _ eq_refl eq_refl sample_template_keys_unique
           sample_template_light_source); vm_compute; eexists; reflexivity.
Defined.

Lemma no_detection_aborts_witness :
  let empty := {| w_heap := ∅; w_files := ∅ |} in
  let frames : list (@frame synthetic_cv) := [[]; [blob 0 3 4]] in
  exists w',
    @process_video_to_scenes synthetic_cv headless_renderer (Document sample_template)
      (@Readable synthetic_cv frames) 20 "test" true 0 empty
      = (Err (ValueError NoGreenDot), w') /\
    w_files w' = ∅.
Proof.
  intros empty frames.
  destruct (@no_detection_aborts synthetic_cv headless_renderer frames
              (Document sample_template) 20 "test" true 0 true empty)
    as (_ & _ & _ & Hrun & _).
  { repeat constructor. }
  apply (Hrun sample_template _ _ _ _ eq_refl sample_template_keys_unique
           sample_template_light_source); vm_compute; eexists; reflexivity.
Defined.

Lemma missing_light_source_aborts_witness :
  let empty := {| w_heap := ∅; w_files := ∅ |} in
  let video := @Readable synthetic_cv [[blob 9 398 556]] in
  exists w',
    @process_video_to_scenes synthetic_cv headless_renderer (Document mirror_template)
      video 20 "test" true 0 empty = (Err (ValueError NoPointSource), w') /\
    w_files w' = ∅.
Proof.
  intros empty video.
  apply (@missing_light_source_aborts synthetic_cv headless_renderer mirror_template video
           20 "test" true 0 empty).
  - exact mirror_template_keys_unique.
  - exact mirror_template_no_light_source.
  - discriminate.
Defined.

(** * Further properties of the scripts *)

(** ** The frame loop *)

(** The loop from any point on: frames are counted one by one, and a
    detection is appended under the number of its frame. *)
Lemma scan_frames_from `{OpenCV} (frames : list frame) :
  Forall (fun fr => is_Ok (detect_green_in_frame fr)) frames ->
  forall (frame_count : Z) (valid_frames : list (Z * (Z * Z))),
    exists found,
      scan_frames frames frame_count valid_frames
        = Ok (frame_count + Z.of_nat (length frames), valid_frames ++ found) /\
      (length found <= length frames)%nat /\
      StronglySorted Z.lt found.*1 /\
      forall f p, (f, p) ∈ found <->
        frame_count < f /\
        exists fr, frames !! Z.to_nat (f - frame_count - 1) = Some fr /\
                   detect_green_in_frame fr = Ok (Some p).
Proof.
  induction 1 as [| fr frames [pos Hfr] _ IH]; intros frame_count valid_frames.
  { exists []. cbn [scan_frames length]. rewrite Z.add_0_r, app_nil_r.
    split; [done |]. split; [done |]. split; [constructor |].
    intros f p. split; [by intros ?%elem_of_nil | by intros (_ & fr & ? & _)]. }
  cbn [scan_frames]. rewrite Hfr. cbn [mbind result_bind].
  set (acc := match pos with Some p => _ | None => _ end).
  destruct (IH (frame_count + 1) acc) as (found & Escan & Hlen & Hsorted & Hfound).
  set (here := match pos with Some p => [(frame_count + 1, p)] | None => [] end).
  assert (acc = valid_frames ++ here) as Eacc.
  { unfold acc, here. destruct pos; [done | by rewrite app_nil_r]. }
  exists (here ++ found). split; [| split; [| split]].
  - rewrite Escan, Eacc, <- app_assoc. do 2 f_equal. cbn [length]. lia.
  - rewrite length_app. unfold here. destruct pos; cbn [length]; lia.
  - unfold here. destruct pos as [p |]; [| done]. cbn. constructor; [done |].
    apply Forall_forall. intros f [[f' p'] [Ef Hin]]%list_elem_of_fmap.
    cbn in Ef. subst f'. apply Hfound in Hin. cbn. lia.
  - intros f p. rewrite elem_of_app, Hfound. split.
    + intros [Hhere | (Hlt & fr' & Hlook & Hdet)].
      * unfold here in Hhere. destruct pos as [p0 |]; [| by apply elem_of_nil in Hhere].
        apply list_elem_of_singleton in Hhere. injection Hhere as -> ->.
        split; [lia |]. exists fr. split; [| done].
        by replace (frame_count + 1 - frame_count - 1) with 0 by lia.
      * split; [lia |]. exists fr'. split; [| done].
        replace (Z.to_nat (f - frame_count - 1))
          with (S (Z.to_nat (f - (frame_count + 1) - 1))) by lia.
        done.
    + intros (Hlt & fr' & Hlook & Hdet).
      destruct (Z.eq_dec f (frame_count + 1)) as [-> | Hne].
      * left. replace (frame_count + 1 - frame_count - 1) with 0 in Hlook by lia.
        cbn in Hlook. injection Hlook as <-. rewrite Hfr in Hdet. injection Hdet as ->.
        unfold here. by left.
      * right. split; [lia |]. exists fr'. split; [| done].
        replace (Z.to_nat (f - frame_count - 1))
          with (S (Z.to_nat (f - (frame_count + 1) - 1))) in Hlook by lia.
        done.
Qed.

Lemma scan_frames_numbered `{OpenCV} (frames : list frame) :
  Forall (fun fr => is_Ok (detect_green_in_frame fr)) frames ->
  exists valid_frames,
    scan_frames frames 0 [] = Ok (Z.of_nat (length frames), valid_frames) /\
    (length valid_frames <= length frames)%nat /\
    StronglySorted Z.lt valid_frames.*1 /\
    forall f p, (f, p) ∈ valid_frames <->
      1 <= f /\
      exists fr, frames !! Z.to_nat (f - 1) = Some fr /\
                 detect_green_in_frame fr = Ok (Some p).
Proof.
  intros Hok. destruct (scan_frames_from frames Hok 0 []) as (found & E & Hlen & Hs & Hin).
  exists found. split; [by rewrite E | split; [done | split; [done |]]].
  intros f p. rewrite Hin. replace (f - 0 - 1) with (f - 1) by lia.
  split; intros [? ?]; (split; [lia | done]).
Qed.

(** X1. When the locator returns on every frame, the frame loop returns
    too: it reports the number of frames read, and its list holds, in the
    order of the video and under frame numbers counted from 1, exactly the
    frames on which the locator found the marker, each with the position
    found. *)
Theorem scan_frames_spec `{OpenCV} (frames : list frame) :
  Forall (fun fr => is_Ok (detect_green_in_frame fr)) frames ->
  exists valid_frames,
    scan_frames frames 0 [] = Ok (Z.of_nat (length frames), valid_frames) /\
    (length valid_frames <= length frames)%nat /\
    StronglySorted Z.lt valid_frames.*1 /\
    forall f p, (f, p) ∈ valid_frames <->
      1 <= f /\
      exists fr, frames !! Z.to_nat (f - 1) = Some fr /\
                 detect_green_in_frame fr = Ok (Some p).
Proof. apply scan_frames_numbered. Qed.

(** An exception of the locator ends the loop with that exception. *)
Lemma scan_frames_raises `{OpenCV} (before : list frame) (fr : frame) (after : list frame)
    (e : pyexn) :
  Forall (fun fr => is_Ok (detect_green_in_frame fr)) before ->
  detect_green_in_frame fr = Err e ->
  forall frame_count valid_frames,
    scan_frames (before ++ fr :: after) frame_count valid_frames = Err e.
Proof.
  induction 1 as [| fr0 before [pos Hfr0] _ IH]; intros Hfr frame_count valid_frames.
  - cbn. by rewrite Hfr.
  - cbn [app scan_frames]. rewrite Hfr0. cbn [mbind result_bind]. by apply IH.
Qed.

(** ** The sample as a selection of detections *)

Lemma uniform_sample_members (valid_frames : list (Z * (Z * Z))) (K : Z) :
  let N := Z.of_nat (length valid_frames) in
  1 <= K -> (K < N -> N * K < 2 ^ 50) ->
  exists out, uniform_sample valid_frames K = Ok out /\
    Z.of_nat (length out) = Z.min N K /\
    (forall c, c ∈ out -> exists vf, vf ∈ valid_frames /\ c = to_coordinate vf) /\
    (StronglySorted Z.lt valid_frames.*1 -> StronglySorted Z.lt (c_frame <$> out)).
Proof.
  intros N HK Hbound.
  destruct (Z.le_gt_cases N K) as [Hle | Hgt].
  - exists (to_coordinate <$> valid_frames).
    split; [by apply uniform_sample_all |].
    split; [rewrite length_fmap; fold N; lia |]. split.
    + intros c [vf [-> Hvf]]%list_elem_of_fmap. by exists vf.
    + intros Hsorted. rewrite <- list_fmap_compose.
      erewrite list_fmap_ext; [exact Hsorted |].
      intros i vf _. apply to_coordinate_frame.
  - destruct (uniform_sample_strided valid_frames K) as (out & Hout & Hlen & Hpick);
      [lia | by apply Hbound |].
    fold N in Hpick. exists out. split; [done |].
    split; [lia |]. split.
    + intros c [i Hi]%list_elem_of_lookup.
      assert (i < Z.to_nat K)%nat as HiK.
      { rewrite <- Hlen. apply lookup_lt_is_Some. by eexists. }
      destruct (Hpick i HiK) as (j & _ & _ & Ej). rewrite Hi in Ej.
      destruct (valid_frames !! Z.to_nat j) as [vf |] eqn:Hvf; [| done].
      injection Ej as ->. exists vf. split; [| done]. by eapply list_elem_of_lookup_2.
    + intros Hsorted. apply StronglySorted_lookup. intros i i' a b Hii' Ha Hb.
      rewrite list_lookup_fmap in Ha, Hb.
      assert (i' < Z.to_nat K)%nat as Hi'.
      { rewrite <- Hlen. apply lookup_lt_is_Some. destruct (out !! i'); [eauto | done]. }
      destruct (Hpick i ltac:(lia)) as (j & Hp & Hr & Ej).
      destruct (Hpick i' Hi') as (j' & Hp' & Hr' & Ej').
      rewrite Ej in Ha. rewrite Ej' in Hb.
      assert (j < j') as Hjj'
        by (eapply (picks_increasing N K); [| | | exact Hp | exact Hp']; lia).
      destruct (valid_frames !! Z.to_nat j) as [vf |] eqn:Hvf; [| done].
      destruct (valid_frames !! Z.to_nat j') as [vf' |] eqn:Hvf'; [| done].
      cbn in Ha, Hb. injection Ha as <-. injection Hb as <-.
      rewrite !to_coordinate_frame.
      rewrite StronglySorted_lookup in Hsorted.
      apply (Hsorted (Z.to_nat j) (Z.to_nat j')); [lia | |]; rewrite list_lookup_fmap.
      * by rewrite Hvf.
      * by rewrite Hvf'.
Qed.

Section scanner.
Context `{OpenCV}.

(** X2. On a video where the locator returns on every frame and finds the
    marker at least once, [detect_green_dots_from_video] with a count of
    at least 1 returns between 1 and [num_samples] coordinates, in
    strictly increasing frame order, and every one of them is the
    position the locator finds on the frame it names. The bound on the
    product keeps the binary64 stride exact enough. *)
Theorem detect_green_dots_from_video_spec (frames : list frame) (num_samples : Z) :
  Forall (fun fr => is_Ok (detect_green_in_frame fr)) frames ->
  Exists (fun fr => exists p, detect_green_in_frame fr = Ok (Some p)) frames ->
  1 <= num_samples -> Z.of_nat (length frames) * num_samples < 2 ^ 50 ->
  exists coordinates,
    detect_green_dots_from_video (Readable frames) num_samples = Ok coordinates /\
    (0 < length coordinates)%nat /\
    Z.of_nat (length coordinates) <= num_samples /\
    StronglySorted Z.lt (c_frame <$> coordinates) /\
    forall c, c ∈ coordinates ->
      1 <= c_frame c /\
      exists fr, frames !! Z.to_nat (c_frame c - 1) = Some fr /\
                 detect_green_in_frame fr = Ok (Some (c_x c, c_y c)).
Proof.
  intros Hok Hsome HK Hbound.
  destruct (scan_frames_numbered frames Hok) as (vf & Escan & Hlen & Hsorted & Hin).
  assert (0 < length vf)%nat as Hne.
  { apply Exists_exists in Hsome as (fr & [i Hi]%list_elem_of_lookup & p & Hp).
    assert ((Z.of_nat (S i), p) ∈ vf) as Hmem.
    { apply Hin. split; [lia |]. exists fr. split; [| done].
      by replace (Z.to_nat (Z.of_nat (S i) - 1)) with i by lia. }
    destruct vf; [by apply elem_of_nil in Hmem | cbn; lia]. }
  destruct (uniform_sample_members vf num_samples HK) as (out & Eout & Hcount & Hmem & Hs).
  { intros _. nia. }
  exists out. split; [| split; [lia | split; [lia | split; [by apply Hs |]]]].
  - unfold detect_green_dots_from_video. rewrite Escan. cbn [mbind result_bind].
    destruct (Nat.eqb_spec (length vf) 0) as [? | _]; [lia | done].
  - intros c (e & He & ->)%Hmem. destruct e as [f [x y]]. cbn.
    by apply Hin in He.
Qed.

End scanner.

Lemma scan_frames_count `{OpenCV} (frames : list frame) :
  forall (frame_count : Z) (valid_frames : list (Z * (Z * Z))) n found,
    scan_frames frames frame_count valid_frames = Ok (n, found) ->
    n = frame_count + Z.of_nat (length frames).
Proof.
  induction frames as [| fr frames IH]; intros frame_count valid_frames n found; cbn [scan_frames].
  - intros [= <- _]. cbn. lia.
  - destruct (detect_green_in_frame fr) as [pos | e]; [| done]. cbn [mbind result_bind].
    intros ->%IH. cbn [length]. lia.
Qed.

Section scanners.
Context `{OpenCV}.

(** X3. Whatever [detect_green_dots_from_video] returns, [detect_green_dot]
    returns as well; with [output_json] it also saves a summary holding
    those coordinates, their number and the number of frames read. *)
Theorem scanners_agree (video : video_file) (num_samples : Z) (coordinates : list coordinate) :
  detect_green_dots_from_video video num_samples = Ok coordinates ->
  exists frames,
    video = Readable frames /\
    detect_green_dot video false num_samples = Ok (coordinates, None) /\
    detect_green_dot video true num_samples
      = Ok (coordinates,
            Some {| total_frames := Z.of_nat (length frames);
                    sampled_frames := Z.of_nat (length coordinates);
                    saved_coordinates := coordinates |}).
Proof.
  destruct video as [| | frames]; [done | done |]. intros Hscan. exists frames.
  split; [done |]. revert Hscan. unfold detect_green_dots_from_video, detect_green_dot.
  destruct (scan_frames frames 0 []) as [[n vf] | e] eqn:Escan; [| done].
  apply scan_frames_count in Escan as ->. cbn [mbind result_bind].
  destruct (length vf =? 0)%nat; [done |]. intros ->. cbn [mbind result_bind].
  by rewrite Z.add_0_l.
Qed.

(** A list that [detect_green_dot] returns with an entry in it is the list
    of the other scanner. *)
Lemma detect_green_dot_nonempty (video : video_file) (output_json : bool) (num_samples : Z)
    (c : coordinate) (coordinates : list coordinate) (summary : option coordinates_file) :
  detect_green_dot video output_json num_samples = Ok (c :: coordinates, summary) ->
  detect_green_dots_from_video video num_samples = Ok (c :: coordinates).
Proof.
  destruct video as [| | frames]; [done | done |].
  unfold detect_green_dots_from_video, detect_green_dot.
  destruct (scan_frames frames 0 []) as [[n vf] | e]; [| done]. cbn [mbind result_bind].
  destruct (length vf =? 0)%nat; [done |].
  destruct (uniform_sample vf num_samples) as [out | e]; [| done]. cbn [mbind result_bind].
  by intros [= -> _].
Qed.

End scanners.

(** ** File names *)

Lemma pretty_N_go_length (x : N) (s : string) :
  (String.length s <= String.length (pretty_N_go x s))%nat.
Proof.
  revert s. induction (N.lt_wf_0 x) as [x _ IH]; intros s.
  assert (x = 0 \/ 0 < x)%N as [-> | Hx] by lia; [by rewrite pretty_N_go_0 |].
  rewrite pretty_N_go_step by done.
  etrans; [| apply IH; by apply N.div_lt]. cbn. lia.
Qed.

(** The decimal form of a number from 10 on does not start with a zero
    followed by one more character. *)
Lemma pretty_two_digits (p : positive) (c : Ascii.ascii) :
  10 <= Z.pos p -> pretty (Z.pos p) <> "0" +:+ String c "".
Proof.
  intros Hp. unfold pretty, pretty_Z, pretty, pretty_positive, pretty, pretty_N.
  rewrite decide_False by done.
  set (x := N.pos p). assert (10 <= x)%N as Hx by lia. clearbody x.
  set (t := N.div x 10). assert (0 < t)%N as Ht by (apply N.div_str_pos_iff; lia).
  rewrite (pretty_N_go_step x) by lia. fold t.
  rewrite (pretty_N_go_step t) by done.
  set (h := N.div t 10).
  assert (h = 0 \/ 0 < h)%N as [E | Hpos] by lia.
  - rewrite E, pretty_N_go_0. simpl. intros [= Hc _].
    assert (t < 10)%N as Hd by (apply N.div_small_iff in E; lia).
    rewrite N.mod_small in Hc by lia.
    assert (t = 1 \/ t = 2 \/ t = 3 \/ t = 4 \/ t = 5 \/ t = 6 \/ t = 7 \/ t = 8 \/ t = 9)%N
      as Hcases by lia.
    destruct Hcases as [E1 | [E1 | [E1 | [E1 | [E1 | [E1 | [E1 | [E1 | E1]]]]]]]];
      rewrite E1 in Hc; discriminate.
  - rewrite (pretty_N_go_step h) by done. intros Heq.
    pose proof (pretty_N_go_length (N.div h 10)
      (String (pretty_N_char (N.modulo h 10))
         (String (pretty_N_char (N.modulo t 10))
            (String (pretty_N_char (N.modulo x 10)) "")))) as Hlen.
    rewrite Heq in Hlen. simpl in Hlen. lia.
Qed.

Lemma pad2_small (i : Z) :
  0 <= i < 10 -> exists c, pad2 i = "0" +:+ String c "".
Proof.
  intros Hi. assert (i = 0 \/ i = 1 \/ i = 2 \/ i = 3 \/ i = 4 \/ i = 5 \/ i = 6 \/
                     i = 7 \/ i = 8 \/ i = 9) as Hcases by lia.
  destruct Hcases as [-> | [-> | [-> | [-> | [-> | [-> | [-> | [-> | [-> | ->]]]]]]]]];
    by eexists.
Qed.

Lemma pad2_large (i : Z) : ~ 0 <= i < 10 -> pad2 i = pretty i.
Proof.
  intros Hi. unfold pad2.
  destruct (Z.leb_spec 0 i), (Z.ltb_spec i 10); try done; lia.
Qed.

Lemma pad2_small_large (i j : Z) : 0 <= i < 10 -> ~ 0 <= j < 10 -> pad2 i <> pad2 j.
Proof.
  intros [c Ec]%pad2_small Hj. rewrite Ec, (pad2_large j Hj).
  destruct j as [| p | p]; [lia | |].
  - intros Heq. by apply (pretty_two_digits p c); [lia |].
  - done.
Qed.

(** [f"{i:02d}"] tells positions apart. *)
Lemma pad2_inj (i j : Z) : pad2 i = pad2 j -> i = j.
Proof.
  destruct (decide (0 <= i < 10)) as [Hi | Hi], (decide (0 <= j < 10)) as [Hj | Hj].
  - unfold pad2.
    destruct (Z.leb_spec 0 i), (Z.ltb_spec i 10), (Z.leb_spec 0 j), (Z.ltb_spec j 10);
      try lia.
    cbn. intros [= Heq]. by apply (inj pretty).
  - intros Heq. by destruct (pad2_small_large i j).
  - intros Heq. by destruct (pad2_small_large j i).
  - rewrite !pad2_large by done. apply (inj pretty).
Qed.

Lemma string_app_inj_l (s t1 t2 : string) : s +:+ t1 = s +:+ t2 -> t1 = t2.
Proof. induction s as [| c s IH]; simpl; [done |]. intros [= Heq]. by apply IH. Qed.

Lemma string_app_length (s t : string) :
  String.length (s +:+ t) = (String.length s + String.length t)%nat.
Proof. induction s as [| c s IH]; [done |]. simpl. by rewrite IH. Qed.

Lemma string_app_inj_r (s1 s2 t : string) : s1 +:+ t = s2 +:+ t -> s1 = s2.
Proof.
  revert s2. induction s1 as [| c s1 IH]; intros [| c2 s2]; simpl; [done | | |].
  - intros Heq. apply (f_equal String.length) in Heq.
    simpl in Heq. rewrite !string_app_length in Heq. simpl in Heq. lia.
  - intros Heq. apply (f_equal String.length) in Heq.
    simpl in Heq. rewrite !string_app_length in Heq. simpl in Heq. lia.
  - intros [= -> Heq]. f_equal. by apply IH.
Qed.

Lemma scene_filename_inj (output_prefix : string) (i j : Z) :
  scene_filename output_prefix i = scene_filename output_prefix j -> i = j.
Proof.
  unfold scene_filename. intros Heq%string_app_inj_l%string_app_inj_l. by apply pad2_inj.
Qed.

(** ** What a run may write *)

Lemma html_path_not_image (a b : string) :
  path_join html_dir a <> path_join image_dir b.
Proof. unfold path_join, html_dir, image_dir. intros Heq. vm_compute in Heq. congruence. Qed.

Lemma path_join_inj (dir a b : string) : path_join dir a = path_join dir b -> a = b.
Proof. unfold path_join. by intros Heq%string_app_inj_l%string_app_inj_l. Qed.

Section keeps.
Context (R : world -> world -> Prop) `{!Reflexive R} `{!Transitive R}.

Lemma keeps_ret {A} (a : A) : keeps R (mret a).
Proof. by intros w r w' [= _ <-]. Qed.

Lemma keeps_lift {A} (r : result A) : keeps R (lift r).
Proof. by intros w r' w' [= _ <-]. Qed.

Lemma keeps_get_heap : keeps R get_heap.
Proof. by intros w r w' [= _ <-]. Qed.

Lemma keeps_path_exists (p : string) : keeps R (path_exists p).
Proof. by intros w r w' [= _ <-]. Qed.

Lemma keeps_bind {A B} (m : M A) (f : A -> M B) :
  keeps R m -> (forall a, keeps R (f a)) -> keeps R (m ≫= f).
Proof.
  intros Hm Hf w r w'. unfold mbind, M_bind.
  destruct (m w) as [[a | e] w1] eqn:Em.
  - intros Ef. etrans; [by eapply Hm | by eapply Hf].
  - intros [= _ <-]. by eapply Hm.
Qed.

Lemma keeps_mapM {A B} (f : A -> M B) (l : list A) :
  (forall a, a ∈ l -> keeps R (f a)) -> keeps R (mapM f l).
Proof.
  induction l as [| a l IH]; intros Hf; cbn [mapM].
  - apply keeps_ret.
  - apply keeps_bind; [apply Hf; by left |]. intros b.
    apply keeps_bind; [apply IH; intros a' Ha'; apply Hf; by right |].
    intros k. apply keeps_ret.
Qed.

End keeps.

Lemma keeps_weaken {A} (R R' : world -> world -> Prop) (m : M A) :
  (forall w w', R w w' -> R' w w') -> keeps R m -> keeps R' m.
Proof. intros HR Hm w r w' E. by eapply HR, Hm. Qed.

Global Instance same_files_refl : Reflexive same_files.
Proof. by intros w. Qed.
Global Instance same_files_trans : Transitive same_files.
Proof. intros w1 w2 w3 H1 H2. unfold same_files in *. congruence. Qed.

Global Instance writes_only_refl (allowed : string -> Prop) : Reflexive (writes_only allowed).
Proof. by intros w. Qed.
Global Instance writes_only_trans (allowed : string -> Prop) :
  Transitive (writes_only allowed).
Proof.
  intros w1 w2 w3 (Ha1 & Hb1 & Hc1) (Ha2 & Hb2 & Hc2). split; [| split].
  - intros p Hp. by rewrite Ha2, Ha1.
  - intros p Hp. by apply Hb2, Hb1.
  - intros name c Hp. by apply Hc2, Hc1.
Qed.

Lemma same_files_writes_only (allowed : string -> Prop) (w w' : world) :
  same_files w w' -> writes_only allowed w w'.
Proof. unfold same_files. intros E. by split; [| split]; intros *; rewrite E. Qed.

Lemma writes_only_mono (allowed allowed' : string -> Prop) (w w' : world) :
  (forall p, allowed p -> allowed' p) -> writes_only allowed w w' ->
  writes_only allowed' w w'.
Proof. intros Hsub (Ha & Hb & Hc). split; [| done]. intros p Hp. apply Ha. naive_solver. Qed.

Lemma keeps_put_heap (h : heap) : keeps same_files (put_heap h).
Proof. by intros w r w' [= _ <-]. Qed.

Lemma keeps_json_load (doc : json) : keeps same_files (json_load doc).
Proof.
  unfold json_load. apply keeps_bind; [apply _ .. | apply keeps_get_heap; apply _ |].
  intros h. destruct (json_loads doc h) as [v h'].
  apply keeps_bind; [apply _ .. | apply keeps_put_heap |]. intros _. apply keeps_ret; apply _.
Qed.

Lemma keeps_copy_template (template : pyval) : keeps same_files (copy_template template).
Proof.
  unfold copy_template. apply keeps_bind; [apply _ .. | apply keeps_get_heap; apply _ |].
  intros h. apply keeps_bind; [apply _ .. | apply keeps_lift; apply _ |].
  intros text. destruct (json_loads text h) as [v h'].
  apply keeps_bind; [apply _ .. | apply keeps_put_heap |]. intros _. apply keeps_ret; apply _.
Qed.

Lemma keeps_set_light_source (new_json : pyval) (new_x new_y : pynum) :
  keeps same_files (set_light_source new_json new_x new_y).
Proof.
  unfold set_light_source. apply keeps_bind; [apply _ .. | apply keeps_get_heap; apply _ |].
  intros h. apply keeps_bind; [apply _ .. | apply keeps_lift; apply _ |].
  intros [obj |]; [| apply keeps_ret; apply _].
  apply keeps_bind; [apply _ .. | apply keeps_lift; apply _ |]. intros h1.
  apply keeps_bind; [apply _ .. | apply keeps_lift; apply _ |]. intros h2.
  apply keeps_put_heap.
Qed.

Lemma keeps_set_first_object (new_json : pyval) (new_x new_y : pynum) :
  keeps same_files (set_first_object new_json new_x new_y).
Proof.
  unfold set_first_object. apply keeps_bind; [apply _ .. | apply keeps_get_heap; apply _ |].
  intros h. apply keeps_bind; [apply _ .. | apply keeps_lift; apply _ |]. intros obj.
  apply keeps_bind; [apply _ .. | apply keeps_lift; apply _ |]. intros h1.
  apply keeps_bind; [apply _ .. | apply keeps_lift; apply _ |]. intros obj'.
  apply keeps_bind; [apply _ .. | apply keeps_lift; apply _ |]. intros h2.
  apply keeps_put_heap.
Qed.

Lemma keeps_build_scene (template : pyval) (y_offset : pynum) (coord : coordinate) :
  keeps same_files (build_scene template y_offset coord).
Proof.
  unfold build_scene. apply keeps_bind; [apply _ .. | apply keeps_copy_template |].
  intros new_json. apply keeps_bind; [apply _ .. | apply keeps_lift; apply _ |].
  intros [new_x new_y]. apply keeps_bind; [apply _ .. | apply keeps_set_light_source |].
  intros _. apply keeps_ret; apply _.
Qed.

Lemma keeps_build_scene_batch (template : pyval) (y_offset : pynum) (coord : coordinate) :
  keeps same_files (build_scene_batch template y_offset coord).
Proof.
  unfold build_scene_batch. apply keeps_bind; [apply _ .. | apply keeps_copy_template |].
  intros new_json. apply keeps_bind; [apply _ .. | apply keeps_lift; apply _ |].
  intros [new_x new_y]. apply keeps_bind; [apply _ .. | apply keeps_set_first_object |].
  intros _. apply keeps_ret; apply _.
Qed.

Lemma writes_only_write (allowed : string -> Prop) (p : string) (c : file_content) :
  allowed p -> (forall name, p <> path_join image_dir name) ->
  keeps (writes_only allowed) (write_file p c).
Proof.
  intros Hp Hnot w r w' [= _ <-]. unfold writes_only. cbn [w_files]. split; [| split].
  - intros p' Hp'. apply lookup_insert_ne. by intros ->.
  - intros p' Hsome. destruct (decide (p = p')) as [-> | Hne].
    + by rewrite lookup_insert_eq.
    + by rewrite lookup_insert_ne.
  - intros name c' Hc'. rewrite lookup_insert_ne; [done | apply Hnot].
Qed.

Section renderer.
Context `{Renderer}.

Lemma keeps_create_html_from_json (allowed : string -> Prop) (json_data : pyval)
    (output_html : string) :
  allowed output_html -> (forall name, output_html <> path_join image_dir name) ->
  keeps (writes_only allowed) (create_html_from_json json_data output_html).
Proof.
  intros Hp Hnot. unfold create_html_from_json.
  apply keeps_bind; [apply _ .. | apply keeps_get_heap; apply _ |]. intros h.
  apply keeps_bind; [apply _ .. | apply keeps_lift; apply _ |]. intros scene.
  apply keeps_bind; [apply _ .. | apply keeps_lift; apply _ |]. intros compressed.
  apply keeps_bind; [apply _ .. | apply keeps_lift; apply _ |]. intros _.
  by apply writes_only_write.
Qed.

(** The image step writes at most the image path, and only where no file
    is yet. *)
Lemma keeps_render_image (allowed : string -> Prop) (generate_images : bool)
    (crop_top : Z) (hpath ipath : string) :
  allowed ipath ->
  keeps (writes_only allowed) (render_image generate_images crop_top hpath ipath).
Proof.
  intros Hp w r w'. unfold render_image.
  destruct generate_images; [| by intros [= _ <-]].
  unfold mbind, M_bind, path_exists.
  destruct (bool_decide (is_Some (w_files w !! ipath))) eqn:Hex; [by intros [= _ <-] |].
  apply bool_decide_eq_false in Hex.
  destruct (screenshot_with_selenium hpath ipath crop_top); [| by intros [= _ <-]].
  unfold write_file, mret, M_ret. intros [= _ <-]. unfold writes_only. cbn [w_files].
  split; [| split].
  - intros p' Hp'. apply lookup_insert_ne. by intros ->.
  - intros p' Hsome. destruct (decide (ipath = p')) as [-> | Hne].
    + by rewrite lookup_insert_eq.
    + by rewrite lookup_insert_ne.
  - intros name c' Hc'. rewrite lookup_insert_ne; [done |].
    intros ->. apply Hex. by eexists.
Qed.

Lemma keeps_save_scene (new_json : pyval) (output_prefix : string) (generate_images : bool)
    (crop_top i : Z) :
  keeps (writes_only (fun p => p ∈ scene_paths output_prefix i))
        (save_scene new_json output_prefix generate_images crop_top i).
Proof.
  unfold save_scene.
  apply keeps_bind; [apply _ .. | apply keeps_get_heap; apply _ |]. intros h.
  apply keeps_bind; [apply _ .. | apply keeps_lift; apply _ |]. intros scene.
  apply keeps_bind; [apply _ .. | |].
  { apply writes_only_write; [by left |]. intros name. apply json_path_not_image. }
  intros _. apply keeps_bind; [apply _ .. | |].
  { apply keeps_create_html_from_json; [right; by left |].
    intros name. apply html_path_not_image. }
  intros _. apply keeps_bind; [apply _ .. | |].
  { apply keeps_render_image. right; right; by left. }
  intros image. apply keeps_ret; apply _.
Qed.

Lemma keeps_emit_scene (template : pyval) (y_offset : pynum) (output_prefix : string)
    (generate_images : bool) (crop_top : Z) (ic : Z * coordinate) :
  keeps (writes_only (fun p => p ∈ scene_paths output_prefix ic.1))
        (emit_scene template y_offset output_prefix generate_images crop_top ic).
Proof.
  unfold emit_scene. apply keeps_bind; [apply _ .. | |].
  { eapply keeps_weaken; [apply same_files_writes_only | apply keeps_build_scene]. }
  intros new_json. apply keeps_save_scene.
Qed.

End renderer.

Lemma elem_of_enumerate1 {A} (l : list A) (i : Z) (a : A) :
  (i, a) ∈ enumerate1 l <-> 1 <= i /\ l !! Z.to_nat (i - 1) = Some a.
Proof.
  unfold enumerate1. rewrite list_elem_of_lookup. split.
  - intros [k Hk]. rewrite list_lookup_imap in Hk.
    destruct (l !! k) as [a' |] eqn:Hl; [| done]. cbn in Hk. injection Hk as <- <-.
    split; [lia |]. by replace (Z.to_nat (Z.of_nat (S k) - 1)) with k by lia.
  - intros [Hi Hl]. exists (Z.to_nat (i - 1)). rewrite list_lookup_imap, Hl. cbn.
    do 2 f_equal. lia.
Qed.

Section pipeline_frame.
Context `{OpenCV} `{Renderer}.

(** X5. Whatever its inputs and however it ends, a run of
    [process_video_to_scenes] writes only to the JSON, HTML and image
    paths of scenes numbered from 1 under its prefix; it removes no file,
    and an image that exists before the run is left as it is. *)
Theorem process_video_to_scenes_writes (json_template : template_file)
    (video : video_file) (num_samples : Z) (output_prefix : string)
    (generate_images : bool) (crop_top : Z) (w w' : world) (r : result scenes_result) :
  process_video_to_scenes json_template video num_samples output_prefix
    generate_images crop_top w = (r, w') ->
  writes_only (fun p => exists i, 1 <= i /\ p ∈ scene_paths output_prefix i) w w'.
Proof.
  revert w r w'. change (keeps (writes_only (fun p => exists i, 1 <= i /\
    p ∈ scene_paths output_prefix i))
    (process_video_to_scenes json_template video num_samples output_prefix
       generate_images crop_top)).
  set (R := writes_only _).
  assert (forall A (m : M A), keeps same_files m -> keeps R m) as Hsame.
  { intros A m. apply keeps_weaken, same_files_writes_only. }
  unfold process_video_to_scenes.
  assert (forall doc,
    keeps R (template ← json_load doc;
       h ← get_heap;
       found ← lift (find_light_source h template);
       match found with
       | None => lift (Err (ValueError NoPointSource))
       | Some light_source =>
           template_x ← lift (py_getitem_key h light_source "x");
           template_y ← lift (py_getitem_key h light_source "y");
           coordinates ← lift (detect_green_dots_from_video video num_samples);
           y_offset ← lift (compute_y_offset template_y coordinates);
           es ← mapM (emit_scene template y_offset output_prefix generate_images crop_top)
                     (enumerate1 coordinates);
           mret (collect es)
       end)) as Hrun.
  { intros doc. apply keeps_bind; [apply _ .. | apply Hsame, keeps_json_load |].
    intros template. apply keeps_bind; [apply _ .. | apply keeps_get_heap; apply _ |].
    intros h. apply keeps_bind; [apply _ .. | apply keeps_lift; apply _ |].
    intros [light_source |]; [| apply keeps_lift; apply _].
    apply keeps_bind; [apply _ .. | apply keeps_lift; apply _ |]. intros template_x.
    apply keeps_bind; [apply _ .. | apply keeps_lift; apply _ |]. intros template_y.
    apply keeps_bind; [apply _ .. | apply keeps_lift; apply _ |]. intros coordinates.
    apply keeps_bind; [apply _ .. | apply keeps_lift; apply _ |]. intros y_offset.
    apply keeps_bind; [apply _ .. | | intros es; apply keeps_ret; apply _].
    apply keeps_mapM; [apply _ .. |]. intros [i c] [Hi _]%elem_of_enumerate1.
    eapply keeps_weaken; [| apply keeps_emit_scene].
    intros w1 w2. apply writes_only_mono. intros p Hp. by exists i. }
  destruct json_template as [| | doc], video; try apply keeps_lift; try apply _; apply Hrun.
Qed.

End pipeline_frame.

Lemma keeps_emit_scene_batch (template : pyval) (y_offset : pynum) (ic : Z * coordinate) :
  keeps (writes_only (fun p => p = batch_json_path ic.1))
        (emit_scene_batch template y_offset ic).
Proof.
  unfold emit_scene_batch. apply keeps_bind; [apply _ .. | |].
  { eapply keeps_weaken; [apply same_files_writes_only | apply keeps_build_scene_batch]. }
  intros new_json. cbn zeta.
  apply keeps_bind; [apply _ .. | apply keeps_get_heap; apply _ |]. intros h.
  apply keeps_bind; [apply _ .. | apply keeps_lift; apply _ |]. intros scene.
  apply keeps_bind; [apply _ .. | | intros _; apply keeps_ret; apply _].
  apply writes_only_write; [done |]. intros name. apply json_path_not_image.
Qed.

(** X6. Whatever its inputs and however it ends,
    [batch_generate_json_files] writes only to [output/json/test_NN.json]
    for positions from 1; it removes no file and touches no image. *)
Theorem batch_generate_json_files_writes (json_template : template_file)
    (captured : coordinates_input) (w w' : world) (r : result (list string)) :
  batch_generate_json_files json_template captured w = (r, w') ->
  writes_only (fun p => exists i, 1 <= i /\ p = batch_json_path i) w w'.
Proof.
  revert w r w'. change (keeps (writes_only (fun p => exists i, 1 <= i /\
    p = batch_json_path i)) (batch_generate_json_files json_template captured)).
  set (R := writes_only _).
  assert (forall A (m : M A), keeps same_files m -> keeps R m) as Hsame.
  { intros A m. apply keeps_weaken, same_files_writes_only. }
  unfold batch_generate_json_files.
  destruct json_template as [| | doc]; [apply keeps_lift; apply _ .. |].
  apply keeps_bind; [apply _ .. | apply Hsame, keeps_json_load |]. intros template.
  destruct captured as [coord_data |]; [| apply keeps_lift; apply _]. cbn zeta.
  apply keeps_bind; [apply _ .. | apply keeps_get_heap; apply _ |]. intros h.
  apply keeps_bind; [apply _ .. | apply keeps_lift; apply _ |]. intros light_source.
  apply keeps_bind; [apply _ .. | apply keeps_lift; apply _ |]. intros template_y.
  apply keeps_bind; [apply _ .. | apply keeps_lift; apply _ |]. intros y_offset.
  apply keeps_bind; [apply _ .. | apply keeps_lift; apply _ |]. intros _.
  apply keeps_mapM; [apply _ .. |]. intros [i c] [Hi _]%elem_of_enumerate1.
  eapply keeps_weaken; [| apply keeps_emit_scene_batch].
  intros w1 w2. apply writes_only_mono. intros p ->. by exists i.
Qed.

(** ** A whole run *)

Lemma keys_unique_of_erase {A} (t : tree A) : keys_unique (erase t) -> keys_unique t.
Proof.
  induction t as [a | x elems IH | x members IH] using tree_ind'; [done | |].
  - cbn [erase]. rewrite !keys_unique_arr, Forall_fmap.
    intros Hk. rewrite Forall_forall in IH, Hk. apply Forall_forall.
    intros e He. by apply IH, Hk.
  - cbn [erase]. rewrite !keys_unique_obj, Forall_fmap.
    intros [Hnd Hk]. split.
    + rewrite <- list_fmap_compose in Hnd. erewrite list_fmap_ext; [exact Hnd |].
      by intros ? [].
    + rewrite Forall_forall in IH, Hk. apply Forall_forall.
      intros m Hm. by apply IH, Hk.
Qed.

Lemma scene_json_path_inj (output_prefix : string) (i j : Z) :
  scene_json_path output_prefix i = scene_json_path output_prefix j -> i = j.
Proof.
  unfold scene_json_path. intros Heq%path_join_inj%string_app_inj_r.
  by eapply scene_filename_inj.
Qed.

Lemma scene_html_path_inj (output_prefix : string) (i j : Z) :
  scene_html_path output_prefix i = scene_html_path output_prefix j -> i = j.
Proof.
  unfold scene_html_path. intros Heq%path_join_inj%string_app_inj_r.
  by eapply scene_filename_inj.
Qed.

(** The JSON and HTML paths of a scene are not among the paths of
    another. *)
Lemma scene_json_path_other (output_prefix : string) (i j : Z) :
  scene_json_path output_prefix i ∈ scene_paths output_prefix j -> i = j.
Proof.
  unfold scene_paths. rewrite !elem_of_cons, elem_of_nil.
  intros [Heq | [Heq | [Heq | []]]].
  - by apply scene_json_path_inj in Heq.
  - by apply json_path_not_html in Heq.
  - by apply json_path_not_image in Heq.
Qed.

Lemma scene_html_path_other (output_prefix : string) (i j : Z) :
  scene_html_path output_prefix i ∈ scene_paths output_prefix j -> i = j.
Proof.
  unfold scene_paths. rewrite !elem_of_cons, elem_of_nil.
  intros [Heq | [Heq | [Heq | []]]].
  - symmetry in Heq. by apply json_path_not_html in Heq.
  - by apply scene_html_path_inj in Heq.
  - by apply html_path_not_image in Heq.
Qed.

Section renderer.
Context `{Renderer}.

Lemma create_html_from_json_ok (w : world) (scene : tree loc) (hpath compressed : string) :
  holds (w_heap w) scene -> (tree_depth scene <= recursion_limit)%nat ->
  (exists l members, scene = TObj l members) ->
  compress_scene_for_url (erase scene) = Ok compressed ->
  create_html_from_json (root scene) hpath w
    = (Ok (), {| w_heap := w_heap w;
                 w_files := <[hpath := HtmlPage (erase scene) compressed]> (w_files w) |}).
Proof.
  intros Ht Hd (l & members & ->) Hc. unfold create_html_from_json.
  erewrite bind_Ok by reflexivity.
  unfold json_dumps. rewrite (dump_holds _ _ _ Ht Hd).
  erewrite bind_Ok by reflexivity. rewrite Hc.
  erewrite bind_Ok by reflexivity. rewrite (py_get_holds _ _ _ _ Ht).
  by erewrite bind_Ok by reflexivity.
Qed.

Lemma render_image_result (w : world) (generate_images : bool) (crop_top : Z)
    (hpath ipath : string) :
  exists image w',
    render_image generate_images crop_top hpath ipath w = (Ok image, w') /\
    w_heap w' = w_heap w /\
    (image = None \/
     image = Some ipath /\ generate_images = true /\
     w_files w !! ipath = None /\ w_files w' !! ipath = Some (PngImage hpath)) /\
    forall p, p <> ipath -> w_files w' !! p = w_files w !! p.
Proof.
  unfold render_image. destruct generate_images; [| eexists _, _; eauto].
  erewrite bind_Ok by reflexivity.
  destruct (bool_decide _) eqn:Hex; [eexists _, _; eauto |].
  apply bool_decide_eq_false in Hex.
  destruct (screenshot_with_selenium _ _ _); [| eexists _, _; eauto].
  erewrite bind_Ok by reflexivity.
  eexists _, _. split; [reflexivity |]. split; [done |]. split.
  - right. split; [done |]. split; [done |]. cbn [w_files]. split.
    + destruct (w_files w !! ipath) eqn:E; [| done]. destruct Hex. by eexists.
    + apply lookup_insert_eq.
  - intros p Hp. cbn [w_files]. by rewrite lookup_insert_ne.
Qed.

Lemma save_scene_ok (w : world) (scene : tree loc) (output_prefix compressed : string)
    (generate_images : bool) (crop_top i : Z) :
  holds (w_heap w) scene -> (tree_depth scene <= recursion_limit)%nat ->
  (exists l members, scene = TObj l members) ->
  compress_scene_for_url (erase scene) = Ok compressed ->
  exists image w',
    save_scene (root scene) output_prefix generate_images crop_top i w
      = (Ok {| json_path := scene_json_path output_prefix i;
               html_path := scene_html_path output_prefix i;
               image_path := image |}, w') /\
    w_heap w' = w_heap w /\
    (image = None \/
     image = Some (scene_image_path output_prefix i) /\ generate_images = true /\
     w_files w !! scene_image_path output_prefix i = None /\
     w_files w' !! scene_image_path output_prefix i
       = Some (PngImage (scene_html_path output_prefix i))) /\
    w_files w' !! scene_json_path output_prefix i = Some (JsonDoc (erase scene)) /\
    w_files w' !! scene_html_path output_prefix i
      = Some (HtmlPage (erase scene) compressed).
Proof.
  intros Ht Hd Hobj Hc. unfold save_scene.
  erewrite bind_Ok by reflexivity.
  unfold json_dumps. rewrite (dump_holds _ _ _ Ht Hd).
  erewrite bind_Ok by reflexivity. erewrite bind_Ok by reflexivity.
  erewrite bind_Ok by (by apply create_html_from_json_ok).
  cbn [w_heap w_files].
  destruct (render_image_result
              {| w_heap := w_heap w;
                 w_files := <[path_join html_dir (scene_filename output_prefix i +:+ ".html")
                                := HtmlPage (erase scene) compressed]>
                              (<[path_join json_dir (scene_filename output_prefix i +:+ ".json")
                                   := JsonDoc (erase scene)]> (w_files w)) |}
              generate_images crop_top
              (path_join html_dir (scene_filename output_prefix i +:+ ".html"))
              (path_join image_dir (scene_filename output_prefix i +:+ ".png")))
    as (image & w2 & E & Hh & Himg & Hf).
  erewrite bind_Ok by exact E.
  exists image, w2. split; [done |]. split; [done |]. split.
  { destruct Himg as [-> | (-> & Hgi & Hnone & Hpng)]; [by left | right].
    split; [done |]. split; [done |]. split; [| done].
    cbn [w_files] in Hnone. unfold scene_image_path.
    rewrite !lookup_insert_ne in Hnone; [done | |].
    - apply json_path_not_image.
    - apply html_path_not_image. }
  unfold scene_json_path, scene_html_path. split.
  - rewrite Hf by apply json_path_not_image. cbn [w_files].
    rewrite lookup_insert_ne by (intros Heq; symmetry in Heq; by apply json_path_not_html in Heq).
    apply lookup_insert_eq.
  - rewrite Hf by apply html_path_not_image. cbn [w_files]. apply lookup_insert_eq.
Qed.

End renderer.

Lemma emitted_at_wider (output_prefix : string) (generate_images : bool)
    (w0 w w' w1 : world) (ic : Z * coordinate) (e : emitted) (allowed allowed' : string -> Prop) :
  writes_only allowed w0 w -> writes_only allowed' w' w1 ->
  emitted_at output_prefix generate_images w w' ic e ->
  emitted_at output_prefix generate_images w0 w1 ic e.
Proof.
  intros (_ & Hkeep & _) (_ & _ & Himages) (Hj & Hh & Himg).
  split; [done |]. split; [done |].
  destruct Himg as [Himg | (Himg & Hgi & Hnone & Hpng)]; [by left | right].
  split; [done |]. split; [done |]. split.
  - destruct (w_files w0 !! _) eqn:E; [| done].
    destruct (Hkeep (scene_image_path output_prefix ic.1)) as [c Hc]; [by eexists |].
    by rewrite Hc in Hnone.
  - by apply Himages.
Qed.

Section run.
Context `{Renderer}.
Context (template : tree loc) (members : list (string * json)) (before : list json)
  (light : list (string * json)) (after : list json).
Context (y_offset : pynum) (output_prefix : string) (generate_images : bool) (crop_top : Z).
Context (Hkeys : keys_unique template)
  (Hdepth : (tree_depth template <= recursion_limit)%nat)
  (Hlocs : NoDup (locs template))
  (Hlight : light_source_at (erase template) members before light after)
  (Hcompress : forall scene, is_Ok (compress_scene_for_url scene)).

Lemma emit_scene_ok (w : world) (i : Z) (c : coordinate) (new_x new_y : pynum) :
  holds (w_heap w) template ->
  mapped_point y_offset c = Ok (new_x, new_y) ->
  exists e compressed w',
    emit_scene (root template) y_offset output_prefix generate_images crop_top (i, c) w
      = (Ok e, w') /\
    emitted_at output_prefix generate_images w w' (i, c) e /\
    holds (w_heap w') template /\
    compress_scene_for_url (with_coordinates members before light after new_x new_y)
      = Ok compressed /\
    w_files w' !! scene_json_path output_prefix i
      = Some (JsonDoc (with_coordinates members before light after new_x new_y)) /\
    w_files w' !! scene_html_path output_prefix i
      = Some (HtmlPage (with_coordinates members before light after new_x new_y)
                compressed).
Proof.
  intros Hholds Hmp.
  destruct (find_light_source_found _ _ _ _ _ _ Hholds Hlocs Hlight)
    as (l_o & loms & Hfind & _).
  destruct (build_scene_spec w template y_offset c new_x new_y _ Hholds Hkeys Hdepth Hmp Hfind)
    as (members' & before' & light' & after' & scene & w1 & Hls' & Ebuild & Hscene & Eerase
        & Hind & Hfiles).
  assert (erase scene = with_coordinates members before light after new_x new_y) as Escene.
  { rewrite Eerase, <- (patch_scene_at _ _ _ _ _ _ _ Hls'). by apply patch_scene_at. }
  destruct (Hcompress (erase scene)) as [compressed Hc].
  assert (tree_depth scene <= recursion_limit)%nat as Hd1.
  { rewrite <- tree_depth_erase, Escene.
    apply (with_coordinates_depth (erase template)); [apply Hlight |].
    by rewrite tree_depth_erase. }
  destruct (save_scene_ok w1 scene output_prefix compressed generate_images crop_top i
              Hscene Hd1) as (image & w2 & Esave & Hheap & Himg & Hj & Hh).
  { by apply (erase_obj_inv _ _ Escene). }
  { done. }
  eexists _, compressed, w2. split.
  { unfold emit_scene. cbn [fst snd]. erewrite bind_Ok by exact Ebuild. exact Esave. }
  split.
  { split; [done |]. split; [done |].
    destruct Himg as [-> | (-> & Hgi & Hnone & Hpng)]; [by left | right].
    by rewrite <- Hfiles. }
  split.
  { rewrite Hheap. by apply Hind. }
  by rewrite <- Escene.
Qed.

Lemma emit_scenes_ok (coordinates : list coordinate) :
  forall (start : Z) (w : world),
    holds (w_heap w) template ->
    Forall (fun c => is_Ok (mapped_point y_offset c)) coordinates ->
    let indexed := imap (fun k c => (start + Z.of_nat (S k), c)) coordinates in
    exists es w',
      mapM (emit_scene (root template) y_offset output_prefix generate_images crop_top)
           indexed w = (Ok es, w') /\
      holds (w_heap w') template /\
      Forall2 (emitted_at output_prefix generate_images w w') indexed es /\
      forall (k : nat) c new_x new_y,
        coordinates !! k = Some c -> mapped_point y_offset c = Ok (new_x, new_y) ->
        exists compressed,
          compress_scene_for_url (with_coordinates members before light after new_x new_y)
            = Ok compressed /\
          w_files w' !! scene_json_path output_prefix (start + Z.of_nat (S k))
            = Some (JsonDoc (with_coordinates members before light after new_x new_y)) /\
          w_files w' !! scene_html_path output_prefix (start + Z.of_nat (S k))
            = Some (HtmlPage (with_coordinates members before light after new_x new_y)
                      compressed).
Proof.
  induction coordinates as [| c rest IH]; intros start w Hholds Hmapped indexed.
  { exists [], w. split; [done |]. split; [done |]. split; [constructor |].
    by intros k c. }
  apply Forall_cons in Hmapped as [[[new_x new_y] Hmp] Hrest].
  assert (indexed = (start + 1, c) :: imap (fun k c => (start + 1 + Z.of_nat (S k), c)) rest)
    as ->.
  { unfold indexed. cbn [imap]. f_equal. apply imap_ext. intros k x _. cbn. f_equal. lia. }
  destruct (emit_scene_ok w (start + 1) c new_x new_y Hholds Hmp)
    as (e & compressed & w1 & Eemit & Hat & Hholds1 & Hc & Hj & Hh).
  destruct (IH (start + 1) w1 Hholds1 Hrest) as (es & w2 & Emap & Hholds2 & Hall & Hfiles).
  assert (writes_only (fun p => exists i, start + 1 < i /\ p ∈ scene_paths output_prefix i)
            w1 w2) as Hrun.
  { revert Emap. apply keeps_mapM; [apply _ .. |]. intros [i c'] Hin.
    eapply keeps_weaken; [| apply keeps_emit_scene].
    intros wa wb. apply writes_only_mono. intros p Hp. exists i. split; [| done].
    apply list_elem_of_lookup in Hin as [k Hk]. rewrite list_lookup_imap in Hk.
    destruct (rest !! k); [| done]. cbn in Hk. injection Hk as <- _. lia. }
  pose proof (proj1 Hrun) as Hframe.
  assert (writes_only (fun p => p ∈ scene_paths output_prefix (start + 1)) w w1) as Hstep.
  { revert Eemit. apply (keeps_emit_scene _ _ _ _ _ (start + 1, c)). }
  exists (e :: es), w2. split.
  { cbn [mapM]. erewrite bind_Ok by exact Eemit. by erewrite bind_Ok by exact Emap. }
  split; [done |]. split.
  { constructor.
    - eapply (emitted_at_wider _ _ w w w1 w2 _ _ (fun _ => False));
        [reflexivity | exact Hrun | exact Hat].
    - eapply Forall2_impl; [exact Hall |]. intros ic e' He'.
      eapply (emitted_at_wider _ _ w w1 w2 w2 _ _ _ (fun _ => False));
        [exact Hstep | reflexivity | exact He']. }
  intros [| k] c' nx ny Hc' Hmp'.
  - cbn in Hc'. injection Hc' as <-. rewrite Hmp in Hmp'. injection Hmp' as <- <-.
    exists compressed. split; [done |].
    replace (start + Z.of_nat 1) with (start + 1) by lia.
    rewrite !Hframe; [done | |].
    + intros (i & Hi & Hin). apply scene_html_path_other in Hin. lia.
    + intros (i & Hi & Hin). apply scene_json_path_other in Hin. lia.
  - cbn in Hc'. destruct (Hfiles k c' nx ny Hc' Hmp') as (compressed' & ? & ? & ?).
    exists compressed'.
    by replace (start + Z.of_nat (S (S k))) with (start + 1 + Z.of_nat (S k)) by lia.
Qed.

End run.

Lemma py_getitem_key_atom (h : heap) (l : loc) (loms : list (string * tree loc))
    (k : string) (a : atom) :
  h !! l = Some (ODict (prod_map id root <$> loms)) ->
  dict_get (prod_map id erase <$> loms) k = Some (TAtom a) ->
  py_getitem_key h (VRef l) k = Ok (VAtom a).
Proof.
  intros Hl. rewrite dict_get_fmap. intros Hk.
  unfold py_getitem_key. rewrite Hl, dict_get_fmap.
  destruct (dict_get loms k) as [[a' | |] |]; try done. cbn in *. by injection Hk as ->.
Qed.

Lemma enumerate1_imap {A} (l : list A) :
  enumerate1 l = imap (fun k a => (0 + Z.of_nat (S k), a)) l.
Proof. unfold enumerate1. apply imap_ext. intros k a _. cbn. f_equal. Qed.

Section pipeline_run.
Context `{OpenCV} `{Renderer}.

(** X7. A run of [process_video_to_scenes] on a template whose light
    source has an integer y, with coordinates from the scanner and a
    compressor that works, succeeds: it reports the JSON and HTML paths
    of scenes 1 to K in order, scene i on disk is the template with the
    light source moved to (x_i, y_i + (y_template - y_1)) and its page is
    made from that scene; the images it reports are new files rendered
    from those pages, and none is reported without [generate_images]. *)
Theorem process_video_to_scenes_spec (doc : json) (video : video_file) (num_samples : Z)
    (output_prefix : string) (generate_images : bool) (crop_top : Z) (w : world)
    (members : list (string * json)) (before : list json) (light : list (string * json))
    (after : list json) (n : Z) (coordinates : list coordinate) (first : coordinate) :
  keys_unique doc -> (tree_depth doc <= recursion_limit)%nat ->
  light_source_at doc members before light after ->
  is_Some (dict_get light "x") -> dict_get light "y" = Some (JNum (PInt n)) ->
  detect_green_dots_from_video video num_samples = Ok coordinates ->
  coordinates !! 0%nat = Some first ->
  (forall scene, is_Ok (compress_scene_for_url scene)) ->
  let scene_of c :=
    with_coordinates members before light after
      (PInt (c_x c)) (PInt (c_y c + (n - c_y first))) in
  exists res w',
    process_video_to_scenes (Document doc) video num_samples output_prefix
      generate_images crop_top w = (Ok res, w') /\
    json_files res = (fun ic => scene_json_path output_prefix ic.1) <$> enumerate1 coordinates /\
    html_files res = (fun ic => scene_html_path output_prefix ic.1) <$> enumerate1 coordinates /\
    (generate_images = false -> image_files res = []) /\
    (forall p, p ∈ image_files res ->
       exists i c, (i, c) ∈ enumerate1 coordinates /\ p = scene_image_path output_prefix i /\
         w_files w !! p = None /\
         w_files w' !! p = Some (PngImage (scene_html_path output_prefix i))) /\
    forall i c, (i, c) ∈ enumerate1 coordinates ->
      exists compressed,
        compress_scene_for_url (scene_of c) = Ok compressed /\
        w_files w' !! scene_json_path output_prefix i = Some (JsonDoc (scene_of c)) /\
        w_files w' !! scene_html_path output_prefix i
          = Some (HtmlPage (scene_of c) compressed).
Proof.
  intros Hk Hd Hls Hx Hy Hscan Hfirst Hcompress scene_of.
  destruct (json_load_spec doc w Hk) as (t & h1 & Eload & Eerase & Hh & Hnd).
  rewrite <- Eerase in Hls, Hk, Hd. apply keys_unique_of_erase in Hk.
  rewrite tree_depth_erase in Hd.
  destruct (find_light_source_found h1 t _ _ _ _ Hh Hnd Hls) as (l_o & loms & Hfind & Hl & <-).
  destruct (py_getitem_key_located h1 l_o loms "x" Hl Hx) as [vx Evx].
  pose proof (py_getitem_key_atom h1 l_o loms "y" _ Hl Hy) as Evy.
  assert (compute_y_offset (VAtom (Num (PInt n))) coordinates = Ok (PInt (n - c_y first)))
    as Eoff.
  { unfold compute_y_offset. destruct coordinates as [| c0 rest]; [done |].
    by injection Hfirst as ->. }
  set (y_offset := PInt (n - c_y first)) in *.
  assert (forall c, mapped_point y_offset c = Ok (PInt (c_x c), PInt (c_y c + (n - c_y first))))
    as Hmp by done.
  destruct (emit_scenes_ok t _ _ _ _ y_offset output_prefix generate_images crop_top
              Hk Hd Hnd Hls Hcompress coordinates 0 {| w_heap := h1; w_files := w_files w |})
    as (es & w2 & Emap & _ & Hall & Hfiles).
  { done. }
  { apply Forall_forall. intros c _. by eexists. }
  cbn zeta in Emap, Hall. rewrite <- enumerate1_imap in Emap, Hall.
  exists (collect es), w2. split; [| split; [| split; [| split; [| split]]]].
  - assert (video <> Missing) as Hvideo by (by intros ->).
    unfold process_video_to_scenes.
    assert (forall video' : video_file, video' = video ->
      (template ← json_load doc;
       h ← get_heap;
       found ← lift (find_light_source h template);
       match found with
       | None => lift (Err (ValueError NoPointSource))
       | Some light_source =>
           template_x ← lift (py_getitem_key h light_source "x");
           template_y ← lift (py_getitem_key h light_source "y");
           coordinates ← lift (detect_green_dots_from_video video' num_samples);
           y_offset ← lift (compute_y_offset template_y coordinates);
           es ← mapM (emit_scene template y_offset output_prefix generate_images crop_top)
                     (enumerate1 coordinates);
           mret (collect es)
       end) w = (Ok (collect es), w2)) as Hrun.
    { intros video' ->. erewrite bind_Ok by exact Eload. erewrite bind_Ok by reflexivity.
      rewrite bind_lift. cbn [w_heap]. rewrite Hfind.
      rewrite bind_lift, Evx, bind_lift, Evy, bind_lift, Hscan, bind_lift, Eoff.
      by erewrite bind_Ok by exact Emap. }
    destruct video; [done | by apply Hrun ..].
  - cbn [collect json_files]. clear -Hall.
    induction Hall as [| ic e l es (Hj & _) _ IH]; [done |]. cbn. by rewrite Hj, IH.
  - cbn [collect html_files]. clear -Hall.
    induction Hall as [| ic e l es (_ & Hh & _) _ IH]; [done |]. cbn. by rewrite Hh, IH.
  - intros ->. cbn [collect image_files]. clear -Hall.
    induction Hall as [| ic e l es (_ & _ & Himg) _ IH]; [done |]. cbn.
    destruct Himg as [-> | (_ & ? & _)]; [exact IH | done].
  - cbn [collect image_files]. intros p [e [He Hp]]%list_elem_of_omap.
    apply list_elem_of_lookup in He as [k Hek].
    destruct (Forall2_lookup_r _ _ _ _ _ Hall Hek) as ([i c] & Hic & _ & _ & Himg).
    exists i, c. split; [by eapply list_elem_of_lookup_2 |].
    destruct Himg as [Himg | (Himg & _ & Hnone & Hpng)]; rewrite Himg in Hp; [done |].
    injection Hp as <-. done.
  - intros i c [Hi Hc]%elem_of_enumerate1.
    destruct (Hfiles (Z.to_nat (i - 1)) c _ _ Hc (Hmp c)) as (compressed & ? & Hj & Hh').
    exists compressed.
    by replace (0 + Z.of_nat (S (Z.to_nat (i - 1)))) with i in Hj, Hh' by lia.
Qed.

End pipeline_run.

(** ** The batch script, run as a whole *)

Lemma batch_json_path_inj (i j : Z) : batch_json_path i = batch_json_path j -> i = j.
Proof.
  unfold batch_json_path.
  intros Heq%path_join_inj%string_app_inj_l%string_app_inj_r. by apply pad2_inj.
Qed.

(** Where a loaded scene keeps its first object. *)
Lemma first_object_found (h : heap) (t : tree loc) (members : list (string * json))
    (light : list (string * json)) (after : list json) :
  holds h t -> NoDup (locs t) ->
  object_at (erase t) members [] light after ->
  exists l_o loms,
    py_getitem_key h (root t) "objs" ≫= py_first h = Ok (VRef l_o) /\
    h !! l_o = Some (ODict (prod_map id root <$> loms)) /\
    prod_map id erase <$> loms = light.
Proof.
  intros Ht Hnd Hobj.
  destruct (object_located _ _ _ _ _ Hobj)
    as (lr & m1 & m2 & lo & lpre & l_o & loms & lpost & -> & Hk & Hpre & <- & <-).
  destruct lpre; [| done].
  destruct (scene_lookups _ _ _ _ _ _ _ _ _ Ht Hnd Hk)
    as ((items & Hr & Hobjs) & Hlo & Hlight & _).
  exists l_o, loms. split; [| done].
  cbn [root]. unfold py_getitem_key. rewrite Hr, Hobjs. cbn [mbind result_bind].
  unfold py_first. by rewrite Hlo.
Qed.

Section batch_run.
Context (template : tree loc) (members : list (string * json))
  (light : list (string * json)) (after : list json) (y_offset : pynum).
Context (Hkeys : keys_unique template)
  (Hdepth : (tree_depth template <= recursion_limit)%nat)
  (Hlocs : NoDup (locs template))
  (Hobject : object_at (erase template) members [] light after)
  (Hy : is_Some (dict_get light "y")).

Lemma emit_scene_batch_ok (w : world) (i : Z) (c : coordinate) (new_x new_y : pynum) :
  holds (w_heap w) template ->
  mapped_point y_offset c = Ok (new_x, new_y) ->
  exists w',
    emit_scene_batch (root template) y_offset (i, c) w = (Ok (batch_json_path i), w') /\
    holds (w_heap w') template /\
    w_files w' !! batch_json_path i
      = Some (JsonDoc (with_coordinates members [] light after new_x new_y)).
Proof.
  intros Hholds Hmp.
  destruct (first_object_found _ _ _ _ _ Hholds Hlocs Hobject)
    as (l_o & loms & Hfirst & Hl & Elight).
  destruct (py_getitem_key_located (w_heap w) l_o loms "y" Hl) as [ty Ety].
  { by rewrite Elight. }
  destruct (build_scene_batch_spec w template y_offset c new_x new_y _ _
              Hholds Hkeys Hdepth Hmp Hfirst Ety)
    as (members' & light' & after' & scene & w1 & Hobj' & Ebuild & Hscene & Eerase
        & Hind & Hfiles).
  assert (erase scene = with_coordinates members [] light after new_x new_y) as Escene.
  { rewrite Eerase, <- (patch_scene_batch_at _ _ _ _ _ _ Hobj').
    by apply patch_scene_batch_at. }
  assert (tree_depth scene <= recursion_limit)%nat as Hd1.
  { rewrite <- tree_depth_erase, Escene.
    apply (with_coordinates_depth (erase template)); [done |].
    by rewrite tree_depth_erase. }
  eexists. split; [| split].
  - unfold emit_scene_batch. cbn [fst snd]. erewrite bind_Ok by exact Ebuild.
    erewrite bind_Ok by reflexivity.
    unfold json_dumps. rewrite (dump_holds _ _ _ Hscene Hd1).
    erewrite bind_Ok by reflexivity. erewrite bind_Ok by reflexivity. reflexivity.
  - by apply Hind.
  - cbn [w_files]. unfold batch_json_path. by rewrite lookup_insert_eq, Escene.
Qed.

Lemma emit_scenes_batch_ok (coordinates : list coordinate) :
  forall (start : Z) (w : world),
    holds (w_heap w) template ->
    Forall (fun c => is_Ok (mapped_point y_offset c)) coordinates ->
    let indexed := imap (fun k c => (start + Z.of_nat (S k), c)) coordinates in
    exists w',
      mapM (emit_scene_batch (root template) y_offset) indexed w
        = (Ok ((fun ic => batch_json_path ic.1) <$> indexed), w') /\
      holds (w_heap w') template /\
      forall (k : nat) c new_x new_y,
        coordinates !! k = Some c -> mapped_point y_offset c = Ok (new_x, new_y) ->
        w_files w' !! batch_json_path (start + Z.of_nat (S k))
          = Some (JsonDoc (with_coordinates members [] light after new_x new_y)).
Proof.
  induction coordinates as [| c rest IH]; intros start w Hholds Hmapped indexed.
  { exists w. split; [done |]. split; [done |]. by intros k c. }
  apply Forall_cons in Hmapped as [[[new_x new_y] Hmp] Hrest].
  assert (indexed = (start + 1, c) :: imap (fun k c => (start + 1 + Z.of_nat (S k), c)) rest)
    as ->.
  { unfold indexed. cbn [imap]. f_equal. apply imap_ext. intros k x _. cbn. f_equal. lia. }
  destruct (emit_scene_batch_ok w (start + 1) c new_x new_y Hholds Hmp)
    as (w1 & Eemit & Hholds1 & Hj).
  destruct (IH (start + 1) w1 Hholds1 Hrest) as (w2 & Emap & Hholds2 & Hfiles).
  assert (writes_only (fun p => exists i, start + 1 < i /\ p = batch_json_path i) w1 w2)
    as (Hframe & _).
  { revert Emap. apply keeps_mapM; [apply _ .. |]. intros [i c'] Hin.
    eapply keeps_weaken; [| apply keeps_emit_scene_batch].
    intros wa wb. apply writes_only_mono. intros p Hp. exists i. split; [| done].
    apply list_elem_of_lookup in Hin as [k Hk]. rewrite list_lookup_imap in Hk.
    destruct (rest !! k); [| done]. cbn in Hk. injection Hk as <- _. lia. }
  exists w2. split.
  { cbn [mapM]. erewrite bind_Ok by exact Eemit. by erewrite bind_Ok by exact Emap. }
  split; [done |].
  intros [| k] c' nx ny Hc' Hmp'.
  - cbn in Hc'. injection Hc' as <-. rewrite Hmp in Hmp'. injection Hmp' as <- <-.
    replace (start + Z.of_nat 1) with (start + 1) by lia.
    rewrite Hframe; [done |].
    intros (i & Hi & Hin). apply batch_json_path_inj in Hin. lia.
  - cbn in Hc'. pose proof (Hfiles k c' nx ny Hc' Hmp') as Hf.
    by replace (start + Z.of_nat (S (S k))) with (start + 1 + Z.of_nat (S k)) by lia.
Qed.

End batch_run.

(** X8. [batch_generate_json_files] on a template whose first object has
    an integer y and on a non-empty list of saved coordinates succeeds: it
    returns the paths [test_01.json] onwards in order, and file i is the
    template with its first object moved to
    (x_i, y_i + (y_template - y_1)). *)
Theorem batch_generate_json_files_spec (doc : json) (captured : coordinates_file)
    (w : world) (members : list (string * json)) (light : list (string * json))
    (after : list json) (n : Z) (first : coordinate) :
  keys_unique doc -> (tree_depth doc <= recursion_limit)%nat ->
  object_at doc members [] light after ->
  is_Some (dict_get light "x") -> dict_get light "y" = Some (JNum (PInt n)) ->
  saved_coordinates captured !! 0%nat = Some first ->
  exists w',
    batch_generate_json_files (Document doc) (Some captured) w
      = (Ok ((fun ic => batch_json_path ic.1) <$> enumerate1 (saved_coordinates captured)),
         w') /\
    forall i c, (i, c) ∈ enumerate1 (saved_coordinates captured) ->
      w_files w' !! batch_json_path i
        = Some (JsonDoc (with_coordinates members [] light after
                           (PInt (c_x c)) (PInt (c_y c + (n - c_y first))))).
Proof.
  intros Hk Hd Hobj Hx Hy Hfirst.
  destruct (json_load_spec doc w Hk) as (t & h1 & Eload & Eerase & Hh & Hnd).
  rewrite <- Eerase in Hobj, Hk, Hd. apply keys_unique_of_erase in Hk.
  rewrite tree_depth_erase in Hd.
  destruct (first_object_found h1 t _ _ _ Hh Hnd Hobj) as (l_o & loms & Hfind & Hl & Elight).
  subst light.
  destruct (py_getitem_key_located h1 l_o loms "x" Hl Hx) as [vx Evx].
  pose proof (py_getitem_key_atom h1 l_o loms "y" _ Hl Hy) as Evy.
  set (coordinates := saved_coordinates captured) in *.
  assert (compute_y_offset (VAtom (Num (PInt n))) coordinates = Ok (PInt (n - c_y first)))
    as Eoff.
  { unfold compute_y_offset. destruct coordinates as [| c0 rest]; [done |].
    by injection Hfirst as ->. }
  set (y_offset := PInt (n - c_y first)) in *.
  assert (forall c, mapped_point y_offset c = Ok (PInt (c_x c), PInt (c_y c + (n - c_y first))))
    as Hmp by done.
  assert (is_Some (dict_get (prod_map id erase <$> loms) "y")) as Hy' by by rewrite Hy.
  destruct (emit_scenes_batch_ok t _ _ _ y_offset Hk Hd Hnd Hobj Hy' coordinates 0
              {| w_heap := h1; w_files := w_files w |})
    as (w2 & Emap & _ & Hfiles).
  { done. }
  { apply Forall_forall. intros c _. by eexists. }
  cbn zeta in Emap. rewrite <- enumerate1_imap in Emap.
  exists w2. split.
  - unfold batch_generate_json_files. erewrite bind_Ok by exact Eload.
    fold coordinates. cbn zeta. erewrite bind_Ok by reflexivity.
    rewrite bind_lift. cbn [w_heap]. rewrite Hfind.
    rewrite bind_lift, Evy, bind_lift, Eoff, bind_lift, Evx. exact Emap.
  - intros i c [Hi Hc]%elem_of_enumerate1.
    pose proof (Hfiles (Z.to_nat (i - 1)) c _ _ Hc (Hmp c)) as Hj.
    by replace (0 + Z.of_nat (S (Z.to_nat (i - 1)))) with i in Hj by lia.
Qed.

(** ** Names of the output files *)

Lemma scene_image_path_inj (output_prefix : string) (i j : Z) :
  scene_image_path output_prefix i = scene_image_path output_prefix j -> i = j.
Proof.
  unfold scene_image_path. intros Heq%path_join_inj%string_app_inj_r.
  by eapply scene_filename_inj.
Qed.

(** X9. Two scenes of a run share no path: a path that belongs to scene i
    and to scene j under the same prefix forces i = j, whatever the
    positions (the zero-padded form of one number is never that of
    another). *)
Theorem scene_paths_disjoint (output_prefix : string) (i j : Z) (p : string) :
  p ∈ scene_paths output_prefix i -> p ∈ scene_paths output_prefix j -> i = j.
Proof.
  unfold scene_paths at 1. rewrite !elem_of_cons, elem_of_nil.
  intros [-> | [-> | [-> | []]]].
  - apply scene_json_path_other.
  - apply scene_html_path_other.
  - unfold scene_paths. rewrite !elem_of_cons, elem_of_nil.
    intros [Heq | [Heq | [Heq | []]]].
    + symmetry in Heq. by apply json_path_not_image in Heq.
    + symmetry in Heq. by apply html_path_not_image in Heq.
    + by apply scene_image_path_inj in Heq.
Qed.

(** ** Runs that stop on the way *)

Section stops.
Context `{OpenCV} `{Renderer}.

(** X4. With [num_samples = 0] and a video in which the marker is found,
    both scanners raise ZeroDivisionError (the stride is a division by the
    count), and [process_video_to_scenes] ends with that exception and no
    file written. *)
Theorem zero_samples_raises (frames : list frame) (output_json : bool) :
  Forall (fun fr => is_Ok (detect_green_in_frame fr)) frames ->
  Exists (fun fr => exists p, detect_green_in_frame fr = Ok (Some p)) frames ->
  detect_green_dots_from_video (Readable frames) 0 = Err ZeroDivisionError /\
  detect_green_dot (Readable frames) output_json 0 = Err ZeroDivisionError /\
  forall doc members before light after output_prefix generate_images crop_top w,
    keys_unique doc -> light_source_at doc members before light after ->
    is_Some (dict_get light "x") -> is_Some (dict_get light "y") ->
    exists w',
      process_video_to_scenes (Document doc) (Readable frames) 0 output_prefix
        generate_images crop_top w = (Err ZeroDivisionError, w') /\
      w_files w' = w_files w.
Proof.
  intros Hok Hsome.
  destruct (scan_frames_numbered frames Hok) as (vf & Escan & Hlen & Hsorted & Hin).
  assert (0 < length vf)%nat as Hne.
  { apply Exists_exists in Hsome as (fr & [i Hi]%list_elem_of_lookup & p & Hp).
    assert ((Z.of_nat (S i), p) ∈ vf) as Hmem.
    { apply Hin. split; [lia |]. exists fr. split; [| done].
      by replace (Z.to_nat (Z.of_nat (S i) - 1)) with i by lia. }
    destruct vf; [by apply elem_of_nil in Hmem | cbn; lia]. }
  assert (uniform_sample vf 0 = Err ZeroDivisionError) as Esample.
  { unfold uniform_sample.
    destruct (Z.leb_spec (Z.of_nat (length vf)) 0) as [? | _]; [lia | done]. }
  assert (detect_green_dots_from_video (Readable frames) 0 = Err ZeroDivisionError) as Edet.
  { unfold detect_green_dots_from_video. rewrite Escan. cbn [mbind result_bind].
    by destruct (Nat.eqb_spec (length vf) 0) as [? | _]; [lia |]. }
  split; [done |]. split.
  - unfold detect_green_dot. rewrite Escan. cbn [mbind result_bind].
    destruct (Nat.eqb_spec (length vf) 0) as [? | _]; [lia |]. by rewrite Esample.
  - intros doc members before light after output_prefix generate_images crop_top w
      Hk Hls Hx Hy.
    by eapply pipeline_scan_failure.
Qed.

Lemma save_scene_compress_fails (w : world) (scene : tree loc) (output_prefix : string)
    (generate_images : bool) (crop_top i : Z) (e : pyexn) :
  holds (w_heap w) scene -> (tree_depth scene <= recursion_limit)%nat ->
  compress_scene_for_url (erase scene) = Err e ->
  save_scene (root scene) output_prefix generate_images crop_top i w
    = (Err e, {| w_heap := w_heap w;
                 w_files := <[scene_json_path output_prefix i := JsonDoc (erase scene)]>
                              (w_files w) |}).
Proof.
  intros Ht Hd Hc. unfold save_scene.
  erewrite bind_Ok by reflexivity.
  unfold json_dumps. rewrite (dump_holds _ _ _ Ht Hd).
  erewrite bind_Ok by reflexivity. erewrite bind_Ok by reflexivity.
  erewrite bind_Err; [reflexivity |].
  unfold create_html_from_json. erewrite bind_Ok by reflexivity.
  unfold json_dumps. cbn [w_heap]. rewrite (dump_holds _ _ _ Ht Hd).
  erewrite bind_Ok by reflexivity. rewrite Hc. by erewrite bind_Err by reflexivity.
Qed.

(** X10. When the compressor fails on the first scene, the run ends with
    that exception after the JSON file of scene 1 has been written: the
    file stays on disk, without its page, and nothing else is written. *)
Theorem compressor_failure_leaves_json (doc : json) (video : video_file) (num_samples : Z)
    (output_prefix : string) (generate_images : bool) (crop_top : Z) (w : world)
    (members : list (string * json)) (before : list json) (light : list (string * json))
    (after : list json) (n : Z) (first : coordinate) (rest : list coordinate) (e : pyexn) :
  keys_unique doc -> (tree_depth doc <= recursion_limit)%nat ->
  light_source_at doc members before light after ->
  is_Some (dict_get light "x") -> dict_get light "y" = Some (JNum (PInt n)) ->
  detect_green_dots_from_video video num_samples = Ok (first :: rest) ->
  let scene := with_coordinates members before light after (PInt (c_x first)) (PInt n) in
  compress_scene_for_url scene = Err e ->
  exists w',
    process_video_to_scenes (Document doc) video num_samples output_prefix
      generate_images crop_top w = (Err e, w') /\
    w_files w' = <[scene_json_path output_prefix 1 := JsonDoc scene]> (w_files w).
Proof.
  intros Hk Hd Hls Hx Hy Hscan scene Hc.
  destruct (json_load_spec doc w Hk) as (t & h1 & Eload & Eerase & Hh & Hnd).
  rewrite <- Eerase in Hls, Hk, Hd. apply keys_unique_of_erase in Hk.
  rewrite tree_depth_erase in Hd.
  destruct (find_light_source_found h1 t _ _ _ _ Hh Hnd Hls) as (l_o & loms & Hfind & Hl & <-).
  destruct (py_getitem_key_located h1 l_o loms "x" Hl Hx) as [vx Evx].
  pose proof (py_getitem_key_atom h1 l_o loms "y" _ Hl Hy) as Evy.
  assert (compute_y_offset (VAtom (Num (PInt n))) (first :: rest)
          = Ok (PInt (n - c_y first))) as Eoff by done.
  assert (mapped_point (PInt (n - c_y first)) first = Ok (PInt (c_x first), PInt n)) as Hmp.
  { unfold mapped_point. cbn. do 3 f_equal. lia. }
  destruct (build_scene_spec {| w_heap := h1; w_files := w_files w |} t _ first _ _ _
              Hh Hk Hd Hmp Hfind)
    as (members' & before' & light' & after' & built & w1 & Hls' & Ebuild & Hbuilt & Eerase'
        & _ & Hfiles).
  assert (erase built = scene) as Escene.
  { rewrite Eerase', <- (patch_scene_at _ _ _ _ _ _ _ Hls'). by apply patch_scene_at. }
  assert (tree_depth built <= recursion_limit)%nat as Hd1.
  { rewrite <- tree_depth_erase, Escene.
    apply (with_coordinates_depth (erase t)); [apply Hls |].
    by rewrite tree_depth_erase. }
  rewrite <- Escene in Hc.
  pose proof (save_scene_compress_fails w1 built output_prefix generate_images crop_top 1 e
                Hbuilt Hd1 Hc) as Esave.
  eexists. split.
  - assert (video <> Missing) as Hvideo by (by intros ->).
    unfold process_video_to_scenes.
    assert (forall video' : video_file, video' = video ->
      (template ← json_load doc;
       h ← get_heap;
       found ← lift (find_light_source h template);
       match found with
       | None => lift (Err (ValueError NoPointSource))
       | Some light_source =>
           template_x ← lift (py_getitem_key h light_source "x");
           template_y ← lift (py_getitem_key h light_source "y");
           coordinates ← lift (detect_green_dots_from_video video' num_samples);
           y_offset ← lift (compute_y_offset template_y coordinates);
           es ← mapM (emit_scene template y_offset output_prefix generate_images crop_top)
                     (enumerate1 coordinates);
           mret (collect es)
       end) w = (Err e, {| w_heap := w_heap w1;
                           w_files := <[scene_json_path output_prefix 1
                                          := JsonDoc (erase built)]> (w_files w1) |}))
      as Hrun.
    { intros video' ->. erewrite bind_Ok by exact Eload. erewrite bind_Ok by reflexivity.
      rewrite bind_lift. cbn [w_heap]. rewrite Hfind.
      rewrite bind_lift, Evx, bind_lift, Evy, bind_lift, Hscan, bind_lift, Eoff.
      erewrite bind_Err; [reflexivity |].
      unfold enumerate1. cbn [imap mapM]. erewrite bind_Err; [reflexivity |].
      unfold emit_scene. cbn [fst snd]. erewrite bind_Ok by exact Ebuild. exact Esave. }
    destruct video; [done | by apply Hrun ..].
  - cbn [w_files]. by rewrite Hfiles, Escene.
Qed.

End stops.

(** X11. [batch_generate_json_files] raises FileNotFoundError without the
    coordinates file, IndexError on an empty list of coordinates and
    KeyError when the first object of the template has no y; in each case
    no file is written. *)
Theorem batch_generate_json_files_errors (doc : json) (w : world)
    (members : list (string * json)) (light : list (string * json)) (after : list json) :
  keys_unique doc -> object_at doc members [] light after ->
  (exists w',
     batch_generate_json_files (Document doc) None w = (Err FileNotFoundError, w') /\
     w_files w' = w_files w) /\
  (forall captured,
     is_Some (dict_get light "y") -> saved_coordinates captured = [] ->
     exists w',
       batch_generate_json_files (Document doc) (Some captured) w = (Err IndexError, w') /\
       w_files w' = w_files w) /\
  (forall captured,
     dict_get light "y" = None ->
     exists w',
       batch_generate_json_files (Document doc) (Some captured) w
         = (Err (KeyError "y"), w') /\
       w_files w' = w_files w).
Proof.
  intros Hk Hobj.
  destruct (json_load_spec doc w Hk) as (t & h1 & Eload & Eerase & Hh & Hnd).
  rewrite <- Eerase in Hobj.
  destruct (first_object_found h1 t _ _ _ Hh Hnd Hobj) as (l_o & loms & Hfind & Hl & <-).
  unfold batch_generate_json_files. split; [| split].
  - exists {| w_heap := h1; w_files := w_files w |}.
    split; [by erewrite bind_Ok by exact Eload | done].
  - intros captured Hy Hnone.
    destruct (py_getitem_key_located h1 l_o loms "y" Hl Hy) as [vy Evy].
    exists {| w_heap := h1; w_files := w_files w |}. split; [| done].
    erewrite bind_Ok by exact Eload. cbn zeta. erewrite bind_Ok by reflexivity.
    rewrite bind_lift. cbn [w_heap]. rewrite Hfind.
    by rewrite bind_lift, Evy, bind_lift, Hnone.
  - intros captured Hy.
    assert (py_getitem_key h1 (VRef l_o) "y" = Err (KeyError "y")) as Evy.
    { unfold py_getitem_key. rewrite Hl, dict_get_fmap.
      rewrite dict_get_fmap in Hy. by destruct (dict_get loms "y"). }
    exists {| w_heap := h1; w_files := w_files w |}. split; [| done].
    erewrite bind_Ok by exact Eload. cbn zeta. erewrite bind_Ok by reflexivity.
    rewrite bind_lift. cbn [w_heap]. rewrite Hfind.
    by rewrite bind_lift, Evy.
Qed.

(** ** Templates the pipeline cannot use *)

Lemma json_load_root (doc : json) (w : world) :
  exists t h1,
    json_load doc w = (Ok (root t), {| w_heap := h1; w_files := w_files w |}) /\
    alloc_tree doc (w_heap w) = (t, h1).
Proof.
  unfold json_load, json_loads. erewrite bind_Ok by reflexivity.
  destruct (alloc_tree doc (w_heap w)) as [t h1]. by exists t, h1.
Qed.

Section templates.
Context `{OpenCV} `{Renderer}.

(** X12. A template that is not a JSON object (an array, a string, a
    number) makes [process_video_to_scenes] raise AttributeError at the
    lookup of its objects, with no file written. *)
Theorem non_object_template_raises (doc : json) (video : video_file) (num_samples : Z)
    (output_prefix : string) (generate_images : bool) (crop_top : Z) (w : world) :
  (forall members, doc <> JObj members) -> video <> Missing ->
  exists w',
    process_video_to_scenes (Document doc) video num_samples output_prefix
      generate_images crop_top w = (Err AttributeError, w') /\
    w_files w' = w_files w.
Proof.
  intros Hdoc Hvideo.
  destruct (json_load_root doc w) as (t & h1 & Eload & Ealloc).
  assert (find_light_source h1 (root t) = Err AttributeError) as Hfind.
  { destruct doc as [a | [] elems | [] members]; [| | by destruct (Hdoc members)].
    - cbn in Ealloc. by injection Ealloc as <- <-.
    - cbn [alloc_tree] in Ealloc.
      destruct (alloc_all alloc_tree elems (w_heap w)) as [ts h0].
      injection Ealloc as <- <-. cbn [root find_light_source].
      by rewrite lookup_insert_eq. }
  exists {| w_heap := h1; w_files := w_files w |}. split; [| done].
  unfold process_video_to_scenes.
  destruct video; [done | |].
  all: erewrite bind_Ok by exact Eload; erewrite bind_Ok by reflexivity.
  all: by rewrite bind_lift; cbn [w_heap]; rewrite Hfind.
Qed.

(** X13. The light source of the template needs both coordinates, and a
    y to compute with: without x the run raises KeyError for x, without y
    KeyError for y, both before the video is scanned; with a y that is
    null or a string it raises TypeError when the offset is computed.
    No file is written in any of these cases. *)
Theorem light_source_fields_required (doc : json) (video : video_file) (num_samples : Z)
    (output_prefix : string) (generate_images : bool) (crop_top : Z) (w : world)
    (members : list (string * json)) (before : list json) (light : list (string * json))
    (after : list json) :
  keys_unique doc -> light_source_at doc members before light after ->
  video <> Missing ->
  (dict_get light "x" = None ->
   exists w',
     process_video_to_scenes (Document doc) video num_samples output_prefix
       generate_images crop_top w = (Err (KeyError "x"), w') /\
     w_files w' = w_files w) /\
  (is_Some (dict_get light "x") -> dict_get light "y" = None ->
   exists w',
     process_video_to_scenes (Document doc) video num_samples output_prefix
       generate_images crop_top w = (Err (KeyError "y"), w') /\
     w_files w' = w_files w) /\
  (forall coordinates first y,
     is_Some (dict_get light "x") ->
     dict_get light "y" = Some y -> (y = TAtom Null \/ exists s, y = JStr s) ->
     detect_green_dots_from_video video num_samples = Ok coordinates ->
     coordinates !! 0%nat = Some first ->
     exists w',
       process_video_to_scenes (Document doc) video num_samples output_prefix
         generate_images crop_top w = (Err TypeError, w') /\
       w_files w' = w_files w).
Proof.
  intros Hk Hls Hvideo.
  destruct (json_load_spec doc w Hk) as (t & h1 & Eload & Eerase & Hh & Hnd).
  rewrite <- Eerase in Hls.
  destruct (find_light_source_found h1 t _ _ _ _ Hh Hnd Hls) as (l_o & loms & Hfind & Hl & <-).
  assert (forall k, dict_get (prod_map id erase <$> loms) k = None ->
            py_getitem_key h1 (VRef l_o) k = Err (KeyError k)) as Hmissing.
  { intros k Hnone. unfold py_getitem_key. rewrite Hl, dict_get_fmap.
    rewrite dict_get_fmap in Hnone. by destruct (dict_get loms k). }
  assert (forall (r : result scenes_result),
    (forall video' : video_file, video' = video ->
      (template ← json_load doc;
       h ← get_heap;
       found ← lift (find_light_source h template);
       match found with
       | None => lift (Err (ValueError NoPointSource))
       | Some light_source =>
           template_x ← lift (py_getitem_key h light_source "x");
           template_y ← lift (py_getitem_key h light_source "y");
           coordinates ← lift (detect_green_dots_from_video video' num_samples);
           y_offset ← lift (compute_y_offset template_y coordinates);
           es ← mapM (emit_scene template y_offset output_prefix generate_images crop_top)
                     (enumerate1 coordinates);
           mret (collect es)
       end) w = (r, {| w_heap := h1; w_files := w_files w |})) ->
    exists w',
      process_video_to_scenes (Document doc) video num_samples output_prefix
        generate_images crop_top w = (r, w') /\ w_files w' = w_files w) as Hwrap.
  { intros r Hrun. exists {| w_heap := h1; w_files := w_files w |}. split; [| done].
    unfold process_video_to_scenes. destruct video; [done | by apply Hrun ..]. }
  split; [| split].
  - intros Hx. apply Hwrap. intros video' ->.
    erewrite bind_Ok by exact Eload. erewrite bind_Ok by reflexivity.
    rewrite bind_lift. cbn [w_heap]. rewrite Hfind.
    by rewrite bind_lift, (Hmissing "x" Hx).
  - intros Hx Hy. destruct (py_getitem_key_located h1 l_o loms "x" Hl Hx) as [vx Evx].
    apply Hwrap. intros video' ->.
    erewrite bind_Ok by exact Eload. erewrite bind_Ok by reflexivity.
    rewrite bind_lift. cbn [w_heap]. rewrite Hfind.
    by rewrite bind_lift, Evx, bind_lift, (Hmissing "y" Hy).
  - intros coordinates first y Hx Hy Hbad Hscan Hfirst.
    destruct (py_getitem_key_located h1 l_o loms "x" Hl Hx) as [vx Evx].
    assert (exists a, y = TAtom a /\ as_number (VAtom a) = Err TypeError) as (a & -> & Ha).
    { destruct Hbad as [-> | [s ->]]; by eexists. }
    pose proof (py_getitem_key_atom h1 l_o loms "y" a Hl Hy) as Evy.
    assert (compute_y_offset (VAtom a) coordinates = Err TypeError) as Eoff.
    { unfold compute_y_offset. destruct coordinates as [| c0 rest]; [done |].
      rewrite py_getitem_0. cbn [head mbind result_bind]. by rewrite Ha. }
    apply Hwrap. intros video' ->.
    erewrite bind_Ok by exact Eload. erewrite bind_Ok by reflexivity.
    rewrite bind_lift. cbn [w_heap]. rewrite Hfind.
    by rewrite bind_lift, Evx, bind_lift, Evy, bind_lift, Hscan, bind_lift, Eoff.
Qed.

End templates.

(** ** The properties above on the sample inputs *)

Lemma batch_template_keys_unique : keys_unique batch_template.
Proof. cbn. repeat split; solve_NoDup. Qed.

Lemma batch_template_object :
  object_at batch_template
    [("version", JNum (PInt 5)); ("objs", JArr [point_source (PInt 400) (PInt 625); mirror])]
    []
    [("type", JStr "PointSource"); ("x", JNum (PInt 400)); ("y", JNum (PInt 625))]
    [mirror].
Proof. by split. Qed.

Lemma sample_frames_scanned :
  Forall (fun fr => is_Ok (@detect_green_in_frame synthetic_cv fr)) sample_frames.
Proof. repeat (constructor; [eexists; vm_compute; reflexivity |]). constructor. Qed.

Lemma sample_frames_marker :
  Exists (fun fr => exists p, @detect_green_in_frame synthetic_cv fr = Ok (Some p))
         sample_frames.
Proof. apply Exists_cons_hd. eexists. vm_compute. reflexivity. Qed.

Lemma sample_frames_coordinates :
  @detect_green_dots_from_video synthetic_cv (@Readable synthetic_cv sample_frames) 2
    = Ok [{| c_frame := 1; c_x := 398; c_y := 556 |};
          {| c_frame := 3; c_x := 420; c_y := 560 |}].
Proof. vm_compute. reflexivity. Qed.

Lemma scan_frames_spec_witness :
  exists valid_frames,
    @scan_frames synthetic_cv sample_frames 0 [] = Ok (3, valid_frames) /\
    StronglySorted Z.lt valid_frames.*1.
Proof.
  destruct (@scan_frames_spec synthetic_cv sample_frames sample_frames_scanned)
    as (vf & E & _ & Hs & _).
  exists vf. split; [exact E | exact Hs].
Defined.

Lemma detect_green_dots_from_video_spec_witness :
  exists coordinates,
    @detect_green_dots_from_video synthetic_cv (@Readable synthetic_cv sample_frames) 2
      = Ok coordinates /\
    StronglySorted Z.lt (c_frame <$> coordinates).
Proof.
  destruct (@detect_green_dots_from_video_spec synthetic_cv sample_frames 2
              sample_frames_scanned sample_frames_marker)
    as (cs & E & _ & _ & Hs & _).
  - lia.
  - vm_compute. reflexivity.
  - exists cs. split; [exact E | exact Hs].
Defined.

Lemma scanners_agree_witness :
  exists coordinates summary,
    @detect_green_dot synthetic_cv (@Readable synthetic_cv sample_frames) true 2
      = Ok (coordinates, Some summary) /\
    total_frames summary = 3 /\ sampled_frames summary = 2.
Proof.
  destruct (@scanners_agree synthetic_cv (@Readable synthetic_cv sample_frames) 2 _
              sample_frames_coordinates) as (frames & Hv & _ & E).
  injection Hv as <-. eexists _, _. split; [exact E |]. split; reflexivity.
Defined.

Lemma zero_samples_raises_witness :
  @detect_green_dots_from_video synthetic_cv (@Readable synthetic_cv sample_frames) 0
    = Err ZeroDivisionError.
Proof.
  destruct (@zero_samples_raises synthetic_cv headless_renderer sample_frames true
              sample_frames_scanned sample_frames_marker) as (E & _).
  exact E.
Defined.

Lemma process_video_to_scenes_writes_witness :
  let empty := {| w_heap := ∅; w_files := ∅ |} in
  let run := @process_video_to_scenes synthetic_cv headless_renderer
               (Document sample_template) (@Readable synthetic_cv sample_frames)
               2 "test" true 0 empty in
  writes_only (fun p => exists i, 1 <= i /\ p ∈ scene_paths "test" i) empty run.2.
Proof.
  intros empty run.
  apply (@process_video_to_scenes_writes synthetic_cv headless_renderer
           (Document sample_template) (@Readable synthetic_cv sample_frames)
           2 "test" true 0 empty run.2 run.1).
  apply surjective_pairing.
Defined.

Lemma batch_generate_json_files_writes_witness :
  let empty := {| w_heap := ∅; w_files := ∅ |} in
  let captured :=
    {| total_frames := 3; sampled_frames := 1;
       saved_coordinates := [{| c_frame := 1; c_x := 398; c_y := 556 |}] |} in
  let run := batch_generate_json_files (Document batch_template) (Some captured) empty in
  writes_only (fun p => exists i, 1 <= i /\ p = batch_json_path i) empty run.2.
Proof.
  intros empty captured run.
  apply (batch_generate_json_files_writes (Document batch_template) (Some captured)
           empty run.2 run.1).
  apply surjective_pairing.
Defined.

Lemma process_video_to_scenes_spec_witness :
  let empty := {| w_heap := ∅; w_files := ∅ |} in
  exists res w',
    @process_video_to_scenes synthetic_cv headless_renderer
      (Document sample_template) (@Readable synthetic_cv sample_frames)
      2 "test" false 0 empty = (Ok res, w') /\
    json_files res = ["output/json/test_01.json"; "output/json/test_02.json"] /\
    image_files res = [] /\
    w_files w' !! "output/json/test_02.json"
      = Some (JsonDoc (JObj [("version", JNum (PInt 5));
                             ("objs", JArr [mirror; point_source (PInt 420) (PInt 629)])])).
Proof.
  intros empty.
  destruct (@process_video_to_scenes_spec synthetic_cv headless_renderer
              sample_template (@Readable synthetic_cv sample_frames) 2 "test" false 0 empty
              [("version", JNum (PInt 5));
               ("objs", JArr [mirror; point_source (PInt 400) (PInt 625)])]
              [mirror]
              [("type", JStr "PointSource"); ("x", JNum (PInt 400)); ("y", JNum (PInt 625))]
              []
              625
              [{| c_frame := 1; c_x := 398; c_y := 556 |};
               {| c_frame := 3; c_x := 420; c_y := 560 |}]
              {| c_frame := 1; c_x := 398; c_y := 556 |}
              sample_template_keys_unique)
    as (res & w' & E & Hj & _ & Hnone & _ & Hfiles).
  - apply Nat.leb_le. vm_compute. reflexivity.
  - exact sample_template_light_source.
  - by eexists.
  - reflexivity.
  - exact sample_frames_coordinates.
  - reflexivity.
  - intros scene. by eexists.
  - exists res, w'. split; [exact E |]. split; [exact Hj |]. split; [by apply Hnone |].
    destruct (Hfiles 2 {| c_frame := 3; c_x := 420; c_y := 560 |}) as (_ & _ & Hfile & _).
    + apply elem_of_enumerate1. split; [lia | reflexivity].
    + exact Hfile.
Defined.

Lemma batch_generate_json_files_spec_witness :
  let empty := {| w_heap := ∅; w_files := ∅ |} in
  let captured :=
    {| total_frames := 3; sampled_frames := 2;
       saved_coordinates := [{| c_frame := 1; c_x := 398; c_y := 556 |};
                             {| c_frame := 3; c_x := 420; c_y := 560 |}] |} in
  exists w',
    batch_generate_json_files (Document batch_template) (Some captured) empty
      = (Ok ["output/json/test_01.json"; "output/json/test_02.json"], w') /\
    w_files w' !! "output/json/test_02.json"
      = Some (JsonDoc (JObj [("version", JNum (PInt 5));
                             ("objs", JArr [point_source (PInt 420) (PInt 629); mirror])])).
Proof.
  intros empty captured.
  destruct (batch_generate_json_files_spec batch_template captured empty
              [("version", JNum (PInt 5));
               ("objs", JArr [point_source (PInt 400) (PInt 625); mirror])]
              [("type", JStr "PointSource"); ("x", JNum (PInt 400)); ("y", JNum (PInt 625))]
              [mirror]
              625 {| c_frame := 1; c_x := 398; c_y := 556 |}
              batch_template_keys_unique) as (w' & E & Hfiles).
  - apply Nat.leb_le. vm_compute. reflexivity.
  - exact batch_template_object.
  - by eexists.
  - reflexivity.
  - reflexivity.
  - exists w'. split; [exact E |].
    apply (Hfiles 2 {| c_frame := 3; c_x := 420; c_y := 560 |}).
    apply elem_of_enumerate1. split; [lia | reflexivity].
Defined.

Lemma scene_paths_disjoint_witness :
  scene_html_path "test" 7 ∈ scene_paths "test" 7 /\ (7 : Z) = 7.
Proof.
  assert (scene_html_path "test" 7 ∈ scene_paths "test" 7) as Hin by (right; left).
  split; [exact Hin |].
  exact (scene_paths_disjoint "test" 7 7 (scene_html_path "test" 7) Hin Hin).
Defined.

Lemma compressor_failure_leaves_json_witness :
  let empty := {| w_heap := ∅; w_files := ∅ |} in
  exists w',
    @process_video_to_scenes synthetic_cv broken_renderer
      (Document sample_template) (@Readable synthetic_cv sample_frames)
      2 "test" true 0 empty = (Err CalledProcessError, w') /\
    w_files w'
      = {[ "output/json/test_01.json" :=
             JsonDoc (JObj [("version", JNum (PInt 5));
                            ("objs", JArr [mirror; point_source (PInt 398) (PInt 625)])]) ]}.
Proof.
  intros empty.
  destruct (@compressor_failure_leaves_json synthetic_cv broken_renderer
              sample_template (@Readable synthetic_cv sample_frames) 2 "test" true 0 empty
              [("version", JNum (PInt 5));
               ("objs", JArr [mirror; point_source (PInt 400) (PInt 625)])]
              [mirror]
              [("type", JStr "PointSource"); ("x", JNum (PInt 400)); ("y", JNum (PInt 625))]
              []
              625 {| c_frame := 1; c_x := 398; c_y := 556 |}
              [{| c_frame := 3; c_x := 420; c_y := 560 |}] CalledProcessError
              sample_template_keys_unique)
    as (w' & E & Hfiles).
  - apply Nat.leb_le. vm_compute. reflexivity.
  - exact sample_template_light_source.
  - by eexists.
  - reflexivity.
  - exact sample_frames_coordinates.
  - reflexivity.
  - exists w'. split; [exact E |]. rewrite Hfiles. reflexivity.
Defined.

Lemma batch_generate_json_files_errors_witness :
  let empty := {| w_heap := ∅; w_files := ∅ |} in
  let captured := {| total_frames := 3; sampled_frames := 0; saved_coordinates := [] |} in
  exists w',
    batch_generate_json_files (Document batch_template) (Some captured) empty
      = (Err IndexError, w') /\
    w_files w' = ∅.
Proof.
  intros empty captured.
  destruct (batch_generate_json_files_errors batch_template empty
              [("version", JNum (PInt 5));
               ("objs", JArr [point_source (PInt 400) (PInt 625); mirror])]
              [("type", JStr "PointSource"); ("x", JNum (PInt 400)); ("y", JNum (PInt 625))]
              [mirror]
              batch_template_keys_unique batch_template_object) as (_ & Hempty & _).
  apply (Hempty captured); [by eexists | reflexivity].
Defined.

Lemma non_object_template_raises_witness :
  let empty := {| w_heap := ∅; w_files := ∅ |} in
  exists w',
    @process_video_to_scenes synthetic_cv headless_renderer
      (Document (JArr [mirror])) (@Unreadable synthetic_cv) 2 "test" true 0 empty
      = (Err AttributeError, w') /\
    w_files w' = ∅.
Proof.
  intros empty.
  apply (@non_object_template_raises synthetic_cv headless_renderer (JArr [mirror])
           (@Unreadable synthetic_cv) 2 "test" true 0 empty).
  - intros members. discriminate.
  - discriminate.
Defined.

Lemma light_source_fields_required_witness :
  let empty := {| w_heap := ∅; w_files := ∅ |} in
  let doc := JObj [("objs", JArr [JObj [("type", JStr "PointSource");
                                        ("x", JNum (PInt 400))]])] in
  exists w',
    @process_video_to_scenes synthetic_cv headless_renderer
      (Document doc) (@Unreadable synthetic_cv) 2 "test" true 0 empty
      = (Err (KeyError "y"), w') /\
    w_files w' = ∅.
Proof.
  intros empty doc.
  destruct (@light_source_fields_required synthetic_cv headless_renderer doc
              (@Unreadable synthetic_cv) 2 "test" true 0 empty
              [("objs", JArr [JObj [("type", JStr "PointSource"); ("x", JNum (PInt 400))]])]
              [] [("type", JStr "PointSource"); ("x", JNum (PInt 400))] [])
    as (_ & Hy & _).
  - cbn. repeat split; solve_NoDup.
  - split; [by split |]. split; [done | constructor].
  - discriminate.
  - apply Hy; [by eexists | reflexivity].
Defined.
